(** * Pose-scoring engine of the yoga coach: a shallow embedding

    The development follows the Python sources

      - [lambda_functions/shared/dtw_simple.py]          (module [DtwSimple])
      - [lambda_functions/shared/yoga_pose_analyzer.py]  (modules [Analyzer]
        and [AngleCalculator])

    Numbers.  The scoring code ([dtw_simple.py], [create_golden_standard],
    [evaluate_angles]) is arithmetic on Python floats.  Modules
    [DtwSimple] and [Analyzer] embed it over the exact rationals [Q],
    compared with [==], with the value [np.inf] of the cost matrix as an
    explicit constructor: a frame there holds numbers only, never a NaN,
    and no operation rounds.  Module [Binary64] embeds the aggregator and
    the scorer once more over IEEE-754 binary64 ([PrimFloat]) and decides
    what depends on a rounding: the place of the mean between the minimum
    and the maximum, and the place of the blended score between the two
    scores it blends.  The angle calculator is embedded over binary64
    only, because what it returns on degenerate input is decided by the
    special values of that format. *)

From Stdlib Require Import QArith Qminmax Qabs Floats Ascii Lia Lqa.
From stdpp Require Import base option list gmap strings.

Local Open Scope Q_scope.

(** ** Python values shared by the modules *)

(** A float that may be [np.inf] (only [+inf] ever occurs in the matrix). *)
Inductive ext : Type :=
  | Fin (q : Q)
  | Inf.

(** [x < y] on floats with [+inf]. *)
Definition ext_ltb (x y : ext) : bool :=
  match x, y with
  | Fin p, Fin q => if Qlt_le_dec p q then true else false
  | Fin _, Inf => true
  | Inf, _ => false
  end.

(** Python's [min(x, y, z)]: the first argument is kept unless a later one
    is strictly smaller. *)
Definition py_min3 (x y z : ext) : ext :=
  let r := if ext_ltb y x then y else x in
  if ext_ltb z r then z else r.

Definition ext_add (x y : ext) : ext :=
  match x, y with
  | Fin p, Fin q => Fin (p + q)
  | _, _ => Inf
  end.

(** Python's [max(0, x)] / [max(0.0, x)]: [x] only when it is strictly
    larger than [0]. *)
Definition py_max0 (x : Q) : Q := if Qlt_le_dec 0 x then x else 0.

(** [seq[i]] for an index the loops keep in range. *)
Definition item (l : list Q) (i : nat) : Q := default 0 (l !! i).

Module DtwSimple.

(** *** The cost matrix: a list of rows *)

Abbreviation matrix := (list (list ext)).

(** [np.full((rows, cols), np.inf)] *)
Definition np_full (rows cols : nat) : matrix := replicate rows (replicate cols Inf).

(** [M[i, j]]; every access of [dtw_distance] is inside the matrix. *)
Definition mget (M : matrix) (i j : nat) : ext :=
  default Inf (M !! i ≫= fun row => row !! j).

(** [M[i, j] = v] *)
Definition mset (M : matrix) (i j : nat) (v : ext) : matrix :=
  match M !! i with
  | Some row => <[i := <[j := v]> row]> M
  | None => M
  end.

(** Body of the inner loop of [dtw_distance]. *)
Definition fill_cell (seq1 seq2 : list Q) (i : nat) (M : matrix) (j : nat) : matrix :=
  let cost := Qabs (item seq1 (i - 1) - item seq2 (j - 1)) in
  mset M i j
    (ext_add (Fin cost)
       (py_min3 (mget M (i - 1) j) (mget M i (j - 1)) (mget M (i - 1) (j - 1)))).

(** [for j in range(1, m + 1): ...] *)
Definition fill_row (seq1 seq2 : list Q) (m : nat) (M : matrix) (i : nat) : matrix :=
  foldl (fill_cell seq1 seq2 i) M (seq 1 m).

(** [for i in range(1, n + 1): for j in range(1, m + 1): ...] *)
Definition fill_matrix (seq1 seq2 : list Q) : matrix :=
  let n := length seq1 in
  let m := length seq2 in
  foldl (fill_row seq1 seq2 m) (mset (np_full (n + 1) (m + 1)) 0 0 (Fin 0)) (seq 1 n).

(** [dtw_distance(seq1, seq2)] *)
Definition dtw_distance (seq1 seq2 : list Q) : ext :=
  mget (fill_matrix seq1 seq2) (length seq1) (length seq2).

(** [normalized_dtw_distance(seq1, seq2)] *)
Definition normalized_dtw_distance (seq1 seq2 : list Q) : ext :=
  let distance := dtw_distance seq1 seq2 in
  let path_length := (length seq1 + length seq2)%nat in
  if (0 <? path_length)%nat then
    match distance with
    | Fin d => Fin (d / inject_Z (Z.of_nat path_length))
    | Inf => Inf
    end
  else Fin 0.

(** [dtw_score(seq1, seq2, max_angle_diff)]; [100.0 - inf] is [-inf], so
    the maximum with [0.0] is [0.0]. *)
Definition dtw_score (seq1 seq2 : list Q) (max_angle_diff : Q) : Q :=
  match seq1, seq2 with
  | [], _ | _, [] => 0
  | _, _ =>
      match normalized_dtw_distance seq1 seq2 with
      | Fin norm_distance => py_max0 (100 - (norm_distance / max_angle_diff) * 100)
      | Inf => 0
      end
  end.

(** *** The recurrence as the specification words it

    [C[0][0] = 0], every other boundary cell is [+infinity], and
    [C[i][j] = |a[i-1] - b[j-1]| + min(C[i-1][j], C[i][j-1], C[i-1][j-1])]. *)
Fixpoint C_ref (a b : list Q) (i : nat) : nat -> ext :=
  match i with
  | O => fun j => match j with O => Fin 0 | S _ => Inf end
  | S i' =>
      fix row (j : nat) : ext :=
        match j with
        | O => Inf
        | S j' =>
            ext_add (Fin (Qabs (item a i' - item b j')))
              (py_min3 (C_ref a b i' j) (row j') (C_ref a b i' j'))
        end
  end.

(** Score of the specification: distance [C[n][m]], normalised by [n + m],
    mapped to [max(0, 100 - (normalized / 180) * 100)]. *)
Definition score_ref (a b : list Q) : Q :=
  match C_ref a b (length a) (length b) with
  | Fin distance =>
      let normalized := distance / inject_Z (Z.of_nat (length a + length b)) in
      py_max0 (100 - (normalized / 180) * 100)
  | Inf => 0
  end.

End DtwSimple.

Module Analyzer.

(** *** Pose configuration table *)

Record pose_config : Type := {
  angles : list string;
  tolerances : gmap string Q
}.

Definition tolerance_table (l : list (string * Q)) : gmap string Q := list_to_map l.

(** [YogaPoseAnalyzer.POSE_ANGLE_DEFINITIONS] *)
Definition POSE_ANGLE_DEFINITIONS : list (string * pose_config) :=
  [ ("downward-dog",
      {| angles := ["left_shoulder"; "right_shoulder"; "left_hip"; "right_hip";
                    "left_knee"; "right_knee"; "spine_alignment"];
         tolerances := tolerance_table
           [("left_shoulder", 15); ("right_shoulder", 15); ("left_hip", 20);
            ("right_hip", 20); ("left_knee", 10); ("right_knee", 10);
            ("spine_alignment", 8)] |});
    ("warrior-1",
      {| angles := ["left_hip"; "right_hip"; "left_knee"; "right_knee";
                    "left_shoulder"; "right_shoulder"; "spine_alignment"];
         tolerances := tolerance_table
           [("left_hip", 25); ("right_hip", 25); ("left_knee", 15);
            ("right_knee", 15); ("left_shoulder", 20); ("right_shoulder", 20);
            ("spine_alignment", 10)] |});
    ("warrior-2",
      {| angles := ["left_hip"; "right_hip"; "left_knee"; "right_knee";
                    "left_shoulder"; "right_shoulder"; "left_elbow"; "right_elbow"];
         tolerances := tolerance_table
           [("left_hip", 25); ("right_hip", 25); ("left_knee", 15);
            ("right_knee", 15); ("left_shoulder", 20); ("right_shoulder", 20);
            ("left_elbow", 10); ("right_elbow", 10)] |});
    ("tree-pose",
      {| angles := ["left_hip"; "right_hip"; "left_knee"; "right_knee";
                    "left_shoulder"; "right_shoulder"; "spine_alignment"];
         tolerances := tolerance_table
           [("left_hip", 20); ("right_hip", 20); ("left_knee", 25);
            ("right_knee", 25); ("left_shoulder", 15); ("right_shoulder", 15);
            ("spine_alignment", 12)] |});
    ("triangle-pose",
      {| angles := ["left_hip"; "right_hip"; "left_knee"; "right_knee";
                    "left_shoulder"; "right_shoulder"; "spine_alignment"];
         tolerances := tolerance_table
           [("left_hip", 20); ("right_hip", 20); ("left_knee", 10);
            ("right_knee", 10); ("left_shoulder", 25); ("right_shoulder", 25);
            ("spine_alignment", 15)] |}) ].

(** What a method returns or raises. *)
Inductive result (A : Type) : Type :=
  | Ok (a : A)
  | ValueError (msg : string).
Arguments Ok {A} a.
Arguments ValueError {A} msg.

(** The fields of [self] that the scoring methods read. *)
Record analyzer : Type := {
  pose_name : string;
  angle_config : pose_config
}.

Fixpoint assoc {A : Type} (k : string) (l : list (string * A)) : option A :=
  match l with
  | [] => None
  | (k', v) :: t => if String.eqb k k' then Some v else assoc k t
  end.

(** [YogaPoseAnalyzer.__init__] without the detector it also creates. *)
Definition init (name : string) : result analyzer :=
  match assoc name POSE_ANGLE_DEFINITIONS with
  | Some cfg => Ok {| pose_name := name; angle_config := cfg |}
  | None => ValueError "Unsupported pose"
  end.

(** *** Documents *)

(** One frame's angles: a dict from angle name to degrees. *)
Abbreviation frame_angles := (gmap string Q).

(** An entry of [golden_standard['angles']]; a stored document may lack
    the [confidence] key, which [evaluate_angles] reads with [.get]. *)
Record angle_stats : Type := {
  mean : Q;
  std : Q;
  min : Q;
  max : Q;
  count : nat;
  confidence : option Q
}.

(** The golden standard document; [created_at] is a wall-clock label and
    is left out. The keys [angles] and [angle_sequences] may be absent in
    a document handed to [evaluate_angles]. *)
Record golden_standard : Type := {
  gs_pose_name : string;
  video_source : string;
  total_frames : nat;
  gs_angles : option (gmap string angle_stats);
  angle_sequences : option (list frame_angles);
  metadata : gmap string string
}.

Inductive status_t : Type := EXCELLENT | GOOD | NEEDS_IMPROVEMENT | POOR.

(** An entry of [angle_evaluations]. *)
Record angle_evaluation : Type := {
  test_mean : Q;
  golden_mean : Q;
  deviation : Q;
  tolerance : Q;
  mean_based_score : Q;
  dtw_score : option Q;
  combined_score : Q;
  score : Q;
  status : status_t
}.

Record evaluation : Type := {
  overall_score : Q;
  angle_evaluations : gmap string angle_evaluation;
  ev_total_frames : nat
}.

(** *** numpy reductions on a list of floats

    Exact here: no sum or quotient rounds.  Module [Binary64] has the
    rounded versions. *)

Definition np_sum (l : list Q) : Q := foldr Qplus 0 l.
Definition qlen (l : list Q) : Q := inject_Z (Z.of_nat (length l)).
Definition np_mean (l : list Q) : Q := np_sum l / qlen l.
Definition np_min (l : list Q) : Q :=
  match l with [] => 0 | x :: t => foldl Qmin x t end.
Definition np_max (l : list Q) : Q :=
  match l with [] => 0 | x :: t => foldl Qmax x t end.

(** The values of one angle over the frames that have it:
    [[f[name] for f in frames if name in f]]. *)
Definition values_of (name : string) (frames : list frame_angles) : list Q :=
  omap (fun f : frame_angles => f !! name) frames.

Section Aggregator.

(** [np.sqrt] on floats. *)
Variable np_sqrt : Q -> Q.

(** [np.std]: square root of the mean squared distance to the mean. *)
Definition np_std (l : list Q) : Q :=
  let mu := np_mean l in
  np_sqrt (np_mean (map (fun x => Qabs (x - mu) * Qabs (x - mu)) l)).

(** Statistics of one angle. *)
Definition aggregate (values : list Q) (nframes : nat) : angle_stats :=
  {| mean := np_mean values;
     std := np_std values;
     min := np_min values;
     max := np_max values;
     count := length values;
     confidence := Some (qlen values / inject_Z (Z.of_nat nframes)) |}.

(** The names of all angles seen in some frame. *)
Definition all_angle_names (angle_data : list frame_angles) : gset string :=
  foldl (fun acc (f : frame_angles) => acc ∪ dom f) ∅ angle_data.

(** Loop body of the aggregation. *)
Definition aggregate_step (angle_data : list frame_angles)
    (angle_aggregates : gmap string angle_stats) (angle_name : string)
    : gmap string angle_stats :=
  let values := values_of angle_name angle_data in
  match values with
  | [] => angle_aggregates
  | _ => <[angle_name := aggregate values (length angle_data)]> angle_aggregates
  end.

(** [create_golden_standard(angle_data, video_source, metadata)] *)
Definition create_golden_standard (self : analyzer)
    (angle_data : list frame_angles) (source : string)
    (md : option (gmap string string)) : result golden_standard :=
  match angle_data with
  | [] => ValueError "Cannot create golden standard from empty angle data"
  | _ =>
      let angle_aggregates :=
        foldl (aggregate_step angle_data) ∅ (elements (all_angle_names angle_data)) in
      Ok {| gs_pose_name := pose_name self;
            video_source := source;
            total_frames := length angle_data;
            gs_angles := Some angle_aggregates;
            angle_sequences := Some angle_data;
            metadata := default ∅ md |}
  end.

End Aggregator.

Section Scorer.

(** The external sequence-alignment routine [fastdtw(x, y, dist=euclidean)]:
    the distance it returns, or [None] when the call (or its import)
    raises. *)
Variable fastdtw : list Q -> list Q -> option Q.

(** Loop body of the first definition of [evaluate_with_dtw].  It calls
    a global [dtw_score]; [yoga_pose_analyzer.py] binds no such name (a
    call would raise [NameError]), so the function the name is to denote
    is the argument [dtw_score]. *)
Definition dtw_step_simple (dtw_score : list Q -> list Q -> Q -> Q)
    (test_angles golden_angles : list frame_angles)
    (dtw_scores : gmap string Q) (angle_name : string) : gmap string Q :=
  let test_seq := values_of angle_name test_angles in
  let golden_seq := values_of angle_name golden_angles in
  if ((length test_seq <? 3)%nat || (length golden_seq <? 3)%nat)%bool
  then dtw_scores
  else <[angle_name := dtw_score test_seq golden_seq 180]> dtw_scores.

(** The first definition of [evaluate_with_dtw] in the class body, for a
    given meaning of the name [dtw_score].  The later definition of the
    same name replaces it, so no call reaches it. *)
Definition evaluate_with_dtw_shadowed (dtw_score : list Q -> list Q -> Q -> Q)
    (self : analyzer) (test_angles golden_angles : list frame_angles)
    : gmap string Q :=
  foldl (dtw_step_simple dtw_score test_angles golden_angles) ∅
    (angles (angle_config self)).

(** Score computed inside the [try] block of the second definition. *)
Definition fastdtw_score (test_seq golden_seq : list Q) : option Q :=
  match fastdtw test_seq golden_seq with
  | Some distance =>
      let avg_length :=
        inject_Z (Z.of_nat (length test_seq + length golden_seq)) / 2 in
      let normalized_distance := distance / avg_length in
      let max_distance := 30 in
      Some (py_max0 (100 - (normalized_distance / max_distance) * 100))
  | None => None
  end.

(** Loop body of the second definition of [evaluate_with_dtw]. *)
Definition dtw_step (test_angles golden_angles : list frame_angles)
    (dtw_scores : gmap string Q) (angle_name : string) : gmap string Q :=
  let test_seq := values_of angle_name test_angles in
  let golden_seq := values_of angle_name golden_angles in
  if ((length test_seq <? 3)%nat || (length golden_seq <? 3)%nat)%bool
  then dtw_scores
  else
    match fastdtw_score test_seq golden_seq with
    | Some score => <[angle_name := score]> dtw_scores
    | None => dtw_scores
    end.

(** [evaluate_with_dtw(test_angles, golden_angles)]: the second definition,
    the one bound to the name when the class body has run. *)
Definition evaluate_with_dtw (self : analyzer)
    (test_angles golden_angles : list frame_angles) : gmap string Q :=
  match test_angles, golden_angles with
  | [], _ | _, [] => ∅
  | _, _ => foldl (dtw_step test_angles golden_angles) ∅ (angles (angle_config self))
  end.

(** The DTW scores [evaluate_angles] works with: those of
    [evaluate_with_dtw] when the golden standard has a non-empty
    [angle_sequences], the empty dict otherwise. *)
Definition golden_dtw_scores (self : analyzer) (test_angles : list frame_angles)
    (golden : golden_standard) : gmap string Q :=
  match angle_sequences golden with
  | Some (f :: fs) => evaluate_with_dtw self test_angles (f :: fs)
  | _ => ∅
  end.

(** First loop of [evaluate_angles]: the mean of every golden angle that
    some test frame has. *)
Definition means_step (test_angles : list frame_angles)
    (test_angle_means : gmap string Q) (angle_name : string) : gmap string Q :=
  match values_of angle_name test_angles with
  | [] => test_angle_means
  | values => <[angle_name := np_mean values]> test_angle_means
  end.

Definition status_of (score : Q) : status_t :=
  if Qle_bool 85 score then EXCELLENT
  else if Qle_bool 70 score then GOOD
  else if Qle_bool 50 score then NEEDS_IMPROVEMENT
  else POOR.

(** The mean-based score of one angle. *)
Definition static_score (abs_deviation tolerance : Q) : Q :=
  if Qle_bool abs_deviation tolerance
  then 100 - (abs_deviation / tolerance) * 30
  else
    let excess_deviation := abs_deviation - tolerance in
    py_max0 (70 - (excess_deviation / tolerance) * 70).

(** The entry written for one angle. *)
Definition evaluate_one (self : analyzer) (dtw_scores : gmap string Q)
    (angle_name : string) (golden_stats : angle_stats) (test_mean : Q)
    : angle_evaluation :=
  let golden_mean := mean golden_stats in
  let tolerance := default 15 (tolerances (angle_config self) !! angle_name) in
  let deviation := test_mean - golden_mean in
  let abs_deviation := Qabs deviation in
  let score := static_score abs_deviation tolerance in
  let status := status_of score in
  let dtw_score := dtw_scores !! angle_name in
  let combined_score :=
    match dtw_score with
    | Some d => score * (7 # 10) + d * (3 # 10)
    | None => score
    end in
  {| test_mean := test_mean;
     golden_mean := golden_mean;
     deviation := deviation;
     tolerance := tolerance;
     mean_based_score := score;
     dtw_score := dtw_score;
     combined_score := combined_score;
     score := combined_score;
     status := status |}.

(** The variables the main loop of [evaluate_angles] updates. *)
Record loop_state : Type := {
  st_evaluations : gmap string angle_evaluation;
  total_score : Q;
  total_weight : Q
}.

(** Body of the main loop. *)
Definition evaluate_step (self : analyzer)
    (test_angle_means dtw_scores : gmap string Q)
    (st : loop_state) (item : string * angle_stats) : loop_state :=
  let '(angle_name, golden_stats) := item in
  match test_angle_means !! angle_name with
  | None => st
  | Some test_mean =>
      let ev := evaluate_one self dtw_scores angle_name golden_stats test_mean in
      let weight := default 1 (confidence golden_stats) in
      {| st_evaluations := <[angle_name := ev]> (st_evaluations st);
         total_score := total_score st + combined_score ev * weight;
         total_weight := total_weight st + weight |}
  end.

(** [evaluate_angles(test_angles, golden_standard)] *)
Definition evaluate_angles (self : analyzer) (test_angles : list frame_angles)
    (golden : golden_standard) : result evaluation :=
  match test_angles with
  | [] => ValueError "Cannot evaluate empty test angles"
  | _ =>
      match gs_angles golden with
      | None => ValueError "Invalid golden standard: missing 'angles' key"
      | Some golden_angles =>
          let items := map_to_list golden_angles in
          let test_angle_means := foldl (means_step test_angles) ∅ items.*1 in
          let dtw_scores := golden_dtw_scores self test_angles golden in
          let st :=
            foldl (evaluate_step self test_angle_means dtw_scores)
              {| st_evaluations := ∅; total_score := 0; total_weight := 0 |}
              items in
          let overall :=
            if Qlt_le_dec 0 (total_weight st)
            then total_score st / total_weight st
            else 0 in
          Ok {| overall_score := overall;
                angle_evaluations := st_evaluations st;
                ev_total_frames := length test_angles |}
      end
  end.

End Scorer.

(** The exact dynamic-time-warping distance with [|x - y|] as the point
    distance: what the external routine returns when its search window
    covers the whole cost matrix. *)
Definition exact_dtw (x y : list Q) : option Q :=
  match DtwSimple.dtw_distance x y with
  | Fin d => Some d
  | Inf => None
  end.

End Analyzer.

Module AngleCalculator.

Local Open Scope float_scope.

(** A dict with the keys [x], [y], [z]. *)
Record point : Type := { x : float; y : float; z : float }.

(** A detected landmark: a point and its visibility score. *)
Record landmark : Type := { pos : point; visibility : float }.

Abbreviation landmarks_t := (gmap string landmark).

(** [np.dot] of two vectors of three coordinates. *)
Definition np_dot (u v : point) : float :=
  x u * x v + y u * y v + z u * z v.

(** [np.linalg.norm] of a vector: the square root of its dot square. *)
Definition np_linalg_norm (u : point) : float := PrimFloat.sqrt (np_dot u u).

(** [np.clip(c, -1.0, 1.0)]; a NaN fails both comparisons and is passed on. *)
Definition np_clip (c : float) : float :=
  if c <? -1 then -1 else if 1 <? c then 1 else c.

Definition pi : float := 0x1.921fb54442d18p+1.

(** [math.degrees] *)
Definition math_degrees (r : float) : float := r * (180 / pi).

Section Calculator.

(** Arc cosine on [[-1, 1]], from the C library. *)
Variable acos : float -> float.

(** [math.acos]: a NaN argument gives NaN, an argument outside [[-1, 1]]
    raises [ValueError] (here [None]). *)
Definition math_acos (c : float) : option float :=
  if PrimFloat.is_nan c then Some c
  else if ((-1 <=? c) && (c <=? 1))%bool then Some (acos c)
  else None.

(** [_calculate_angle(point1, point2, point3)].  Division of numpy floats
    raises no [ZeroDivisionError]: [0/0] is NaN.  The only exception the
    body can raise is the [ValueError] of [math.acos]. *)
Definition _calculate_angle (point1 point2 point3 : point) : option float :=
  let vector1 := {| x := x point1 - x point2; y := y point1 - y point2;
                    z := z point1 - z point2 |} in
  let vector2 := {| x := x point3 - x point2; y := y point3 - y point2;
                    z := z point3 - z point2 |} in
  let cos_angle :=
    np_dot vector1 vector2 / (np_linalg_norm vector1 * np_linalg_norm vector2) in
  let cos_angle := np_clip cos_angle in
  match math_acos cos_angle with
  | Some a => Some (math_degrees a)
  | None => None
  end.

(** [_check_landmarks_visible(landmarks, landmark_names)] *)
Fixpoint _check_landmarks_visible (threshold : float) (landmarks : landmarks_t)
    (landmark_names : list string) : bool :=
  match landmark_names with
  | [] => true
  | name :: rest =>
      match landmarks !! name with
      | None => false
      | Some lm =>
          if visibility lm <? threshold then false
          else _check_landmarks_visible threshold landmarks rest
      end
  end.

(** [landmarks[name]] after the visibility check has found the key. *)
Definition at_key (landmarks : landmarks_t) (name : string) : point :=
  match landmarks !! name with
  | Some lm => pos lm
  | None => {| x := 0; y := 0; z := 0 |}
  end.

(** The block that [calculate_angles] repeats for each of the eight joint
    angles: [name] is tracked, its three landmarks [a], [b] (vertex), [c]
    are visible, and the angle is entered unless it is [None]. *)
Definition joint_block (tracked : list string) (threshold : float)
    (landmarks : landmarks_t) (name a b c : string)
    (angles : gmap string float) : gmap string float :=
  if bool_decide (name ∈ tracked) then
    if _check_landmarks_visible threshold landmarks [a; b; c] then
      match _calculate_angle (at_key landmarks a) (at_key landmarks b)
              (at_key landmarks c) with
      | Some angle => <[name := angle]> angles
      | None => angles
      end
    else angles
  else angles.

Definition midpoint (p q : point) : point :=
  {| x := (x p + x q) / 2; y := (y p + y q) / 2; z := (z p + z q) / 2 |}.

(** The last block: the spine angle at the middle of the shoulders. *)
Definition spine_block (tracked : list string) (threshold : float)
    (landmarks : landmarks_t) (angles : gmap string float) : gmap string float :=
  if bool_decide ("spine_alignment" ∈ tracked) then
    if _check_landmarks_visible threshold landmarks
         ["left_hip"; "right_hip"; "left_shoulder"; "right_shoulder"; "nose"] then
      let mid_hip := midpoint (at_key landmarks "left_hip") (at_key landmarks "right_hip") in
      let mid_shoulder :=
        midpoint (at_key landmarks "left_shoulder") (at_key landmarks "right_shoulder") in
      match _calculate_angle mid_hip mid_shoulder (at_key landmarks "nose") with
      | Some angle => <["spine_alignment" := angle]> angles
      | None => angles
      end
    else angles
  else angles.

(** [calculate_angles(landmarks)] for an analyzer that tracks the angles
    [tracked] with visibility threshold [threshold]. *)
Definition calculate_angles (tracked : list string) (threshold : float)
    (landmarks : landmarks_t) : gmap string float :=
  let blk := joint_block tracked threshold landmarks in
  let angles : gmap string float := ∅ in
  let angles := blk "left_shoulder" "left_shoulder" "left_elbow" "left_wrist" angles in
  let angles := blk "right_shoulder" "right_shoulder" "right_elbow" "right_wrist" angles in
  let angles := blk "left_hip" "left_shoulder" "left_hip" "left_knee" angles in
  let angles := blk "right_hip" "right_shoulder" "right_hip" "right_knee" angles in
  let angles := blk "left_knee" "left_hip" "left_knee" "left_ankle" angles in
  let angles := blk "right_knee" "right_hip" "right_knee" "right_ankle" angles in
  let angles := blk "left_elbow" "left_shoulder" "left_elbow" "left_wrist" angles in
  let angles := blk "right_elbow" "right_shoulder" "right_elbow" "right_wrist" angles in
  spine_block tracked threshold landmarks angles.

End Calculator.

(** The default of the constructor argument [visibility_threshold], the
    binary64 number nearest to 0.3. *)
Definition default_visibility_threshold : float := 0x1.3333333333333p-2.

(** A frame in which the left shoulder and the left elbow coincide, so the
    vector from the vertex (elbow) to the shoulder has zero length; every
    landmark is fully visible. *)
Definition lm (px py pz : float) : landmark :=
  {| pos := {| x := px; y := py; z := pz |}; visibility := 1 |}.

Definition degenerate_frame : landmarks_t :=
  <["left_shoulder" := lm 0.5 0.5 0]>
  (<["left_elbow" := lm 0.5 0.5 0]>
  (<["left_wrist" := lm 0.75 0.5 0]> ∅)).

End AngleCalculator.

Module Feedback.

(** The feedback half of [yoga_pose_analyzer.py]: the template table and
    [generate_feedback]. *)

(** What a call returns or raises. *)
Inductive outcome (A : Type) : Type :=
  | Done (a : A)
  | KeyError (key : string)
  | FormatError (msg : string)
  | Unsupported.
Arguments Done {A} a.
Arguments KeyError {A} key.
Arguments FormatError {A} msg.
Arguments Unsupported {A}.

(** *** [str.format] with keyword arguments

    The model covers templates made of text, the escapes [{{] and [}}],
    and replacement fields [{name}] and [{name:spec}] whose name is a
    keyword; every template of the source has this form.  A field with a
    conversion ([!]), an attribute, an index or a position is outside the
    model ([Unsupported]). *)

Inductive scan_state : Type :=
  | Text                      (* between fields *)
  | AfterOpen                 (* just read a left brace *)
  | AfterClose                (* just read a right brace *)
  | InField (field : string). (* inside a field, [field] read so far *)

Definition lbrace : ascii := "{"%char.
Definition rbrace : ascii := "}"%char.

Definition snoc (s : string) (c : ascii) : string :=
  String.append s (String c EmptyString).

(** [name] and [spec] of a field [name:spec]; the spec is empty when the
    field has no colon. *)
Fixpoint split_field (field : string) : string * string :=
  match field with
  | EmptyString => (EmptyString, EmptyString)
  | String c rest =>
      if Ascii.eqb c ":"%char then (EmptyString, rest)
      else let '(name, spec) := split_field rest in (String c name, spec)
  end.

Fixpoint has_char (c : ascii) (s : string) : bool :=
  match s with
  | EmptyString => false
  | String c' rest => (Ascii.eqb c c' || has_char c rest)%bool
  end.

Definition is_digit (c : ascii) : bool :=
  let n := nat_of_ascii c in ((48 <=? n)%nat && (n <=? 57)%nat)%bool.

Fixpoint all_digits (s : string) : bool :=
  match s with
  | EmptyString => true
  | String c rest => (is_digit c && all_digits rest)%bool
  end.

Section Format.

(** [format(value, spec)] on a float. *)
Variable format_float : string -> Q -> string.

(** The text that replaces one field. *)
Definition render_field (kwargs : list (string * Q)) (field : string)
    : outcome string :=
  let '(name, spec) := split_field field in
  if (has_char "!"%char name || has_char "."%char name || has_char "["%char name
      || all_digits name)%bool
  then Unsupported
  else
    match Analyzer.assoc name kwargs with
    | Some value => Done (format_float spec value)
    | None => KeyError name
    end.

Fixpoint format_scan (kwargs : list (string * Q)) (state : scan_state)
    (out : string) (template : string) : outcome string :=
  match template with
  | EmptyString =>
      match state with
      | Text => Done out
      | AfterOpen => FormatError "Single '{' encountered in format string"
      | AfterClose => FormatError "Single '}' encountered in format string"
      | InField _ => FormatError "expected '}' before end of string"
      end
  | String c rest =>
      match state with
      | Text =>
          if Ascii.eqb c lbrace then format_scan kwargs AfterOpen out rest
          else if Ascii.eqb c rbrace then format_scan kwargs AfterClose out rest
          else format_scan kwargs Text (snoc out c) rest
      | AfterOpen =>
          if Ascii.eqb c lbrace then format_scan kwargs Text (snoc out lbrace) rest
          else if Ascii.eqb c rbrace then Unsupported
          else format_scan kwargs (InField (String c EmptyString)) out rest
      | AfterClose =>
          if Ascii.eqb c rbrace then format_scan kwargs Text (snoc out rbrace) rest
          else FormatError "Single '}' encountered in format string"
      | InField field =>
          if Ascii.eqb c rbrace then
            match render_field kwargs field with
            | Done text => format_scan kwargs Text (String.append out text) rest
            | KeyError key => KeyError key
            | FormatError msg => FormatError msg
            | Unsupported => Unsupported
            end
          else if Ascii.eqb c lbrace then Unsupported
          else format_scan kwargs (InField (snoc field c)) out rest
      end
  end.

(** [template.format(deviation=abs_deviation)], for any keywords. *)
Definition py_format (template : string) (kwargs : list (string * Q))
    : outcome string :=
  format_scan kwargs Text EmptyString template.

(** *** Templates *)

Record template : Type := {
  positive : string;
  negative : string;
  recommendation : string
}.

(** [YogaPoseAnalyzer.FEEDBACK_TEMPLATES] *)
Definition FEEDBACK_TEMPLATES : list (string * template) :=
  [ ("left_shoulder",
      {| positive := "Your left shoulder angle is {deviation:.1f}¬∞ from ideal, which is within the acceptable range.";
         negative := "Your left shoulder angle deviates by {deviation:.1f}¬∞ from ideal. Try adjusting your arm position.";
         recommendation := "Focus on shoulder alignment and arm extension." |});
    ("right_shoulder",
      {| positive := "Your right shoulder angle is {deviation:.1f}¬∞ from ideal, which is within the acceptable range.";
         negative := "Your right shoulder angle deviates by {deviation:.1f}¬∞ from ideal. Try adjusting your arm position.";
         recommendation := "Focus on shoulder alignment and arm extension." |});
    ("left_hip",
      {| positive := "Your left hip angle is well-aligned, only {deviation:.1f}¬∞ from ideal.";
         negative := "Your left hip angle deviates by {deviation:.1f}¬∞ from ideal. Work on hip flexibility and positioning.";
         recommendation := "Practice hip opening exercises and focus on proper hip alignment." |});
    ("right_hip",
      {| positive := "Your right hip angle is well-aligned, only {deviation:.1f}¬∞ from ideal.";
         negative := "Your right hip angle deviates by {deviation:.1f}¬∞ from ideal. Work on hip flexibility and positioning.";
         recommendation := "Practice hip opening exercises and focus on proper hip alignment." |});
    ("left_knee",
      {| positive := "Your left knee alignment is good, within {deviation:.1f}¬∞ of ideal.";
         negative := "Your left knee angle is off by {deviation:.1f}¬∞. Ensure proper knee alignment to avoid injury.";
         recommendation := "Keep your knee aligned over your ankle and avoid hyperextension." |});
    ("right_knee",
      {| positive := "Your right knee alignment is good, within {deviation:.1f}¬∞ of ideal.";
         negative := "Your right knee angle is off by {deviation:.1f}¬∞. Ensure proper knee alignment to avoid injury.";
         recommendation := "Keep your knee aligned over your ankle and avoid hyperextension." |});
    ("left_elbow",
      {| positive := "Your left elbow position is correct, only {deviation:.1f}¬∞ from ideal.";
         negative := "Your left elbow angle deviates by {deviation:.1f}¬∞. Adjust your arm extension.";
         recommendation := "Focus on maintaining straight or properly bent arms as required by the pose." |});
    ("right_elbow",
      {| positive := "Your right elbow position is correct, only {deviation:.1f}¬∞ from ideal.";
         negative := "Your right elbow angle deviates by {deviation:.1f}¬∞. Adjust your arm extension.";
         recommendation := "Focus on maintaining straight or properly bent arms as required by the pose." |});
    ("spine_alignment",
      {| positive := "Your spine alignment is excellent, only {deviation:.1f}¬∞ from ideal.";
         negative := "Your spine alignment needs improvement, deviating by {deviation:.1f}¬∞. Focus on lengthening your spine.";
         recommendation := "Engage your core and focus on maintaining a neutral spine throughout the pose." |}) ].

(** The template [generate_feedback] falls back to for an angle without
    an entry in the table. *)
Definition default_template : template :=
  {| positive := "Your {angle} is {deviation:.1f}¬∞ from ideal.";
     negative := "Your {angle} deviates by {deviation:.1f}¬∞ from ideal.";
     recommendation := "Focus on proper alignment for this angle." |}.

(** *** The result document *)

Inductive grade_t : Type := A | B | C | D | F.
Inductive pass_fail_t : Type := PASS | FAIL.

(** [{**angle_eval, 'feedback': feedback_msg}] *)
Record feedback_entry : Type := {
  evaluation : Analyzer.angle_evaluation;
  feedback : string
}.

(** The result of [generate_feedback]; [evaluated_at] is a wall-clock
    label and is left out. *)
Record feedback_result : Type := {
  pose_name : string;
  video_source : string;
  overall_score : Q;
  grade : grade_t;
  pass_fail : pass_fail_t;
  total_frames : nat;
  angle_evaluations : gmap string feedback_entry;
  summary_feedback : string;
  recommendations : list string
}.

Definition grade_of (overall_score : Q) : grade_t :=
  if Qle_bool 90 overall_score then A
  else if Qle_bool 80 overall_score then B
  else if Qle_bool 70 overall_score then C
  else if Qle_bool 60 overall_score then D
  else F.

Definition summary_of (pose : string) (overall_score : Q) : string :=
  if Qle_bool 85 overall_score then
    String.append "Excellent form! Your "
      (String.append pose " pose is very well executed.")
  else if Qle_bool 70 overall_score then
    String.append "Good overall form in your "
      (String.append pose " pose. Minor adjustments will help perfect it.")
  else if Qle_bool 50 overall_score then
    String.append "Your "
      (String.append pose
         " pose needs some improvement. Focus on the areas highlighted below.")
  else
    String.append "Your "
      (String.append pose
         " pose requires significant work. Review the recommendations carefully.").

(** The variables the loop over the entries updates. *)
Record loop_state : Type := {
  detailed_feedback : gmap string feedback_entry;
  recs : list string
}.

(** Body of the loop over [angle_evaluations.items()]. *)
Definition feedback_step (st : outcome loop_state)
    (item : string * Analyzer.angle_evaluation) : outcome loop_state :=
  match st with
  | Done st =>
      let '(angle_name, angle_eval) := item in
      let abs_deviation := Qabs (Analyzer.deviation angle_eval) in
      let status := Analyzer.status angle_eval in
      let template :=
        default default_template (Analyzer.assoc angle_name FEEDBACK_TEMPLATES) in
      let entered feedback_msg recommendations :=
        Done {| detailed_feedback :=
                  <[angle_name := {| evaluation := angle_eval;
                                     feedback := feedback_msg |}]>
                    (detailed_feedback st);
                recs := recommendations |} in
      match status with
      | Analyzer.EXCELLENT | Analyzer.GOOD =>
          match py_format (positive template) [("deviation", abs_deviation)] with
          | Done feedback_msg => entered feedback_msg (recs st)
          | KeyError key => KeyError key
          | FormatError msg => FormatError msg
          | Unsupported => Unsupported
          end
      | _ =>
          match py_format (negative template) [("deviation", abs_deviation)] with
          | Done feedback_msg =>
              entered feedback_msg
                (if bool_decide (recommendation template ∈ recs st)
                 then recs st
                 else recs st ++ [recommendation template])
          | KeyError key => KeyError key
          | FormatError msg => FormatError msg
          | Unsupported => Unsupported
          end
      end
  | KeyError key => KeyError key
  | FormatError msg => FormatError msg
  | Unsupported => Unsupported
  end.

(** The two recommendations added when the score is below the
    threshold. *)
Definition general_recommendations : list string :=
  [ "Consider practicing with a yoga instructor for personalized guidance.";
    "Watch tutorial videos to understand proper form and alignment." ].

(** [generate_feedback(evaluation, video_source, pass_threshold)].  The
    entries are visited in the order of the finite map, which need not be
    the insertion order of the dict; the order only decides the positions
    of the recommendations in their list. *)
Definition generate_feedback (self : Analyzer.analyzer)
    (ev : Analyzer.evaluation) (source : string) (pass_threshold : Q)
    : outcome feedback_result :=
  let overall := Analyzer.overall_score ev in
  let grade := grade_of overall in
  let pass_fail := if Qle_bool pass_threshold overall then PASS else FAIL in
  match foldl feedback_step
          (Done {| detailed_feedback := ∅; recs := [] |})
          (map_to_list (Analyzer.angle_evaluations ev)) with
  | Done st =>
      let summary := summary_of (Analyzer.pose_name self) overall in
      let recommendations :=
        if Qle_bool pass_threshold overall then recs st
        else recs st ++ general_recommendations in
      Done {| pose_name := Analyzer.pose_name self;
              video_source := source;
              overall_score := overall;
              grade := grade;
              pass_fail := pass_fail;
              total_frames := Analyzer.ev_total_frames ev;
              angle_evaluations := detailed_feedback st;
              summary_feedback := summary;
              recommendations := recommendations |}
  | KeyError key => KeyError key
  | FormatError msg => FormatError msg
  | Unsupported => Unsupported
  end.

End Format.

(** The default of the argument [pass_threshold]. *)
Definition default_pass_threshold : Q := 70.

End Feedback.

Module Binary64.

(** The aggregator and the scorer once more, over IEEE binary64 numbers:
    the numbers the program computes with.  Module [Analyzer] reads the
    same code over exact rationals; this module keeps every rounding, so
    it decides the statements that depend on one. *)

Local Open Scope float_scope.

(** One frame's angles. *)
Abbreviation frame_angles := (gmap string float).

Record angle_stats : Type := {
  mean : float;
  std : float;
  min : float;
  max : float;
  count : nat;
  confidence : option float
}.

Record golden_standard : Type := {
  gs_pose_name : string;
  video_source : string;
  total_frames : nat;
  gs_angles : option (gmap string angle_stats);
  angle_sequences : option (list frame_angles);
  metadata : gmap string string
}.

Record angle_evaluation : Type := {
  test_mean : float;
  golden_mean : float;
  deviation : float;
  tolerance : float;
  mean_based_score : float;
  dtw_score : option float;
  combined_score : float;
  score : float;
  status : Analyzer.status_t
}.

Record evaluation : Type := {
  overall_score : float;
  angle_evaluations : gmap string angle_evaluation;
  ev_total_frames : nat
}.

(** An [int] used as a number: [len(...)] in a division. *)
Definition of_int (n : nat) : float :=
  PrimFloat.of_uint63 (Uint63.of_Z (Z.of_nat n)).

(** The constants [0.7] and [0.3] of the blend, as binary64 reads them. *)
Definition c_0_7 : float := 0x1.6666666666666p-1.
Definition c_0_3 : float := 0x1.3333333333333p-2.

(** *** numpy reductions *)

(** [np.sum]: the numbers added one after the other.  numpy adds an
    array of eight or more numbers in blocks, another order of the same
    additions; the concrete runs below use lists whose sum is the same
    in every order (equal numbers, small integers), and the general
    statements do not depend on the value of a mean. *)
Definition np_sum (l : list float) : float := foldl PrimFloat.add 0 l.

Definition np_mean (l : list float) : float := np_sum l / of_int (length l).

(** [np.minimum] and [np.maximum] of two numbers; a NaN is passed on. *)
Definition np_minimum (a b : float) : float :=
  if ((a <=? b) || PrimFloat.is_nan a)%bool then a else b.
Definition np_maximum (a b : float) : float :=
  if ((b <=? a) || PrimFloat.is_nan a)%bool then a else b.

Definition np_min (l : list float) : float :=
  match l with [] => 0 | x :: t => foldl np_minimum x t end.
Definition np_max (l : list float) : float :=
  match l with [] => 0 | x :: t => foldl np_maximum x t end.

(** [np.std]: square root of the mean squared distance to the mean. *)
Definition np_std (l : list float) : float :=
  let mu := np_mean l in
  PrimFloat.sqrt (np_mean (map (fun x => (x - mu) * (x - mu)) l)).

Definition values_of (name : string) (frames : list frame_angles) : list float :=
  omap (fun f : frame_angles => f !! name) frames.

(** *** Sequence aggregator *)

(** Statistics of one angle. *)
Definition aggregate (values : list float) (nframes : nat) : angle_stats :=
  {| mean := np_mean values;
     std := np_std values;
     min := np_min values;
     max := np_max values;
     count := length values;
     confidence := Some (of_int (length values) / of_int nframes) |}.

Definition all_angle_names (angle_data : list frame_angles) : gset string :=
  foldl (fun acc (f : frame_angles) => acc ∪ dom f) ∅ angle_data.

Definition aggregate_step (angle_data : list frame_angles)
    (angle_aggregates : gmap string angle_stats) (angle_name : string)
    : gmap string angle_stats :=
  let values := values_of angle_name angle_data in
  match values with
  | [] => angle_aggregates
  | _ => <[angle_name := aggregate values (length angle_data)]> angle_aggregates
  end.

(** [create_golden_standard(angle_data, video_source, metadata)] *)
Definition create_golden_standard (self : Analyzer.analyzer)
    (angle_data : list frame_angles) (source : string)
    (md : option (gmap string string)) : Analyzer.result golden_standard :=
  match angle_data with
  | [] => Analyzer.ValueError "Cannot create golden standard from empty angle data"
  | _ =>
      let angle_aggregates :=
        foldl (aggregate_step angle_data) ∅ (elements (all_angle_names angle_data)) in
      Analyzer.Ok
        {| gs_pose_name := Analyzer.pose_name self;
           video_source := source;
           total_frames := length angle_data;
           gs_angles := Some angle_aggregates;
           angle_sequences := Some angle_data;
           metadata := default ∅ md |}
  end.

(** *** Evaluation scorer *)

(** [max(0, x)]: [x] when [x > 0], else [0]. *)
Definition py_max0 (x : float) : float := if 0 <? x then x else 0.

(** A tolerance of the table, an integer in every pose, as a number. *)
Definition of_tolerance (q : Q) : float :=
  PrimFloat.of_uint63 (Uint63.of_Z (Qnum q))
  / PrimFloat.of_uint63 (Uint63.of_Z (Zpos (Qden q))).

Section Scorer.

(** [fastdtw(x, y, dist=euclidean)]: the distance it returns, or [None]
    when the call (or its import) raises. *)
Variable fastdtw : list float -> list float -> option float.

(** Score computed inside the [try] block of [evaluate_with_dtw]. *)
Definition fastdtw_score (test_seq golden_seq : list float) : option float :=
  match fastdtw test_seq golden_seq with
  | Some distance =>
      let avg_length := of_int (length test_seq + length golden_seq) / 2 in
      let normalized_distance := distance / avg_length in
      let max_distance := 30 in
      Some (py_max0 (100 - (normalized_distance / max_distance) * 100))
  | None => None
  end.

Definition dtw_step (test_angles golden_angles : list frame_angles)
    (dtw_scores : gmap string float) (angle_name : string) : gmap string float :=
  let test_seq := values_of angle_name test_angles in
  let golden_seq := values_of angle_name golden_angles in
  if ((length test_seq <? 3)%nat || (length golden_seq <? 3)%nat)%bool
  then dtw_scores
  else
    match fastdtw_score test_seq golden_seq with
    | Some score => <[angle_name := score]> dtw_scores
    | None => dtw_scores
    end.

(** [evaluate_with_dtw(test_angles, golden_angles)], the definition
    bound to the name. *)
Definition evaluate_with_dtw (self : Analyzer.analyzer)
    (test_angles golden_angles : list frame_angles) : gmap string float :=
  match test_angles, golden_angles with
  | [], _ | _, [] => ∅
  | _, _ =>
      foldl (dtw_step test_angles golden_angles) ∅
        (Analyzer.angles (Analyzer.angle_config self))
  end.

Definition golden_dtw_scores (self : Analyzer.analyzer)
    (test_angles : list frame_angles) (golden : golden_standard)
    : gmap string float :=
  match angle_sequences golden with
  | Some (f :: fs) => evaluate_with_dtw self test_angles (f :: fs)
  | _ => ∅
  end.

Definition means_step (test_angles : list frame_angles)
    (test_angle_means : gmap string float) (angle_name : string)
    : gmap string float :=
  match values_of angle_name test_angles with
  | [] => test_angle_means
  | values => <[angle_name := np_mean values]> test_angle_means
  end.

Definition status_of (score : float) : Analyzer.status_t :=
  if 85 <=? score then Analyzer.EXCELLENT
  else if 70 <=? score then Analyzer.GOOD
  else if 50 <=? score then Analyzer.NEEDS_IMPROVEMENT
  else Analyzer.POOR.

(** The mean-based score of one angle. *)
Definition static_score (abs_deviation tolerance : float) : float :=
  if abs_deviation <=? tolerance
  then 100 - (abs_deviation / tolerance) * 30
  else
    let excess_deviation := abs_deviation - tolerance in
    py_max0 (70 - (excess_deviation / tolerance) * 70).

(** The entry written for one angle. *)
Definition evaluate_one (self : Analyzer.analyzer)
    (dtw_scores : gmap string float) (angle_name : string)
    (golden_stats : angle_stats) (test_mean : float) : angle_evaluation :=
  let golden_mean := mean golden_stats in
  let tolerance :=
    match Analyzer.tolerances (Analyzer.angle_config self) !! angle_name with
    | Some t => of_tolerance t
    | None => 15
    end in
  let deviation := test_mean - golden_mean in
  let abs_deviation := PrimFloat.abs deviation in
  let score := static_score abs_deviation tolerance in
  let status := status_of score in
  let dtw_score := dtw_scores !! angle_name in
  let combined_score :=
    match dtw_score with
    | Some d => score * c_0_7 + d * c_0_3
    | None => score
    end in
  {| test_mean := test_mean;
     golden_mean := golden_mean;
     deviation := deviation;
     tolerance := tolerance;
     mean_based_score := score;
     dtw_score := dtw_score;
     combined_score := combined_score;
     score := combined_score;
     status := status |}.

Record loop_state : Type := {
  st_evaluations : gmap string angle_evaluation;
  total_score : float;
  total_weight : float
}.

(** Body of the main loop. *)
Definition evaluate_step (self : Analyzer.analyzer)
    (test_angle_means dtw_scores : gmap string float)
    (st : loop_state) (item : string * angle_stats) : loop_state :=
  let '(angle_name, golden_stats) := item in
  match test_angle_means !! angle_name with
  | None => st
  | Some test_mean =>
      let ev := evaluate_one self dtw_scores angle_name golden_stats test_mean in
      let weight := default 1 (confidence golden_stats) in
      {| st_evaluations := <[angle_name := ev]> (st_evaluations st);
         total_score := total_score st + combined_score ev * weight;
         total_weight := total_weight st + weight |}
  end.

(** [evaluate_angles(test_angles, golden_standard)] *)
Definition evaluate_angles (self : Analyzer.analyzer)
    (test_angles : list frame_angles) (golden : golden_standard)
    : Analyzer.result evaluation :=
  match test_angles with
  | [] => Analyzer.ValueError "Cannot evaluate empty test angles"
  | _ =>
      match gs_angles golden with
      | None => Analyzer.ValueError "Invalid golden standard: missing 'angles' key"
      | Some golden_angles =>
          let items := map_to_list golden_angles in
          let test_angle_means := foldl (means_step test_angles) ∅ items.*1 in
          let dtw_scores := golden_dtw_scores self test_angles golden in
          let st :=
            foldl (evaluate_step self test_angle_means dtw_scores)
              {| st_evaluations := ∅; total_score := 0; total_weight := 0 |}
              items in
          let overall :=
            if 0 <? total_weight st
            then total_score st / total_weight st
            else 0 in
          Analyzer.Ok
            {| overall_score := overall;
               angle_evaluations := st_evaluations st;
               ev_total_frames := length test_angles |}
      end
  end.

End Scorer.

End Binary64.

(** * Notions used to state and prove the properties *)

(** ** The cost matrix while the loops run *)

Section MatrixInvariant.

Import DtwSimple.

Variables seq1 seq2 : list Q.

(** Every matrix the loops go through has [n + 1] rows of [m + 1] cells. *)
Definition shaped (rows cols : nat) (M : matrix) : Prop :=
  length M = rows /\ Forall (fun row => length row = cols) M.

(** Cells that hold their final value when the loops stand at row [i]
    after column [k]. *)
Definition settled (i k i' j' : nat) : Prop :=
  i' = O \/ j' = O \/ (i' < i)%nat \/ (i' = i /\ (j' <= k)%nat).

Definition filled (i k : nat) (M : matrix) : Prop :=
  shaped (S (length seq1)) (S (length seq2)) M /\
  forall i' j', (i' <= length seq1)%nat -> (j' <= length seq2)%nat ->
    settled i k i' j' ->
    mget M i' j' = C_ref seq1 seq2 i' j'.

End MatrixInvariant.

(** ** Cells of the recurrence *)

(** A cell that is [+inf] or a non-negative number. *)
Definition ext_nonneg (e : ext) : Prop :=
  match e with Fin q => 0 <= q | Inf => True end.

(** A cell that is a number. *)
Definition ext_finite (e : ext) : Prop :=
  match e with Fin _ => True | Inf => False end.

(** A cell that is the number zero. *)
Definition ext_zero (e : ext) : Prop :=
  match e with Fin q => q == 0 | Inf => False end.

(** ** Loops that enter one value per key into a dict *)

(** Loop body that enters [f k] under [k] when there is one. *)
Definition insert_step {V : Type} (f : string -> option V)
    (acc : gmap string V) (k : string) : gmap string V :=
  match f k with
  | Some v => <[k := v]> acc
  | None => acc
  end.

(** ** What the loops of the analyzer compute for one angle *)

Section LoopSummaries.

Import Analyzer.

Variable np_sqrt : Q -> Q.
Variable fastdtw : list Q -> list Q -> option Q.
Variable self : analyzer.
Variable test_angles : list frame_angles.

(** The value an angle gets in [angle_aggregates], if any. *)
Definition stats_of (angle_data : list frame_angles) (name : string)
    : option angle_stats :=
  match values_of name angle_data with
  | [] => None
  | values => Some (aggregate np_sqrt values (length angle_data))
  end.

(** The mean of an angle over the test frames that have it. *)
Definition test_mean_of (name : string) : option Q :=
  match values_of name test_angles with
  | [] => None
  | values => Some (np_mean values)
  end.

(** The score the second [evaluate_with_dtw] enters for an angle. *)
Definition live_dtw_of (golden_angles : list frame_angles) (name : string)
    : option Q :=
  let test_seq := values_of name test_angles in
  let golden_seq := values_of name golden_angles in
  if ((length test_seq <? 3)%nat || (length golden_seq <? 3)%nat)%bool
  then None
  else fastdtw_score fastdtw test_seq golden_seq.

(** The score that the first, shadowed definition enters for an angle,
    for a given meaning of the name [dtw_score]. *)
Definition simple_dtw_of (dtw_score : list Q -> list Q -> Q -> Q)
    (golden_angles : list frame_angles) (name : string) : option Q :=
  let test_seq := values_of name test_angles in
  let golden_seq := values_of name golden_angles in
  if ((length test_seq <? 3)%nat || (length golden_seq <? 3)%nat)%bool
  then None
  else Some (dtw_score test_seq golden_seq 180).

Variable dtw_scores : gmap string Q.

(** The main loop body with the mean read off the frames instead of the
    dict of means. *)
Definition direct_step (st : loop_state) (item : string * angle_stats)
    : loop_state :=
  match test_mean_of item.1 with
  | None => st
  | Some tm =>
      let ev := evaluate_one self dtw_scores item.1 item.2 tm in
      let weight := default 1 (confidence item.2) in
      {| st_evaluations := <[item.1 := ev]> (st_evaluations st);
         total_score := total_score st + combined_score ev * weight;
         total_weight := total_weight st + weight |}
  end.

(** The angles that take part in the evaluation, in the order of the
    loop: those with at least one value in the test frames. *)
Fixpoint included (items : list (string * angle_stats))
    : list (string * angle_stats) :=
  match items with
  | [] => []
  | item :: rest =>
      match values_of item.1 test_angles with
      | [] => included rest
      | _ => item :: included rest
      end
  end.

(** The weight of an angle: [golden_stats.get('confidence', 1.0)]. *)
Definition weight_of (s : angle_stats) : Q := default 1 (confidence s).

(** The entry the main loop writes for an included angle. *)
Definition entry_of (item : string * angle_stats) : angle_evaluation :=
  evaluate_one self dtw_scores item.1 item.2
    (np_mean (values_of item.1 test_angles)).


End LoopSummaries.

(** ** Concrete inputs *)

(** A rational lower approximation of the square root, to run the
    aggregator on concrete frames. *)
Definition sqrt_floor (q : Q) : Q :=
  inject_Z (Z.sqrt (Qnum q * Zpos (Qden q))) / inject_Z (Zpos (Qden q)).

(** A frame in which only the left knee angle was computed. *)
Definition knee_frame (q : Q) : Analyzer.frame_angles :=
  <["left_knee" := q]> ∅.

(** The analyzer [YogaPoseAnalyzer('downward-dog')]. *)
Definition downward_dog : Analyzer.analyzer :=
  {| Analyzer.pose_name := "downward-dog";
     Analyzer.angle_config :=
       default {| Analyzer.angles := []; Analyzer.tolerances := ∅ |}
         (Analyzer.assoc "downward-dog" Analyzer.POSE_ANGLE_DEFINITIONS) |}.

(** Statistics of an angle seen in all of three frames with mean [mu]. *)
Definition knee_stats (mu : Q) : Analyzer.angle_stats :=
  {| Analyzer.mean := mu; Analyzer.std := 0; Analyzer.min := mu;
     Analyzer.max := mu; Analyzer.count := 3; Analyzer.confidence := Some 1 |}.

(** A golden standard that tracks one angle. *)
Definition golden_of (name : string) (s : Analyzer.angle_stats)
    (sequences : list Analyzer.frame_angles) : Analyzer.golden_standard :=
  {| Analyzer.gs_pose_name := "downward-dog";
     Analyzer.video_source := "golden.mp4";
     Analyzer.total_frames := length sequences;
     Analyzer.gs_angles := Some {[ name := s ]};
     Analyzer.angle_sequences := Some sequences;
     Analyzer.metadata := ∅ |}.

(** The analyzer [YogaPoseAnalyzer('warrior-2')], which has no tolerance
    for [spine_alignment]. *)
Definition warrior_2 : Analyzer.analyzer :=
  {| Analyzer.pose_name := "warrior-2";
     Analyzer.angle_config :=
       default {| Analyzer.angles := []; Analyzer.tolerances := ∅ |}
         (Analyzer.assoc "warrior-2" Analyzer.POSE_ANGLE_DEFINITIONS) |}.

Definition hold_90 : list Analyzer.frame_angles :=
  [knee_frame 90; knee_frame 90; knee_frame 90].

Definition golden_60_120 : Analyzer.golden_standard :=
  golden_of "left_knee" (knee_stats 90)
    [knee_frame 60; knee_frame 90; knee_frame 120].

Definition knee_95 : list Analyzer.frame_angles := [knee_frame 95].

Definition golden_90 : Analyzer.golden_standard :=
  golden_of "left_knee" (knee_stats 90)
    [knee_frame 90; knee_frame 90; knee_frame 90].

Definition spine_frame (q : Q) : Analyzer.frame_angles :=
  <["spine_alignment" := q]> ∅.

Definition spine_stats : Analyzer.angle_stats :=
  {| Analyzer.mean := 170; Analyzer.std := 0; Analyzer.min := 170;
     Analyzer.max := 170; Analyzer.count := 1; Analyzer.confidence := Some 1 |}.

Definition spine_test : list Analyzer.frame_angles := [spine_frame 161].

Definition spine_golden : Analyzer.golden_standard :=
  golden_of "spine_alignment" spine_stats [spine_frame 170].

Definition rising_test : list Analyzer.frame_angles :=
  [knee_frame 10; knee_frame 20; knee_frame 30].

Definition rising_golden : Analyzer.golden_standard :=
  golden_of "left_knee" (knee_stats 30)
    [knee_frame 20; knee_frame 30; knee_frame 40].

(** ** Notions for the further properties of the temporal aligner *)

(** Equality of cells: both [+inf], or equal numbers. *)
Definition ext_eq (e1 e2 : ext) : Prop :=
  match e1, e2 with
  | Fin p, Fin q => p == q
  | Inf, Inf => True
  | _, _ => False
  end.

(** A sequence played at half speed: every sample twice. *)
Fixpoint stutter (l : list Q) : list Q :=
  match l with
  | [] => []
  | x :: t => x :: x :: stutter t
  end.

(** The cost of pairing the first [i] samples of two sequences index by
    index. *)
Fixpoint diagonal_cost (a b : list Q) (i : nat) : Q :=
  match i with
  | O => 0
  | S k => diagonal_cost a b k + Qabs (item a k - item b k)
  end.

(** ** Notions for the further properties of the analyzer *)

(** The five pose names of [POSE_ANGLE_DEFINITIONS]. *)
Definition supported_poses : list string :=
  ["downward-dog"; "warrior-1"; "warrior-2"; "tree-pose"; "triangle-pose"].

(** A pose configuration whose tolerance table covers exactly the tracked
    angles, once each, with positive tolerances. *)
Definition config_consistent (cfg : Analyzer.pose_config) : Prop :=
  NoDup (Analyzer.angles cfg) /\
  (forall k, k ∈ Analyzer.angles cfg <-> is_Some (Analyzer.tolerances cfg !! k)) /\
  (forall k t, Analyzer.tolerances cfg !! k = Some t -> 0 < t).

(** The frames of a sequence in which an angle was computed. *)
Definition frames_with (name : string) (frames : list Analyzer.frame_angles)
    : list Analyzer.frame_angles :=
  filter (fun f : Analyzer.frame_angles => is_Some (f !! name)) frames.

(** ** Notions for the properties of the feedback *)

(** The template [generate_feedback] uses for an angle. *)
Definition template_of (angle_name : string) : Feedback.template :=
  default Feedback.default_template
    (Analyzer.assoc angle_name Feedback.FEEDBACK_TEMPLATES).

(** An entry whose status is neither EXCELLENT nor GOOD. *)
Definition needs_work (e : Analyzer.angle_evaluation) : bool :=
  match Analyzer.status e with
  | Analyzer.EXCELLENT | Analyzer.GOOD => false
  | _ => true
  end.

(** The formatted feedback text of an entry. *)
Definition message_of (format_float : string -> Q -> string)
    (angle_name : string) (e : Analyzer.angle_evaluation)
    : Feedback.outcome string :=
  Feedback.py_format format_float
    (if needs_work e then Feedback.negative (template_of angle_name)
     else Feedback.positive (template_of angle_name))
    [("deviation", Qabs (Analyzer.deviation e))].

(** An angle with an entry in [FEEDBACK_TEMPLATES]. *)
Definition has_template (angle_name : string) : Prop :=
  is_Some (Analyzer.assoc angle_name Feedback.FEEDBACK_TEMPLATES).

(** A formatter for the concrete runs: it prints the format specifier
    between angle brackets in place of the number. *)
Definition marking_format (spec : string) (q : Q) : string :=
  String.append "<" (String.append spec ">").

(** An entry of an evaluation with a given deviation and status. *)
Definition knee_entry (d : Q) (st : Analyzer.status_t)
    : Analyzer.angle_evaluation :=
  {| Analyzer.test_mean := 90 + d; Analyzer.golden_mean := 90;
     Analyzer.deviation := d; Analyzer.tolerance := 10;
     Analyzer.mean_based_score := 60; Analyzer.dtw_score := None;
     Analyzer.combined_score := 60; Analyzer.score := 60;
     Analyzer.status := st |}.

(** An evaluation of two angles, one of them in need of work. *)
Definition knees_evaluation : Analyzer.evaluation :=
  {| Analyzer.overall_score := 60;
     Analyzer.angle_evaluations :=
       <["left_knee" := knee_entry 12 Analyzer.NEEDS_IMPROVEMENT]>
         (<["right_knee" := knee_entry (-3) Analyzer.EXCELLENT]> ∅);
     Analyzer.ev_total_frames := 4 |}.

(** An evaluation with an angle that has no feedback template. *)
Definition neck_evaluation : Analyzer.evaluation :=
  {| Analyzer.overall_score := 60;
     Analyzer.angle_evaluations :=
       <["neck" := knee_entry 12 Analyzer.NEEDS_IMPROVEMENT]> ∅;
     Analyzer.ev_total_frames := 4 |}.

(** ** Notions for the properties of the angle calculator *)

(** The landmarks of the eight joint angles of [calculate_angles]: the
    end of the first arm, the vertex, the end of the second arm. *)
Definition joint_landmarks : list (string * (string * string * string)) :=
  [ ("left_shoulder", ("left_shoulder", "left_elbow", "left_wrist"));
    ("right_shoulder", ("right_shoulder", "right_elbow", "right_wrist"));
    ("left_hip", ("left_shoulder", "left_hip", "left_knee"));
    ("right_hip", ("right_shoulder", "right_hip", "right_knee"));
    ("left_knee", ("left_hip", "left_knee", "left_ankle"));
    ("right_knee", ("right_hip", "right_knee", "right_ankle"));
    ("left_elbow", ("left_shoulder", "left_elbow", "left_wrist"));
    ("right_elbow", ("right_shoulder", "right_elbow", "right_wrist")) ].

(** The landmarks of the spine angle. *)
Definition spine_landmarks : list string :=
  ["left_hip"; "right_hip"; "left_shoulder"; "right_shoulder"; "nose"].

(** The landmarks an angle needs, for the nine angles that
    [calculate_angles] can compute. *)
Definition landmarks_of (name : string) : option (list string) :=
  if String.eqb name "spine_alignment" then Some spine_landmarks
  else
    match Analyzer.assoc name joint_landmarks with
    | Some (a, b, c) => Some [a; b; c]
    | None => None
    end.

(** A landmark that was detected and whose visibility is not below the
    threshold. *)
Definition visible (threshold : float)
    (landmarks : AngleCalculator.landmarks_t) (name : string) : Prop :=
  exists l, landmarks !! name = Some l /\
            PrimFloat.ltb (AngleCalculator.visibility l) threshold = false.

(** One angle computed on its own from the landmarks. *)
Definition angle_of (acos : float -> float) (threshold : float)
    (landmarks : AngleCalculator.landmarks_t) (name : string) : option float :=
  let at_key := AngleCalculator.at_key landmarks in
  if String.eqb name "spine_alignment" then
    if AngleCalculator._check_landmarks_visible threshold landmarks
         spine_landmarks
    then AngleCalculator._calculate_angle acos
           (AngleCalculator.midpoint (at_key "left_hip") (at_key "right_hip"))
           (AngleCalculator.midpoint (at_key "left_shoulder")
              (at_key "right_shoulder"))
           (at_key "nose")
    else None
  else
    match Analyzer.assoc name joint_landmarks with
    | Some (a, b, c) =>
        if AngleCalculator._check_landmarks_visible threshold landmarks [a; b; c]
        then AngleCalculator._calculate_angle acos
               (at_key a) (at_key b) (at_key c)
        else None
    | None => None
    end.

(** A frame with a bent left arm; every landmark is fully visible. *)
Definition bent_arm_frame : AngleCalculator.landmarks_t :=
  <["left_shoulder" := AngleCalculator.lm 0.5 0.25 0]>
  (<["left_elbow" := AngleCalculator.lm 0.5 0.5 0]>
  (<["left_wrist" := AngleCalculator.lm 0.75 0.5 0]> ∅)).

(** ** Notions for the properties of the binary64 reading *)

(** A frame in which only the left knee angle was computed. *)
Definition knee_frame64 (v : float) : Binary64.frame_angles :=
  <["left_knee" := v]> ∅.

(** The binary64 number nearest to 0.1. *)
Definition one_tenth : float := 0x1.999999999999ap-4.

(** Three frames with the knee at 0.1 degrees. *)
Definition still_frames : list Binary64.frame_angles :=
  [knee_frame64 one_tenth; knee_frame64 one_tenth; knee_frame64 one_tenth].






(** * Properties *)

(** ** Temporal aligner: the matrix loops compute the recurrence *)

Section DtwRefinement.

Import DtwSimple.

Variables seq1 seq2 : list Q.

Local Abbreviation n := (length seq1).
Local Abbreviation m := (length seq2).

Lemma shaped_row rows cols M i :
  shaped rows cols M -> (i < rows)%nat ->
  exists row, M !! i = Some row /\ length row = cols.
Proof.
  intros [Hlen Hall] Hi.
  destruct (lookup_lt_is_Some_2 M i) as [row Hrow]; [lia|].
  exists row. split; [assumption|].
  rewrite Forall_forall in Hall. apply Hall.
  eapply list_elem_of_lookup_2; eassumption.
Qed.

Lemma shaped_mset rows cols M i j v :
  shaped rows cols M -> shaped rows cols (mset M i j v).
Proof.
  intros [Hlen Hall]. unfold mset.
  destruct (M !! i) as [row|] eqn:Hrow; [|split; assumption].
  split.
  - rewrite length_insert. assumption.
  - apply Forall_insert; [assumption|]. cbv beta.
    rewrite length_insert.
    rewrite Forall_forall in Hall. apply Hall.
    eapply list_elem_of_lookup_2; eassumption.
Qed.

Lemma mget_mset_eq rows cols M i j v :
  shaped rows cols M -> (i < rows)%nat -> (j < cols)%nat ->
  mget (mset M i j v) i j = v.
Proof.
  intros HM Hi Hj.
  destruct (shaped_row _ _ _ _ HM Hi) as (row & Hrow & Hlen).
  unfold mget, mset. rewrite Hrow.
  rewrite list_lookup_insert_eq by (destruct HM; lia).
  simpl. rewrite list_lookup_insert_eq by lia. reflexivity.
Qed.

Lemma mget_mset_ne M i j v i' j' :
  (i, j) <> (i', j') -> mget (mset M i j v) i' j' = mget M i' j'.
Proof.
  intros Hne. unfold mget, mset.
  destruct (M !! i) as [row|] eqn:Hrow; [|reflexivity].
  destruct (decide (i = i')) as [->|Hi].
  - assert (j <> j') by congruence.
    destruct (decide (i' < length M)%nat) as [Hlt|Hge].
    + rewrite list_lookup_insert_eq by assumption. rewrite Hrow. simpl.
      rewrite list_lookup_insert_ne by assumption. reflexivity.
    + apply lookup_lt_Some in Hrow. lia.
  - rewrite list_lookup_insert_ne by assumption. reflexivity.
Qed.

Lemma shaped_np_full rows cols : shaped rows cols (np_full rows cols).
Proof.
  split.
  - apply length_replicate.
  - apply Forall_replicate. apply length_replicate.
Qed.

Lemma mget_np_full rows cols i j : mget (np_full rows cols) i j = Inf.
Proof.
  unfold mget, np_full.
  destruct (replicate rows (replicate cols Inf) !! i) as [row|] eqn:Hrow;
    [|reflexivity].
  apply lookup_replicate in Hrow as [-> _]. simpl.
  destruct (replicate cols Inf !! j) as [c|] eqn:Hc; [|reflexivity].
  apply lookup_replicate in Hc as [-> _]. reflexivity.
Qed.

(** The unfolding of the recurrence at an interior cell. *)
Lemma C_ref_interior a b i j :
  C_ref a b (S i) (S j) =
  ext_add (Fin (Qabs (item a i - item b j)))
    (py_min3 (C_ref a b i (S j)) (C_ref a b (S i) j) (C_ref a b i j)).
Proof. reflexivity. Qed.

Lemma filled_init : filled seq1 seq2 0 m (mset (np_full (n + 1) (m + 1)) 0 0 (Fin 0)).
Proof.
  replace (n + 1)%nat with (S n) by lia. replace (m + 1)%nat with (S m) by lia.
  split.
  - apply shaped_mset, shaped_np_full.
  - intros i' j' Hi Hj Hs.
    destruct (decide ((O, O) = (i', j'))) as [Heq|Hne].
    + injection Heq as <- <-.
      erewrite mget_mset_eq; [reflexivity|apply shaped_np_full|lia|lia].
    + rewrite mget_mset_ne by assumption. rewrite mget_np_full.
      destruct i' as [|i'], j' as [|j']; try reflexivity.
      * congruence.
      * destruct Hs as [?|[?|[?|[? ?]]]]; lia.
Qed.

Lemma filled_cell i j M :
  (1 <= i <= n)%nat -> (1 <= j <= m)%nat ->
  filled seq1 seq2 i (j - 1) M -> filled seq1 seq2 i j (fill_cell seq1 seq2 i M j).
Proof.
  intros Hi Hj [HM Hcells]. split.
  - apply shaped_mset. assumption.
  - intros i' j' Hi' Hj' Hs. unfold fill_cell.
    destruct (decide ((i, j) = (i', j'))) as [Heq|Hne].
    + injection Heq as <- <-.
      erewrite mget_mset_eq; [|eassumption|lia|lia].
      rewrite !Hcells by (unfold settled; lia).
      destruct i as [|i0]; [lia|]. destruct j as [|j0]; [lia|].
      rewrite C_ref_interior.
      replace (S i0 - 1)%nat with i0 by lia.
      replace (S j0 - 1)%nat with j0 by lia.
      reflexivity.
    + rewrite mget_mset_ne by assumption.
      apply Hcells; [assumption|assumption|].
      unfold settled in *.
      destruct Hs as [?|[?|[?|[? ?]]]]; [lia|lia|lia|].
      assert (j' <> j) by congruence. lia.
Qed.

Lemma filled_cells i len : forall s M,
  (1 <= i <= n)%nat -> (1 <= s)%nat -> (s + len <= S m)%nat ->
  filled seq1 seq2 i (s - 1) M ->
  filled seq1 seq2 i (s + len - 1) (foldl (fill_cell seq1 seq2 i) M (seq s len)).
Proof.
  induction len as [|len IH]; intros s M Hi Hs Hm HM; simpl.
  - replace (s + 0 - 1)%nat with (s - 1)%nat by lia. assumption.
  - replace (s + S len - 1)%nat with (S s + len - 1)%nat by lia.
    apply IH; [assumption|lia|lia|].
    replace (S s - 1)%nat with s by lia.
    apply filled_cell; [assumption|lia|assumption].
Qed.

Lemma filled_row i M :
  (1 <= i <= n)%nat -> filled seq1 seq2 (i - 1) m M ->
  filled seq1 seq2 i m (fill_row seq1 seq2 m M i).
Proof.
  intros Hi [HM Hcells]. unfold fill_row.
  replace m with (1 + m - 1)%nat at 1 by lia.
  apply filled_cells; [assumption|lia|lia|].
  split; [assumption|].
  intros i' j' Hi' Hj' Hs. apply Hcells; [assumption|assumption|].
  unfold settled in *. lia.
Qed.

Lemma filled_rows len : forall s M,
  (1 <= s)%nat -> (s + len <= S n)%nat ->
  filled seq1 seq2 (s - 1) m M ->
  filled seq1 seq2 (s + len - 1) m (foldl (fill_row seq1 seq2 m) M (seq s len)).
Proof.
  induction len as [|len IH]; intros s M Hs Hn HM; simpl.
  - replace (s + 0 - 1)%nat with (s - 1)%nat by lia. assumption.
  - replace (s + S len - 1)%nat with (S s + len - 1)%nat by lia.
    apply IH; [lia|lia|].
    replace (S s - 1)%nat with s by lia.
    apply filled_row; [lia|assumption].
Qed.

(** The distance returned by the loops is the cell [C[n][m]] of the
    recurrence. *)
Lemma dtw_distance_C_ref :
  dtw_distance seq1 seq2 = C_ref seq1 seq2 (length seq1) (length seq2).
Proof.
  unfold dtw_distance, fill_matrix.
  assert (H : filled seq1 seq2 (1 + n - 1) m
            (foldl (fill_row seq1 seq2 m)
               (mset (np_full (n + 1) (m + 1)) 0 0 (Fin 0)) (seq 1 n))).
  { apply filled_rows; [lia|lia|]. apply filled_init. }
  destruct H as [_ Hcells]. apply Hcells; [lia|lia|].
  unfold settled. lia.
Qed.

End DtwRefinement.

(** ** Temporal aligner: bounds on the distance and the score *)

Section DtwBounds.

Import DtwSimple.

Lemma py_min3_cases x y z :
  py_min3 x y z = x \/ py_min3 x y z = y \/ py_min3 x y z = z.
Proof.
  unfold py_min3. destruct (ext_ltb y x); destruct (ext_ltb z _); auto.
Qed.

Lemma py_min3_nonneg x y z :
  ext_nonneg x -> ext_nonneg y -> ext_nonneg z -> ext_nonneg (py_min3 x y z).
Proof.
  intros Hx Hy Hz.
  destruct (py_min3_cases x y z) as [->|[->| ->]]; assumption.
Qed.

Lemma ext_ltb_Inf_r x : ext_finite x -> ext_ltb x Inf = true.
Proof. destruct x; simpl; [reflexivity|contradiction]. Qed.

Lemma py_min3_finite x y z :
  ext_finite x \/ ext_finite y \/ ext_finite z -> ext_finite (py_min3 x y z).
Proof.
  unfold py_min3.
  destruct x as [p|], y as [q|], z as [r|]; simpl;
    repeat (match goal with
            | |- context [Qlt_le_dec ?u ?v] => destruct (Qlt_le_dec u v)
            end; simpl);
    tauto.
Qed.

Lemma py_min3_zero x y z :
  ext_nonneg x -> ext_nonneg y -> ext_zero z -> ext_zero (py_min3 x y z).
Proof.
  unfold py_min3.
  destruct x as [p|], y as [q|], z as [r|]; simpl; intros Hx Hy Hz;
    try contradiction;
    repeat (match goal with
            | |- context [Qlt_le_dec ?u ?v] => destruct (Qlt_le_dec u v)
            end; simpl);
    lra.
Qed.

Lemma ext_add_nonneg c e : 0 <= c -> ext_nonneg e -> ext_nonneg (ext_add (Fin c) e).
Proof. destruct e; simpl; [lra|trivial]. Qed.

Lemma ext_add_finite c e : ext_finite e -> ext_finite (ext_add (Fin c) e).
Proof. destruct e; simpl; trivial. Qed.

Lemma C_ref_nonneg a b i : forall j, ext_nonneg (C_ref a b i j).
Proof.
  induction i as [|i IHi]; intros j.
  - destruct j; simpl; [lra|trivial].
  - induction j as [|j IHj]; [exact I|].
    rewrite C_ref_interior.
    apply ext_add_nonneg; [apply Qabs_nonneg|].
    apply py_min3_nonneg; [apply IHi|apply IHj|apply IHi].
Qed.

Lemma C_ref_finite a b i : forall j, ext_finite (C_ref a b (S i) (S j)).
Proof.
  induction i as [|i IHi]; intros j.
  - induction j as [|j IHj]; rewrite C_ref_interior;
      apply ext_add_finite, py_min3_finite.
    + right; right. exact I.
    + right; left. exact IHj.
  - rewrite C_ref_interior. apply ext_add_finite, py_min3_finite.
    left. apply IHi.
Qed.

Lemma C_ref_diagonal a i : ext_zero (C_ref a a i i).
Proof.
  induction i as [|i IHi]; [reflexivity|].
  rewrite C_ref_interior.
  pose proof (py_min3_zero (C_ref a a i (S i)) (C_ref a a (S i) i) (C_ref a a i i)
                (C_ref_nonneg _ _ _ _) (C_ref_nonneg _ _ _ _) IHi) as Hz.
  destruct (py_min3 _ _ _) as [r|]; [|contradiction].
  simpl in *.
  assert (Hd : 0 <= item a i - item a i) by lra.
  rewrite (Qabs_pos _ Hd). lra.
Qed.

Lemma py_max0_nonneg x : 0 <= py_max0 x.
Proof. unfold py_max0. destruct (Qlt_le_dec 0 x); lra. Qed.

Lemma py_max0_le x u : 0 <= u -> x <= u -> py_max0 x <= u.
Proof. unfold py_max0. destruct (Qlt_le_dec 0 x); lra. Qed.

Lemma py_max0_pos x : 0 < x -> py_max0 x = x.
Proof.
  unfold py_max0. intros Hx. destruct (Qlt_le_dec 0 x); [reflexivity|lra].
Qed.

Lemma Qdiv_nonneg p q : 0 <= p -> 0 < q -> 0 <= p / q.
Proof. intros Hp Hq. apply Qle_shift_div_l; [assumption|lra]. Qed.

Lemma path_length_pos (a b : list Q) :
  a <> [] -> 0 < inject_Z (Z.of_nat (length a + length b)).
Proof.
  intros Ha. destruct a as [|x a]; [congruence|].
  replace 0 with (inject_Z 0) by reflexivity.
  rewrite <- Zlt_Qlt. simpl length. lia.
Qed.

(** The score of the code on two non-empty sequences, unfolded. *)
Lemma dtw_score_nonempty a b :
  a <> [] -> b <> [] ->
  exists d, C_ref a b (length a) (length b) = Fin d /\ 0 <= d /\
    dtw_score a b 180 =
      py_max0 (100 - (d / inject_Z (Z.of_nat (length a + length b)) / 180) * 100).
Proof.
  intros Ha Hb.
  pose proof (C_ref_nonneg a b (length a) (length b)) as Hnn.
  pose proof (dtw_distance_C_ref a b) as Hd.
  destruct a as [|x a]; [congruence|]. destruct b as [|y b]; [congruence|].
  pose proof (C_ref_finite (x :: a) (y :: b) (length a) (length b)) as Hfin.
  simpl length in *.
  destruct (C_ref (x :: a) (y :: b) (S (length a)) (S (length b))) as [d|] eqn:HC;
    [|contradiction].
  exists d. split; [reflexivity|]. split; [exact Hnn|].
  unfold dtw_score, normalized_dtw_distance. rewrite Hd.
  simpl length. reflexivity.
Qed.

Lemma dtw_score_range a b : 0 <= dtw_score a b 180 <= 100.
Proof.
  destruct (decide (a = [])) as [->|Ha]; [simpl; lra|].
  destruct (decide (b = [])) as [->|Hb]; [destruct a; simpl; lra|].
  destruct (dtw_score_nonempty a b Ha Hb) as (d & _ & Hd & ->).
  split; [apply py_max0_nonneg|].
  apply py_max0_le; [lra|].
  pose proof (Qdiv_nonneg d _ Hd (path_length_pos a b Ha)) as Hn.
  assert (H180 : 0 < 180) by lra.
  pose proof (Qdiv_nonneg _ _ Hn H180) as Hr.
  set (r := _ / 180) in *. lra.
Qed.

Lemma dtw_score_self a : a <> [] -> dtw_score a a 180 == 100.
Proof.
  intros Ha.
  destruct (dtw_score_nonempty a a Ha Ha) as (d & HC & Hd & ->).
  pose proof (C_ref_diagonal a (length a)) as Hz. rewrite HC in Hz. simpl in Hz.
  assert (Hx : 100 - (d / inject_Z (Z.of_nat (length a + length a)) / 180) * 100 == 100).
  { rewrite Hz. unfold Qdiv. ring. }
  rewrite py_max0_pos; [exact Hx|]. rewrite Hx. lra.
Qed.

Lemma dtw_score_score_ref a b :
  a <> [] -> b <> [] -> dtw_score a b 180 = score_ref a b.
Proof.
  intros Ha Hb.
  destruct (dtw_score_nonempty a b Ha Hb) as (d & HC & _ & ->).
  unfold score_ref. rewrite HC. reflexivity.
Qed.

Lemma dtw_score_empty a b : a = [] \/ b = [] -> dtw_score a b 180 = 0.
Proof. intros [-> | ->]; [reflexivity|destruct a; reflexivity]. Qed.

End DtwBounds.

(** C4, as stated, fails on the empty sequence: the guard of [dtw_score]
    returns 0 for [a = b = []], where the claim asks for 100 whenever
    [a = b]. *)
Lemma dtw_score_empty_is_not_100 :
  DtwSimple.dtw_score [] [] 180 == 0 /\ ~ DtwSimple.dtw_score [] [] 180 == 100.
Proof. split; [reflexivity|]. simpl. intros H. discriminate H. Qed.

(** C4, amended: on non-empty sequences [dtw_score] is the score of the
    recurrence (distance [C[n][m]], normalised by [n + m], mapped to
    [max(0, 100 - (normalized/180)*100)]) and is 100 on equal arguments;
    with an empty argument it returns 0; in every case it lies in
    [[0, 100]]. *)
Theorem dtw_score_reference (a b : list Q) :
  (a <> [] -> b <> [] ->
     DtwSimple.dtw_score a b 180 = DtwSimple.score_ref a b /\
     (a = b -> DtwSimple.dtw_score a b 180 == 100)) /\
  (a = [] \/ b = [] -> DtwSimple.dtw_score a b 180 = 0) /\
  0 <= DtwSimple.dtw_score a b 180 <= 100.
Proof.
  split; [|split].
  - intros Ha Hb. split.
    + apply dtw_score_score_ref; assumption.
    + intros <-. apply dtw_score_self. assumption.
  - apply dtw_score_empty.
  - apply dtw_score_range.
Qed.

Lemma dtw_score_reference_witness :
  DtwSimple.dtw_score [10; 20; 30] [10; 20; 30] 180
    = DtwSimple.score_ref [10; 20; 30] [10; 20; 30] /\
  DtwSimple.dtw_score [10; 20; 30] [10; 20; 30] 180 == 100 /\
  DtwSimple.dtw_score [] [10; 20; 30] 180 = 0.
Proof.
  destruct (dtw_score_reference [10; 20; 30] [10; 20; 30]) as [H _].
  destruct H as [H1 H2]; [discriminate|discriminate|].
  destruct (dtw_score_reference [] [10; 20; 30]) as (_ & H3 & _).
  split; [exact H1|]. split; [apply H2; reflexivity|].
  apply H3. left. reflexivity.
Defined.

(** ** Sequence aggregator *)

Section AggregatorProofs.

Import Analyzer.

Lemma qlen_nonneg (l : list Q) : 0 <= qlen l.
Proof.
  unfold qlen. replace 0 with (inject_Z 0) by reflexivity.
  rewrite <- Zle_Qle. lia.
Qed.

Lemma qlen_pos (l : list Q) : l <> [] -> 0 < qlen l.
Proof.
  intros Hl. destruct l as [|x l]; [congruence|].
  unfold qlen. replace 0 with (inject_Z 0) by reflexivity.
  rewrite <- Zlt_Qlt. simpl length. lia.
Qed.

Lemma qlen_cons x (l : list Q) : qlen (x :: l) == 1 + qlen l.
Proof.
  unfold qlen. simpl length. rewrite Nat2Z.inj_succ.
  unfold Z.succ. rewrite inject_Z_plus. simpl. ring.
Qed.

Lemma np_sum_lower lo (l : list Q) :
  Forall (fun x => lo <= x) l -> lo * qlen l <= np_sum l.
Proof.
  induction 1 as [|x l Hx _ IH].
  - change (qlen []) with 0. simpl. lra.
  - rewrite qlen_cons. simpl. lra.
Qed.

Lemma np_sum_upper hi (l : list Q) :
  Forall (fun x => x <= hi) l -> np_sum l <= hi * qlen l.
Proof.
  induction 1 as [|x l Hx _ IH].
  - change (qlen []) with 0. simpl. lra.
  - rewrite qlen_cons. simpl. lra.
Qed.

Lemma foldl_Qmin_le (l : list Q) : forall x,
  foldl Qmin x l <= x /\ Forall (fun y => foldl Qmin x l <= y) l.
Proof.
  induction l as [|y l IH]; intros x; simpl.
  - split; [lra|constructor].
  - destruct (IH (Qmin x y)) as [H1 H2].
    pose proof (Q.le_min_l x y). pose proof (Q.le_min_r x y).
    split; [lra|]. constructor; [lra|assumption].
Qed.

Lemma foldl_Qmax_ge (l : list Q) : forall x,
  x <= foldl Qmax x l /\ Forall (fun y => y <= foldl Qmax x l) l.
Proof.
  induction l as [|y l IH]; intros x; simpl.
  - split; [lra|constructor].
  - destruct (IH (Qmax x y)) as [H1 H2].
    pose proof (Q.le_max_l x y). pose proof (Q.le_max_r x y).
    split; [lra|]. constructor; [lra|assumption].
Qed.

Lemma np_min_le_mean (l : list Q) : l <> [] -> np_min l <= np_mean l.
Proof.
  intros Hl. unfold np_mean.
  apply Qle_shift_div_l; [apply qlen_pos; assumption|].
  apply np_sum_lower.
  destruct l as [|x l]; [congruence|]. simpl.
  destruct (foldl_Qmin_le l x) as [H1 H2]. constructor; assumption.
Qed.

Lemma np_mean_le_max (l : list Q) : l <> [] -> np_mean l <= np_max l.
Proof.
  intros Hl. unfold np_mean.
  apply Qle_shift_div_r; [apply qlen_pos; assumption|].
  apply np_sum_upper.
  destruct l as [|x l]; [congruence|]. simpl.
  destruct (foldl_Qmax_ge l x) as [H1 H2]. constructor; assumption.
Qed.

Lemma np_mean_nonneg (l : list Q) : Forall (fun x => 0 <= x) l -> 0 <= np_mean l.
Proof.
  intros Hl. unfold np_mean.
  destruct l as [|x l]; [unfold Qle; simpl; lia|].
  apply Qdiv_nonneg; [|apply qlen_pos; discriminate].
  pose proof (np_sum_lower 0 _ Hl). lra.
Qed.

Lemma values_of_length name (frames : list frame_angles) :
  (length (values_of name frames) <= length frames)%nat.
Proof.
  unfold values_of, omap. induction frames as [|f frames IH]; simpl; [lia|].
  destruct (f !! name); simpl; lia.
Qed.

End AggregatorProofs.

(** ** Loops that enter one value per key into a dict *)

Section InsertLoops.

Context {V : Type}.
Variable f : string -> option V.

Lemma insert_step_lookup acc k0 k :
  insert_step f acc k0 !! k =
  if decide (k = k0) then (match f k with Some v => Some v | None => acc !! k end)
  else acc !! k.
Proof.
  unfold insert_step. destruct (decide (k = k0)) as [->|Hne].
  - destruct (f k0); [apply lookup_insert_eq|reflexivity].
  - destruct (f k0); [apply lookup_insert_ne; congruence|reflexivity].
Qed.

Lemma foldl_insert_step_lookup (l : list string) : forall acc k,
  foldl (insert_step f) acc l !! k =
  if decide (k ∈ l) then (match f k with Some v => Some v | None => acc !! k end)
  else acc !! k.
Proof.
  induction l as [|k0 l IH]; intros acc k; simpl.
  - destruct (decide (k ∈ [])) as [Hin|_]; [|reflexivity].
    apply elem_of_nil in Hin. contradiction.
  - rewrite IH, insert_step_lookup.
    destruct (decide (k ∈ l)), (decide (k = k0)), (decide (k ∈ k0 :: l));
      try reflexivity; try (destruct (f k); reflexivity); exfalso;
      match goal with
      | H : _ ∉ _ :: _ |- _ => apply H, elem_of_cons; tauto
      | H : _ ∈ _ :: _ |- _ => apply elem_of_cons in H; tauto
      end.
Qed.

End InsertLoops.

Lemma foldl_pointwise {A B : Type} (g h : A -> B -> A) :
  (forall a b, g a b = h a b) -> forall l a, foldl g a l = foldl h a l.
Proof.
  intros Hgh l. induction l as [|b l IH]; intros a; simpl; [reflexivity|].
  rewrite Hgh. apply IH.
Qed.

Section GoldenStandard.

Import Analyzer.

Variable np_sqrt : Q -> Q.

Lemma aggregate_step_insert_step angle_data acc name :
  aggregate_step np_sqrt angle_data acc name
  = insert_step (stats_of np_sqrt angle_data) acc name.
Proof.
  unfold aggregate_step, insert_step, stats_of.
  destruct (values_of name angle_data); reflexivity.
Qed.

(** Every record of the table is the aggregate of the observed values of
    its angle, of which there is at least one. *)
Lemma angle_aggregates_lookup angle_data names name s :
  foldl (aggregate_step np_sqrt angle_data) ∅ names !! name = Some s ->
  values_of name angle_data <> [] /\
  s = aggregate np_sqrt (values_of name angle_data) (length angle_data).
Proof.
  rewrite (foldl_pointwise _ _ (aggregate_step_insert_step angle_data)).
  rewrite foldl_insert_step_lookup. unfold stats_of.
  destruct (decide (name ∈ names)); [|rewrite lookup_empty; discriminate].
  destruct (values_of name angle_data) as [|v vs];
    [rewrite lookup_empty; discriminate|].
  intros [= <-]. split; [discriminate|reflexivity].
Qed.

Lemma aggregate_invariants values nframes :
  (forall v, 0 <= v -> 0 <= np_sqrt v) ->
  values <> [] -> (length values <= nframes)%nat ->
  let s := aggregate np_sqrt values nframes in
  min s <= mean s /\ mean s <= max s /\ 0 <= std s /\
  (count s <= nframes)%nat /\
  exists c, confidence s = Some c /\
    c == inject_Z (Z.of_nat (count s)) / inject_Z (Z.of_nat nframes) /\
    0 <= c <= 1.
Proof.
  intros Hsqrt Hv Hlen. simpl.
  split; [apply np_min_le_mean; assumption|].
  split; [apply np_mean_le_max; assumption|].
  split.
  { unfold np_std. apply Hsqrt, np_mean_nonneg.
    apply Forall_map, Forall_forall. intros v _. simpl.
    pose proof (Qabs_nonneg (v - np_mean values)) as Ha.
    apply Qmult_le_0_compat; assumption. }
  split; [assumption|].
  eexists. split; [reflexivity|]. split; [reflexivity|].
  assert (Hn : 0 < inject_Z (Z.of_nat nframes)).
  { replace 0 with (inject_Z 0) by reflexivity. rewrite <- Zlt_Qlt.
    destruct values; [congruence|]. simpl in Hlen. lia. }
  split.
  - apply Qdiv_nonneg; [apply qlen_nonneg|assumption].
  - apply Qle_shift_div_r; [assumption|].
    unfold qlen. rewrite Qmult_1_l. rewrite <- Zle_Qle. lia.
Qed.

Lemma create_golden_standard_nonempty (self : analyzer)
    (angle_data : list frame_angles) (source : string)
    (md : option (gmap string string)) :
  angle_data <> [] ->
  create_golden_standard np_sqrt self angle_data source md =
  Ok {| gs_pose_name := pose_name self;
        video_source := source;
        total_frames := length angle_data;
        gs_angles :=
          Some (foldl (aggregate_step np_sqrt angle_data) ∅
                  (elements (all_angle_names angle_data)));
        angle_sequences := Some angle_data;
        metadata := default ∅ md |}.
Proof. intros Hne. destruct angle_data; [congruence|reflexivity]. Qed.

(** C8, amended: for a non-empty sequence of frames whose angle values
    are numbers the aggregator returns a golden standard, and every
    statistics record in it satisfies [min <= max], [std >= 0],
    [count <= total_frames] and [0 <= confidence <= 1] with
    [confidence = count / total_frames], where [total_frames] is the
    number of all frames.  Nothing is said of the place of the mean
    between [min] and [max]: the binary64 mean can leave that interval
    by a rounding.  [np.sqrt] is only assumed to map non-negative
    numbers to non-negative numbers. *)
Theorem create_golden_standard_invariants
    (Hsqrt : forall v, 0 <= v -> 0 <= np_sqrt v)
    (self : analyzer) (angle_data : list frame_angles) (source : string)
    (md : option (gmap string string)) :
  angle_data <> [] ->
  exists g stats,
    create_golden_standard np_sqrt self angle_data source md = Ok g /\
    gs_angles g = Some stats /\
    total_frames g = length angle_data /\
    forall name s, stats !! name = Some s ->
      min s <= max s /\ 0 <= std s /\
      (count s <= total_frames g)%nat /\
      exists c, confidence s = Some c /\
        c == inject_Z (Z.of_nat (count s)) / inject_Z (Z.of_nat (total_frames g)) /\
        0 <= c <= 1.
Proof.
  intros Hne. rewrite create_golden_standard_nonempty by assumption.
  eexists. eexists. split; [reflexivity|]. split; [reflexivity|].
  split; [reflexivity|].
  intros name s Hs. cbn [total_frames].
  apply angle_aggregates_lookup in Hs as [Hv ->].
  destruct (aggregate_invariants (values_of name angle_data) (length angle_data)
              Hsqrt Hv (values_of_length name angle_data))
    as (Hlo & Hhi & Hstd & Hrest).
  split; [exact (Qle_trans _ _ _ Hlo Hhi)|]. split; [exact Hstd|exact Hrest].
Qed.

(** C9: for a non-empty sequence of frames the returned golden standard
    holds that very sequence under [angle_sequences], and [total_frames]
    is its length. *)
Theorem create_golden_standard_retains_sequence
    (self : analyzer) (angle_data : list frame_angles) (source : string)
    (md : option (gmap string string)) :
  angle_data <> [] ->
  exists g,
    create_golden_standard np_sqrt self angle_data source md = Ok g /\
    angle_sequences g = Some angle_data /\
    total_frames g = length angle_data.
Proof.
  intros Hne. rewrite create_golden_standard_nonempty by assumption.
  eexists. split; [reflexivity|]. split; reflexivity.
Qed.

End GoldenStandard.

Lemma sqrt_floor_nonneg v : 0 <= v -> 0 <= sqrt_floor v.
Proof.
  intros _. unfold sqrt_floor. apply Qdiv_nonneg.
  - replace 0 with (inject_Z 0) by reflexivity. rewrite <- Zle_Qle.
    apply Z.sqrt_nonneg.
  - replace 0 with (inject_Z 0) by reflexivity. rewrite <- Zlt_Qlt. lia.
Qed.

Lemma create_golden_standard_invariants_witness :
  exists g stats,
    Analyzer.create_golden_standard sqrt_floor downward_dog
      [knee_frame 20; ∅; knee_frame 40] "golden.mp4" None = Analyzer.Ok g /\
    Analyzer.gs_angles g = Some stats /\
    Analyzer.total_frames g = 3%nat /\
    forall name s, stats !! name = Some s ->
      Analyzer.min s <= Analyzer.max s /\
      0 <= Analyzer.std s /\
      (Analyzer.count s <= Analyzer.total_frames g)%nat /\
      exists c, Analyzer.confidence s = Some c /\
        c == inject_Z (Z.of_nat (Analyzer.count s))
             / inject_Z (Z.of_nat (Analyzer.total_frames g)) /\
        0 <= c <= 1.
Proof.
  apply (create_golden_standard_invariants sqrt_floor sqrt_floor_nonneg
           downward_dog [knee_frame 20; ∅; knee_frame 40] "golden.mp4" None).
  discriminate.
Defined.

Lemma create_golden_standard_retains_sequence_witness :
  exists g,
    Analyzer.create_golden_standard sqrt_floor downward_dog
      [knee_frame 20; ∅; knee_frame 40] "golden.mp4" None = Analyzer.Ok g /\
    Analyzer.angle_sequences g = Some [knee_frame 20; ∅; knee_frame 40] /\
    Analyzer.total_frames g = 3%nat.
Proof.
  apply (create_golden_standard_retains_sequence sqrt_floor downward_dog
           [knee_frame 20; ∅; knee_frame 40] "golden.mp4" None).
  discriminate.
Defined.

(** ** Evaluation scorer: what the loops of [evaluate_angles] build *)

Section ScorerLoops.

Import Analyzer.

Variable fastdtw : list Q -> list Q -> option Q.
Variable self : analyzer.
Variable test_angles : list frame_angles.

Lemma means_step_insert_step acc name :
  means_step test_angles acc name = insert_step (test_mean_of test_angles) acc name.
Proof.
  unfold means_step, insert_step, test_mean_of.
  destruct (values_of name test_angles); reflexivity.
Qed.

Lemma test_angle_means_lookup (names : list string) name :
  name ∈ names ->
  foldl (means_step test_angles) ∅ names !! name = test_mean_of test_angles name.
Proof.
  intros Hin.
  rewrite (foldl_pointwise _ _ means_step_insert_step).
  rewrite foldl_insert_step_lookup.
  destruct (decide (name ∈ names)); [|contradiction].
  destruct (test_mean_of test_angles name); [reflexivity|apply lookup_empty].
Qed.

Lemma dtw_step_insert_step golden_angles acc name :
  dtw_step fastdtw test_angles golden_angles acc name
  = insert_step (live_dtw_of fastdtw test_angles golden_angles) acc name.
Proof.
  unfold dtw_step, insert_step, live_dtw_of.
  destruct (_ || _)%bool; [reflexivity|].
  destruct (fastdtw_score _ _ _); reflexivity.
Qed.

Lemma evaluate_with_dtw_lookup golden_angles name :
  test_angles <> [] -> golden_angles <> [] ->
  evaluate_with_dtw fastdtw self test_angles golden_angles !! name =
  if decide (name ∈ angles (angle_config self))
  then live_dtw_of fastdtw test_angles golden_angles name else None.
Proof.
  intros Ht Hg. unfold evaluate_with_dtw.
  destruct test_angles as [|t ts] eqn:Et; [congruence|].
  destruct golden_angles as [|g gs] eqn:Eg; [congruence|].
  rewrite <- Et, <- Eg.
  rewrite (foldl_pointwise _ _ (dtw_step_insert_step golden_angles)).
  rewrite foldl_insert_step_lookup.
  destruct (decide (name ∈ angles (angle_config self))); [|apply lookup_empty].
  destruct (live_dtw_of fastdtw test_angles golden_angles name);
    [reflexivity|apply lookup_empty].
Qed.

Lemma dtw_step_simple_insert_step dtw_score golden_angles acc name :
  dtw_step_simple dtw_score test_angles golden_angles acc name
  = insert_step (simple_dtw_of test_angles dtw_score golden_angles) acc name.
Proof.
  unfold dtw_step_simple, insert_step, simple_dtw_of.
  destruct (_ || _)%bool; reflexivity.
Qed.

Lemma evaluate_with_dtw_shadowed_lookup dtw_score golden_angles name :
  evaluate_with_dtw_shadowed dtw_score self test_angles golden_angles !! name =
  if decide (name ∈ angles (angle_config self))
  then simple_dtw_of test_angles dtw_score golden_angles name else None.
Proof.
  unfold evaluate_with_dtw_shadowed.
  rewrite (foldl_pointwise _ _
             (dtw_step_simple_insert_step dtw_score golden_angles)).
  rewrite foldl_insert_step_lookup.
  destruct (decide (name ∈ angles (angle_config self))); [|apply lookup_empty].
  destruct (simple_dtw_of test_angles dtw_score golden_angles name);
    [reflexivity|apply lookup_empty].
Qed.

(** *** The main loop *)

Variable dtw_scores : gmap string Q.

Local Abbreviation step := (direct_step self test_angles dtw_scores).
Local Abbreviation entry := (entry_of self test_angles dtw_scores).
Local Abbreviation incl := (included test_angles).

Lemma foldl_pointwise_in {A B : Type} (g h : A -> B -> A) (l : list B) :
  (forall a b, b ∈ l -> g a b = h a b) -> forall a, foldl g a l = foldl h a l.
Proof.
  induction l as [|b l IH]; intros Hgh a; simpl; [reflexivity|].
  rewrite Hgh by (apply elem_of_cons; auto).
  apply IH. intros a' b' Hb'. apply Hgh, elem_of_cons. auto.
Qed.

Lemma evaluate_loop_direct (items : list (string * angle_stats)) st :
  foldl (evaluate_step self (foldl (means_step test_angles) ∅ items.*1) dtw_scores)
    st items
  = foldl step st items.
Proof.
  apply foldl_pointwise_in. intros a [k s] Hin.
  unfold evaluate_step, direct_step.
  rewrite test_angle_means_lookup; [reflexivity|].
  apply list_elem_of_fmap. exists (k, s). auto.
Qed.

Lemma direct_step_included st item :
  values_of item.1 test_angles <> [] ->
  step st item =
  {| st_evaluations := <[item.1 := entry item]> (st_evaluations st);
     total_score := total_score st + combined_score (entry item) * weight_of item.2;
     total_weight := total_weight st + weight_of item.2 |}.
Proof.
  intros Hv. unfold direct_step, test_mean_of, entry_of, weight_of.
  destruct (values_of item.1 test_angles); [congruence|reflexivity].
Qed.

Lemma direct_step_excluded st item :
  values_of item.1 test_angles = [] -> step st item = st.
Proof.
  intros Hv. unfold direct_step, test_mean_of. rewrite Hv. reflexivity.
Qed.

Lemma included_cons_in item rest :
  values_of item.1 test_angles <> [] ->
  incl (item :: rest) = item :: incl rest.
Proof.
  intros Hv. simpl. destruct (values_of item.1 test_angles); [congruence|reflexivity].
Qed.

Lemma included_cons_out item rest :
  values_of item.1 test_angles = [] -> incl (item :: rest) = incl rest.
Proof. intros Hv. simpl. rewrite Hv. reflexivity. Qed.

Lemma values_of_dec name :
  sumbool (values_of name test_angles = []) (values_of name test_angles <> []).
Proof.
  destruct (values_of name test_angles); [left; reflexivity|right; discriminate].
Qed.

Lemma elem_of_included item items :
  item ∈ incl items <-> item ∈ items /\ values_of item.1 test_angles <> [].
Proof.
  induction items as [|x items IH].
  - simpl. split; [intros H; apply elem_of_nil in H; contradiction|].
    intros [H _]. apply elem_of_nil in H. contradiction.
  - destruct (values_of_dec x.1) as [Hx|Hx].
    + rewrite included_cons_out by assumption. rewrite IH, elem_of_cons.
      split; [tauto|]. intros [[->|Hin] Hv]; [contradiction|tauto].
    + rewrite included_cons_in by assumption. rewrite !elem_of_cons, IH.
      split; [|tauto]. intros [->|[Hin Hv]]; tauto.
Qed.

(** The two accumulators. *)
Lemma direct_loop_totals (items : list (string * angle_stats)) : forall st,
  total_score (foldl step st items) ==
    total_score st
    + np_sum (map (fun it => combined_score (entry it) * weight_of it.2)
                (incl items)) /\
  total_weight (foldl step st items) ==
    total_weight st + np_sum (map (fun it => weight_of it.2) (incl items)).
Proof.
  induction items as [|x items IH]; intros st.
  - simpl. split; ring.
  - simpl foldl. destruct (IH (step st x)) as [Hs Hw].
    rewrite Hs, Hw. destruct (values_of_dec x.1) as [Hx|Hx].
    + rewrite included_cons_out, direct_step_excluded by assumption.
      split; reflexivity.
    + rewrite included_cons_in, direct_step_included by assumption.
      simpl. split; ring.
Qed.

(** The dict of entries. *)
Lemma direct_loop_entries_other (items : list (string * angle_stats)) name :
  forall st, name ∉ (incl items).*1 ->
  st_evaluations (foldl step st items) !! name = st_evaluations st !! name.
Proof.
  induction items as [|x items IH]; intros st Hnot; [reflexivity|].
  simpl foldl. destruct (values_of_dec x.1) as [Hx|Hx].
  - rewrite included_cons_out in Hnot by assumption.
    rewrite direct_step_excluded by assumption. apply IH. assumption.
  - rewrite included_cons_in in Hnot by assumption.
    rewrite fmap_cons in Hnot. apply not_elem_of_cons in Hnot as [Hne Hnot].
    rewrite IH by assumption.
    rewrite direct_step_included by assumption. simpl.
    apply lookup_insert_ne. congruence.
Qed.

Lemma direct_loop_entries (items : list (string * angle_stats)) item :
  NoDup items.*1 -> item ∈ incl items ->
  forall st,
  st_evaluations (foldl step st items) !! item.1 = Some (entry item).
Proof.
  induction items as [|x items IH]; intros Hnd Hin st.
  - apply elem_of_nil in Hin. contradiction.
  - rewrite fmap_cons in Hnd. apply NoDup_cons in Hnd as [Hx Hnd].
    simpl foldl. destruct (values_of_dec x.1) as [Hv|Hv].
    + rewrite included_cons_out in Hin by assumption.
      apply IH; assumption.
    + rewrite included_cons_in in Hin by assumption.
      apply elem_of_cons in Hin as [->|Hin]; [|apply IH; assumption].
      rewrite direct_loop_entries_other.
      * rewrite direct_step_included by assumption. simpl.
        apply lookup_insert_eq.
      * intros Hc. apply Hx.
        apply list_elem_of_fmap in Hc as (y & Hy1 & Hy2).
        apply elem_of_included in Hy2 as [Hy2 _].
        apply list_elem_of_fmap. exists y. auto.
Qed.

End ScorerLoops.

(** ** Evaluation scorer: the per-angle formulas *)

Section Formulas.

Import Analyzer.

Lemma Qle_bool_cases x y :
  (Qle_bool x y = true /\ x <= y) \/ (Qle_bool x y = false /\ y < x).
Proof.
  destruct (Qle_bool x y) eqn:E.
  - left. split; [reflexivity|]. apply Qle_bool_iff. exact E.
  - right. split; [reflexivity|]. apply Qnot_le_lt. intros H.
    apply Qle_bool_iff in H. congruence.
Qed.

Lemma py_max0_Qmax x : py_max0 x == Qmax 0 x.
Proof.
  unfold py_max0. destruct (Qlt_le_dec 0 x).
  - rewrite Q.max_r by lra. reflexivity.
  - rewrite Q.max_l by lra. reflexivity.
Qed.

Lemma status_of_thresholds sc :
  (status_of sc = EXCELLENT <-> 85 <= sc) /\
  (status_of sc = GOOD <-> 70 <= sc /\ sc < 85) /\
  (status_of sc = NEEDS_IMPROVEMENT <-> 50 <= sc /\ sc < 70) /\
  (status_of sc = POOR <-> sc < 50).
Proof.
  unfold status_of.
  destruct (Qle_bool_cases 85 sc) as [[-> H85]|[-> H85]];
    [|destruct (Qle_bool_cases 70 sc) as [[-> H70]|[-> H70]];
      [|destruct (Qle_bool_cases 50 sc) as [[-> H50]|[-> H50]]]];
    repeat split; intros; try discriminate; try reflexivity; try lra.
Qed.

Lemma static_score_inside a t :
  a <= t -> static_score a t = 100 - (a / t) * 30.
Proof.
  intros H. unfold static_score.
  destruct (Qle_bool_cases a t) as [[-> _]|[_ H']]; [reflexivity|lra].
Qed.

Lemma static_score_outside a t :
  t < a -> static_score a t = py_max0 (70 - ((a - t) / t) * 70).
Proof.
  intros H. unfold static_score.
  destruct (Qle_bool_cases a t) as [[_ H']|[-> _]]; [lra|reflexivity].
Qed.

Lemma static_score_boundary a t : 0 < t -> a == t -> static_score a t == 70.
Proof.
  intros Ht Ha. rewrite static_score_inside by lra.
  assert (H1 : a / t == 1) by (rewrite Ha; field; lra).
  rewrite H1. reflexivity.
Qed.

Lemma static_score_zero a t : 0 < t -> 2 * t <= a -> static_score a t == 0.
Proof.
  intros Ht Ha. rewrite static_score_outside by lra.
  assert (H1 : 1 <= (a - t) / t) by (apply Qle_shift_div_l; lra).
  set (r := (a - t) / t) in *.
  unfold py_max0. destruct (Qlt_le_dec 0 (70 - r * 70)); lra.
Qed.

Lemma static_score_example a t : a == 5 -> t == 10 -> static_score a t == 85.
Proof.
  intros Ha Ht. rewrite static_score_inside by lra.
  rewrite Ha, Ht. reflexivity.
Qed.

Lemma blend_between sc d :
  Qmin sc d <= sc * (7 # 10) + d * (3 # 10) <= Qmax sc d.
Proof.
  destruct (Qlt_le_dec sc d).
  - rewrite Q.min_l, Q.max_r by lra. lra.
  - rewrite Q.min_r, Q.max_l by lra. lra.
Qed.

End Formulas.

(** ** Evaluation scorer: the result of [evaluate_angles] *)

Lemma evaluate_angles_nonempty fastdtw self test_angles golden stats :
  test_angles <> [] -> Analyzer.gs_angles golden = Some stats ->
  Analyzer.evaluate_angles fastdtw self test_angles golden =
  let items := map_to_list stats in
  let st :=
    foldl (Analyzer.evaluate_step self
             (foldl (Analyzer.means_step test_angles) ∅ items.*1)
             (Analyzer.golden_dtw_scores fastdtw self test_angles golden))
      {| Analyzer.st_evaluations := ∅; Analyzer.total_score := 0;
         Analyzer.total_weight := 0 |} items in
  Analyzer.Ok
    {| Analyzer.overall_score :=
         if Qlt_le_dec 0 (Analyzer.total_weight st)
         then Analyzer.total_score st / Analyzer.total_weight st else 0;
       Analyzer.angle_evaluations := Analyzer.st_evaluations st;
       Analyzer.ev_total_frames := length test_angles |}.
Proof.
  intros Ht Hg. unfold Analyzer.evaluate_angles. rewrite Hg.
  destruct test_angles; [congruence|reflexivity].
Qed.

Section Scorer.

Import Analyzer.

Variable fastdtw : list Q -> list Q -> option Q.
Variable self : analyzer.
Variable test_angles : list frame_angles.
Variable golden : golden_standard.
Variable stats : gmap string angle_stats.

Hypothesis test_nonempty : test_angles <> [].
Hypothesis golden_has_angles : gs_angles golden = Some stats.

Let dtw_scores := golden_dtw_scores fastdtw self test_angles golden.
Let final :=
  foldl (direct_step self test_angles dtw_scores)
    {| st_evaluations := ∅; total_score := 0; total_weight := 0 |}
    (map_to_list stats).

Lemma evaluate_angles_result :
  evaluate_angles fastdtw self test_angles golden =
  Ok {| overall_score :=
          if Qlt_le_dec 0 (total_weight final)
          then total_score final / total_weight final else 0;
        angle_evaluations := st_evaluations final;
        ev_total_frames := length test_angles |}.
Proof.
  rewrite (evaluate_angles_nonempty _ _ _ _ _ test_nonempty golden_has_angles).
  cbv zeta. rewrite evaluate_loop_direct. reflexivity.
Qed.

(** An angle of the golden standard that occurs in a test frame gets the
    entry computed by the loop body from its statistics and its test mean. *)
Lemma evaluate_angles_entry name s :
  stats !! name = Some s -> values_of name test_angles <> [] ->
  exists r,
    evaluate_angles fastdtw self test_angles golden = Ok r /\
    angle_evaluations r !! name =
      Some (evaluate_one self dtw_scores name s
              (np_mean (values_of name test_angles))).
Proof.
  intros Hs Hv. eexists. split; [apply evaluate_angles_result|].
  cbn [angle_evaluations].
  apply (direct_loop_entries self test_angles dtw_scores (map_to_list stats) (name, s)).
  - apply NoDup_fst_map_to_list.
  - apply elem_of_included. split; [|exact Hv].
    apply elem_of_map_to_list. exact Hs.
Qed.

(** An entry exists exactly for the included angles. *)
Lemma evaluate_angles_entries_dom name :
  is_Some (st_evaluations final !! name) <->
  name ∈ (included test_angles (map_to_list stats)).*1.
Proof.
  split.
  - intros Hsome.
    destruct (decide (name ∈ (included test_angles (map_to_list stats)).*1))
      as [Hin|Hnot]; [assumption|].
    unfold final in Hsome. rewrite direct_loop_entries_other in Hsome by assumption.
    simpl in Hsome. rewrite lookup_empty in Hsome.
    destruct Hsome as [? ?]. discriminate.
  - intros Hin. apply list_elem_of_fmap in Hin as ([k s] & -> & Hin).
    unfold final.
    rewrite (direct_loop_entries self test_angles dtw_scores _ (k, s));
      [eexists; reflexivity|apply NoDup_fst_map_to_list|assumption].
Qed.


(** The status of an included angle is the threshold class of its
    static, mean-based score. *)
Lemma evaluate_angles_status name s :
  stats !! name = Some s -> values_of name test_angles <> [] ->
  exists r e,
    evaluate_angles fastdtw self test_angles golden = Ok r /\
    angle_evaluations r !! name = Some e /\
    (status e = EXCELLENT <-> 85 <= mean_based_score e) /\
    (status e = GOOD <-> 70 <= mean_based_score e /\ mean_based_score e < 85) /\
    (status e = NEEDS_IMPROVEMENT <->
       50 <= mean_based_score e /\ mean_based_score e < 70) /\
    (status e = POOR <-> mean_based_score e < 50).
Proof.
  intros Hs Hv. destruct (evaluate_angles_entry name s Hs Hv) as (r & Hr & He).
  eexists. eexists. split; [exact Hr|]. split; [exact He|].
  apply status_of_thresholds.
Qed.

(** C5: the static score of an included angle follows the two-branch
    formula in [abs_dev = |test_mean - golden_mean|] and the tolerance. *)
Theorem evaluate_angles_static_score name s :
  stats !! name = Some s -> values_of name test_angles <> [] ->
  exists r e,
    evaluate_angles fastdtw self test_angles golden = Ok r /\
    angle_evaluations r !! name = Some e /\
    test_mean e = np_mean (values_of name test_angles) /\
    golden_mean e = mean s /\
    deviation e = test_mean e - golden_mean e /\
    tolerance e = default 15 (tolerances (angle_config self) !! name) /\
    (0 < tolerance e ->
     let abs_dev := Qabs (deviation e) in
     let tol := tolerance e in
     (abs_dev <= tol -> mean_based_score e == 100 - (abs_dev / tol) * 30) /\
     (tol < abs_dev ->
        mean_based_score e == Qmax 0 (70 - ((abs_dev - tol) / tol) * 70)) /\
     (abs_dev == tol -> mean_based_score e == 70) /\
     (2 * tol <= abs_dev -> mean_based_score e == 0) /\
     (golden_mean e == 90 -> tol == 10 -> test_mean e == 95 ->
        mean_based_score e == 85)).
Proof.
  intros Hs Hv. destruct (evaluate_angles_entry name s Hs Hv) as (r & Hr & He).
  eexists. eexists. split; [exact Hr|]. split; [exact He|].
  cbn [test_mean golden_mean deviation tolerance mean_based_score evaluate_one].
  repeat (split; [reflexivity|]).
  intros Htol. cbv zeta.
  set (tm := np_mean (values_of name test_angles)).
  set (tol := default 15 (tolerances (angle_config self) !! name)) in *.
  repeat split.
  - intros H. rewrite static_score_inside by assumption. reflexivity.
  - intros H. rewrite static_score_outside by assumption. apply py_max0_Qmax.
  - intros H. apply static_score_boundary; assumption.
  - intros H. apply static_score_zero; assumption.
  - intros Hg Ht Hm. apply static_score_example; [|assumption].
    assert (H0 : 0 <= tm - mean s) by lra.
    rewrite (Qabs_pos _ H0). lra.
Qed.

(** C10: an included angle without a tolerance in the pose configuration
    is scored, with tolerance 15. *)
Theorem evaluate_angles_default_tolerance name s :
  stats !! name = Some s -> values_of name test_angles <> [] ->
  tolerances (angle_config self) !! name = None ->
  exists r e,
    evaluate_angles fastdtw self test_angles golden = Ok r /\
    angle_evaluations r !! name = Some e /\
    tolerance e = 15 /\
    mean_based_score e =
      static_score (Qabs (np_mean (values_of name test_angles) - mean s)) 15.
Proof.
  intros Hs Hv Htol. destruct (evaluate_angles_entry name s Hs Hv) as (r & Hr & He).
  eexists. eexists. split; [exact Hr|]. split; [exact He|].
  cbn [tolerance mean_based_score evaluate_one]. rewrite Htol.
  split; reflexivity.
Qed.


End Scorer.

(** ** Concrete runs *)

Lemma downward_dog_init : Analyzer.init "downward-dog" = Analyzer.Ok downward_dog.
Proof. reflexivity. Qed.

Lemma warrior_2_init : Analyzer.init "warrior-2" = Analyzer.Ok warrior_2.
Proof. reflexivity. Qed.

Lemma hold_90_nonempty : hold_90 <> [].
Proof. discriminate. Defined.

Lemma hold_90_values : Analyzer.values_of "left_knee" hold_90 <> [].
Proof. vm_compute. discriminate. Defined.

(** C2 at a failing input: a test that holds the knee at 90 degrees
    against the golden sequence 60, 90, 120 with mean 90 (pose
    downward-dog).  The static score is 100.  Whenever the external
    routine returns a distance, which is at least the cost 60 of the
    cheapest warping path, the DTW score is below 34 and the combined
    score, which the entry carries as its [score], lies in [[70, 85)]:
    the class GOOD of the claim, and the class in which the caller in
    [testing_lambda_function.py] puts the entry.  The status is
    EXCELLENT: it was settled from the static score before the blend. *)
Theorem evaluate_angles_status_not_class_of_score
    (fastdtw : list Q -> list Q -> option Q) (d : Q) :
  fastdtw [90; 90; 90] [60; 90; 120] = Some d -> 60 <= d ->
  exists r e,
    Analyzer.evaluate_angles fastdtw downward_dog hold_90 golden_60_120
      = Analyzer.Ok r /\
    Analyzer.angle_evaluations r !! "left_knee" = Some e /\
    Analyzer.mean_based_score e == 100 /\
    (exists v, Analyzer.dtw_score e = Some v /\ 0 <= v /\ v < 34) /\
    Analyzer.score e = Analyzer.combined_score e /\
    70 <= Analyzer.combined_score e /\ Analyzer.combined_score e < 85 /\
    Analyzer.status e = Analyzer.EXCELLENT.
Proof.
  intros Hf Hd.
  destruct (evaluate_angles_entry fastdtw downward_dog hold_90 golden_60_120
              {[ "left_knee" := knee_stats 90 ]} hold_90_nonempty eq_refl
              "left_knee" (knee_stats 90) eq_refl hold_90_values)
    as (r & Hr & He).
  exists r. eexists. split; [exact Hr|]. split; [exact He|].
  assert (Hdtw : Analyzer.golden_dtw_scores fastdtw downward_dog hold_90
                   golden_60_120 !! "left_knee"
                 = Analyzer.fastdtw_score fastdtw [90; 90; 90] [60; 90; 120]).
  { unfold Analyzer.golden_dtw_scores.
    cbn [Analyzer.angle_sequences golden_60_120 golden_of].
    rewrite evaluate_with_dtw_lookup by discriminate.
    destruct (decide ("left_knee"
                      ∈ Analyzer.angles (Analyzer.angle_config downward_dog)))
      as [_|Hnot]; [reflexivity|].
    exfalso. apply Hnot. vm_compute. repeat constructor. }
  cbn [Analyzer.mean_based_score Analyzer.dtw_score Analyzer.score
       Analyzer.combined_score Analyzer.status Analyzer.evaluate_one].
  rewrite Hdtw. unfold Analyzer.fastdtw_score. rewrite Hf. cbv zeta.
  set (sc := Analyzer.static_score _ _).
  assert (Hsc : sc == 100) by (vm_compute; reflexivity).
  assert (Hst : Analyzer.status_of sc = Analyzer.EXCELLENT)
    by (vm_compute; reflexivity).
  set (v := py_max0 _).
  assert (Hv : 0 <= v /\ v <= 100 # 3).
  { unfold v. split; [apply py_max0_nonneg|].
    apply py_max0_le; [lra|].
    assert (Hx : 100 - d / (inject_Z (Z.of_nat (length [90; 90; 90]
                                                 + length [60; 90; 120])) / 2)
                       / 30 * 100 == 100 - d * (10 # 9)).
    { simpl length. simpl Z.of_nat. field. }
    rewrite Hx. lra. }
  destruct Hv as [Hv0 Hv1].
  split; [exact Hsc|].
  split; [exists v; split; [reflexivity|split; lra]|].
  split; [reflexivity|]. split; [lra|]. split; [lra|exact Hst].
Qed.

Lemma evaluate_angles_status_not_class_of_score_witness :
  exists r e,
    Analyzer.evaluate_angles Analyzer.exact_dtw downward_dog hold_90
      golden_60_120 = Analyzer.Ok r /\
    Analyzer.angle_evaluations r !! "left_knee" = Some e /\
    70 <= Analyzer.combined_score e /\ Analyzer.combined_score e < 85 /\
    Analyzer.status e = Analyzer.EXCELLENT.
Proof.
  destruct (evaluate_angles_status_not_class_of_score Analyzer.exact_dtw 60)
    as (r & e & Hr & He & _ & _ & _ & Hlo & Hhi & Hst).
  - vm_compute. reflexivity.
  - lra.
  - exists r, e. repeat split; assumption.
Defined.


Lemma knee_95_nonempty : knee_95 <> [].
Proof. discriminate. Defined.

Lemma knee_95_values : Analyzer.values_of "left_knee" knee_95 <> [].
Proof. vm_compute. discriminate. Defined.

Lemma evaluate_angles_static_score_witness :
  exists r e,
    Analyzer.evaluate_angles Analyzer.exact_dtw downward_dog knee_95 golden_90
      = Analyzer.Ok r /\
    Analyzer.angle_evaluations r !! "left_knee" = Some e /\
    Analyzer.golden_mean e == 90 /\ Analyzer.tolerance e == 10 /\
    Analyzer.test_mean e == 95 /\ Analyzer.mean_based_score e == 85.
Proof.
  destruct (evaluate_angles_static_score Analyzer.exact_dtw downward_dog knee_95
              golden_90 {[ "left_knee" := knee_stats 90 ]}
              knee_95_nonempty eq_refl "left_knee" (knee_stats 90)
              eq_refl knee_95_values)
    as (r & e & Hr & He & Htm & Hgm & _ & Htol & Hscore).
  assert (Hg : Analyzer.golden_mean e == 90) by (rewrite Hgm; reflexivity).
  assert (Ht : Analyzer.tolerance e == 10) by (rewrite Htol; reflexivity).
  assert (Hm : Analyzer.test_mean e == 95) by (rewrite Htm; reflexivity).
  assert (Hpos : 0 < Analyzer.tolerance e) by (rewrite Htol; reflexivity).
  destruct (Hscore Hpos) as (_ & _ & _ & _ & Hex).
  exists r, e. repeat split; try assumption. exact (Hex Hg Ht Hm).
Defined.

Lemma spine_test_nonempty : spine_test <> [].
Proof. discriminate. Defined.

Lemma spine_test_values : Analyzer.values_of "spine_alignment" spine_test <> [].
Proof. vm_compute. discriminate. Defined.

Lemma evaluate_angles_default_tolerance_witness :
  exists r e,
    Analyzer.evaluate_angles Analyzer.exact_dtw warrior_2 spine_test spine_golden
      = Analyzer.Ok r /\
    Analyzer.angle_evaluations r !! "spine_alignment" = Some e /\
    Analyzer.tolerance e = 15 /\
    Analyzer.mean_based_score e =
      Analyzer.static_score
        (Qabs (Analyzer.np_mean (Analyzer.values_of "spine_alignment" spine_test)
               - Analyzer.mean spine_stats)) 15.
Proof.
  exact (evaluate_angles_default_tolerance Analyzer.exact_dtw warrior_2 spine_test
           spine_golden {[ "spine_alignment" := spine_stats ]}
           spine_test_nonempty eq_refl "spine_alignment" spine_stats
           eq_refl spine_test_values eq_refl).
Defined.

(** ** The DTW score attached by [evaluate_angles] *)

Lemma rising_test_nonempty : rising_test <> [].
Proof. discriminate. Defined.

Lemma rising_test_values : Analyzer.values_of "left_knee" rising_test <> [].
Proof. vm_compute. discriminate. Defined.

(** The entry of an included angle carries the score of the second
    [evaluate_with_dtw], the one built on the external routine. *)
Lemma evaluate_angles_dtw_entry fastdtw self test_angles golden stats name s f fs :
  test_angles <> [] -> Analyzer.gs_angles golden = Some stats ->
  Analyzer.angle_sequences golden = Some (f :: fs) ->
  stats !! name = Some s -> Analyzer.values_of name test_angles <> [] ->
  name ∈ Analyzer.angles (Analyzer.angle_config self) ->
  exists r e,
    Analyzer.evaluate_angles fastdtw self test_angles golden = Analyzer.Ok r /\
    Analyzer.angle_evaluations r !! name = Some e /\
    Analyzer.dtw_score e = live_dtw_of fastdtw test_angles (f :: fs) name.
Proof.
  intros Ht Hg Hseq Hs Hv Hin.
  destruct (evaluate_angles_entry fastdtw self test_angles golden stats Ht Hg
              name s Hs Hv) as (r & Hr & He).
  eexists. eexists. split; [exact Hr|]. split; [exact He|].
  cbn [Analyzer.dtw_score Analyzer.evaluate_one].
  unfold Analyzer.golden_dtw_scores. rewrite Hseq.
  rewrite evaluate_with_dtw_lookup by (assumption || discriminate).
  destruct (decide (name ∈ Analyzer.angles (Analyzer.angle_config self)));
    [reflexivity|contradiction].
Qed.

(** Were the name [dtw_score] bound to the function of [dtw_simple.py],
    the first definition of [evaluate_with_dtw] would enter the score of
    the recurrence for every tracked angle with three or more values on
    both sides. *)
Lemma evaluate_with_dtw_shadowed_reference self test_angles golden_angles name :
  name ∈ Analyzer.angles (Analyzer.angle_config self) ->
  (3 <= length (Analyzer.values_of name test_angles))%nat ->
  (3 <= length (Analyzer.values_of name golden_angles))%nat ->
  Analyzer.evaluate_with_dtw_shadowed DtwSimple.dtw_score self test_angles
    golden_angles !! name =
  Some (DtwSimple.score_ref (Analyzer.values_of name test_angles)
          (Analyzer.values_of name golden_angles)).
Proof.
  intros Hin Ht Hg. rewrite evaluate_with_dtw_shadowed_lookup.
  destruct (decide (name ∈ Analyzer.angles (Analyzer.angle_config self)));
    [|contradiction].
  unfold simple_dtw_of.
  destruct (Nat.ltb_spec (length (Analyzer.values_of name test_angles)) 3); [lia|].
  destruct (Nat.ltb_spec (length (Analyzer.values_of name golden_angles)) 3); [lia|].
  simpl. f_equal. apply dtw_score_score_ref.
  - destruct (Analyzer.values_of name test_angles); [simpl in *; lia|discriminate].
  - destruct (Analyzer.values_of name golden_angles); [simpl in *; lia|discriminate].
Qed.

(** C1 at a failing input: test knee angles 10, 20, 30 against the golden
    sequence 20, 30, 40 (pose downward-dog).  The score of the recurrence
    is 2650/27 (about 98.1).  The entry of [evaluate_angles] holds what
    the second [evaluate_with_dtw] computes from the external routine:
    no score when the routine raises, and otherwise
    [max(0, 100 - (d / 3) / 30 * 100)] for the distance [d] it returns,
    which is below the score of the recurrence as soon as [d] is at least
    the exact distance 20 (no warping path is cheaper). *)
Theorem evaluate_angles_dtw_score_not_reference
    (fastdtw : list Q -> list Q -> option Q) :
  (forall d, fastdtw [10; 20; 30] [20; 30; 40] = Some d -> 20 <= d) ->
  exists r e,
    Analyzer.evaluate_angles fastdtw downward_dog rising_test rising_golden
      = Analyzer.Ok r /\
    Analyzer.angle_evaluations r !! "left_knee" = Some e /\
    Analyzer.values_of "left_knee" rising_test = [10; 20; 30] /\
    Analyzer.values_of "left_knee" [knee_frame 20; knee_frame 30; knee_frame 40]
      = [20; 30; 40] /\
    DtwSimple.score_ref [10; 20; 30] [20; 30; 40] == 2650 # 27 /\
    Analyzer.dtw_score e = Analyzer.fastdtw_score fastdtw [10; 20; 30] [20; 30; 40] /\
    forall v, Analyzer.dtw_score e = Some v ->
      v < DtwSimple.score_ref [10; 20; 30] [20; 30; 40].
Proof.
  intros Hd.
  assert (Hin : "left_knee" ∈ Analyzer.angles (Analyzer.angle_config downward_dog)).
  { vm_compute. repeat constructor. }
  destruct (evaluate_angles_dtw_entry fastdtw downward_dog rising_test rising_golden
              {[ "left_knee" := knee_stats 30 ]} "left_knee" (knee_stats 30)
              (knee_frame 20) [knee_frame 30; knee_frame 40]
              rising_test_nonempty eq_refl eq_refl eq_refl rising_test_values Hin)
    as (r & e & Hr & He & Hdtw).
  exists r, e. split; [exact Hr|]. split; [exact He|].
  split; [reflexivity|]. split; [reflexivity|]. split; [reflexivity|].
  assert (Hlive : live_dtw_of fastdtw rising_test
                    [knee_frame 20; knee_frame 30; knee_frame 40] "left_knee"
                  = Analyzer.fastdtw_score fastdtw [10; 20; 30] [20; 30; 40])
    by reflexivity.
  rewrite Hlive in Hdtw. split; [exact Hdtw|].
  intros v Hv. rewrite Hdtw in Hv. unfold Analyzer.fastdtw_score in Hv.
  destruct (fastdtw [10; 20; 30] [20; 30; 40]) as [d|] eqn:Hf; [|discriminate].
  specialize (Hd d eq_refl). injection Hv as <-.
  assert (Href : DtwSimple.score_ref [10; 20; 30] [20; 30; 40] == 2650 # 27)
    by reflexivity.
  rewrite Href.
  assert (Hx : 100 - d / (inject_Z (Z.of_nat (length [10; 20; 30] + length [20; 30; 40])) / 2)
                     / 30 * 100 == 100 - d * (10 # 9)).
  { simpl length. simpl Z.of_nat. field. }
  unfold py_max0. destruct (Qlt_le_dec 0 _) as [Hpos|Hneg].
  - rewrite Hx. lra.
  - reflexivity.
Qed.

Lemma evaluate_angles_dtw_score_not_reference_witness :
  exists r e,
    Analyzer.evaluate_angles Analyzer.exact_dtw downward_dog rising_test rising_golden
      = Analyzer.Ok r /\
    Analyzer.angle_evaluations r !! "left_knee" = Some e /\
    Analyzer.dtw_score e
      = Analyzer.fastdtw_score Analyzer.exact_dtw [10; 20; 30] [20; 30; 40] /\
    forall v, Analyzer.dtw_score e = Some v ->
      v < DtwSimple.score_ref [10; 20; 30] [20; 30; 40].
Proof.
  destruct (evaluate_angles_dtw_score_not_reference Analyzer.exact_dtw)
    as (r & e & Hr & He & _ & _ & _ & Hdtw & Hlt).
  - intros d Hd. vm_compute in Hd. injection Hd as <-. discriminate.
  - exists r, e. repeat split; assumption.
Defined.

(** ** Angle calculator on a degenerate frame *)

(** C3 at a failing input: in [degenerate_frame] the left shoulder and the
    left elbow (the vertex) are the same point and all three landmarks of
    the angle [left_shoulder] are visible.  The cosine is [0/0], a NaN,
    which [np.clip], [math.acos] and [math.degrees] pass on, so
    [_calculate_angle] returns a NaN instead of [None] and
    [calculate_angles] enters it under [left_shoulder]. *)
Theorem calculate_angles_zero_vector_gives_nan (acos : float -> float) :
  exists v,
    AngleCalculator._calculate_angle acos
      (AngleCalculator.at_key AngleCalculator.degenerate_frame "left_shoulder")
      (AngleCalculator.at_key AngleCalculator.degenerate_frame "left_elbow")
      (AngleCalculator.at_key AngleCalculator.degenerate_frame "left_wrist")
      = Some v /\
    AngleCalculator.calculate_angles acos
      (Analyzer.angles (Analyzer.angle_config downward_dog))
      AngleCalculator.default_visibility_threshold
      AngleCalculator.degenerate_frame !! "left_shoulder" = Some v /\
    PrimFloat.is_nan v = true.
Proof.
  exists PrimFloat.nan. split; [|split]; vm_compute; reflexivity.
Qed.

(** * Further properties *)

(** ** Temporal aligner: edge cases, symmetry, closeness, speed *)

Section DtwFurther.

Import DtwSimple.

(** X1: [dtw_distance] is 0 on two empty sequences, [+inf] when exactly
    one sequence is empty, and a non-negative number when both are
    non-empty; [normalized_dtw_distance] of two empty sequences is 0
    (the guard on the path length). *)
Theorem dtw_distance_edges (a b : list Q) :
  (a = [] -> b = [] -> dtw_distance a b = Fin 0) /\
  (a = [] -> b <> [] -> dtw_distance a b = Inf) /\
  (a <> [] -> b = [] -> dtw_distance a b = Inf) /\
  (a <> [] -> b <> [] -> exists d, dtw_distance a b = Fin d /\ 0 <= d) /\
  normalized_dtw_distance [] [] = Fin 0.
Proof.
  rewrite dtw_distance_C_ref.
  split; [|split; [|split; [|split]]].
  - intros -> ->. reflexivity.
  - intros -> Hb. destruct b; [congruence|reflexivity].
  - intros Ha ->. destruct a; [congruence|reflexivity].
  - intros Ha Hb.
    destruct (dtw_score_nonempty a b Ha Hb) as (d & Hd & Hnn & _).
    exists d. split; assumption.
  - reflexivity.
Qed.

Lemma dtw_distance_edges_witness :
  dtw_distance [] [] = Fin 0 /\
  dtw_distance [] [10; 20] = Inf /\
  dtw_distance [10; 20] [] = Inf /\
  exists d, dtw_distance [10; 20] [30] = Fin d /\ 0 <= d.
Proof.
  destruct (dtw_distance_edges [] []) as (H1 & _).
  destruct (dtw_distance_edges [] [10; 20]) as (_ & H2 & _).
  destruct (dtw_distance_edges [10; 20] []) as (_ & _ & H3 & _).
  destruct (dtw_distance_edges [10; 20] [30]) as (_ & _ & _ & H4 & _).
  split; [apply H1; reflexivity|].
  split; [apply H2; [reflexivity|discriminate]|].
  split; [apply H3; [discriminate|reflexivity]|].
  apply H4; discriminate.
Defined.

(** *** Symmetry *)

Lemma ext_eq_refl e : ext_eq e e.
Proof. destruct e; simpl; [reflexivity|exact I]. Qed.

Lemma ext_add_eq c1 c2 e1 e2 :
  c1 == c2 -> ext_eq e1 e2 -> ext_eq (ext_add (Fin c1) e1) (ext_add (Fin c2) e2).
Proof. destruct e1, e2; simpl; intros; try contradiction; try exact I; lra. Qed.

(** The minimum does not depend on the order of its first two arguments,
    up to equality of numbers. *)
Lemma py_min3_swap x y z x' y' z' :
  ext_eq x x' -> ext_eq y y' -> ext_eq z z' ->
  ext_eq (py_min3 x y z) (py_min3 y' x' z').
Proof.
  unfold py_min3.
  destruct x as [p|], y as [q|], z as [r|], x' as [p'|], y' as [q'|], z' as [r'|];
    simpl; intros Hx Hy Hz; try contradiction;
    repeat (match goal with
            | |- context [Qlt_le_dec ?u ?v] => destruct (Qlt_le_dec u v)
            end; simpl);
    try exact I; lra.
Qed.

Lemma C_ref_symmetric a b i : forall j, ext_eq (C_ref a b i j) (C_ref b a j i).
Proof.
  induction i as [|i IHi]; intros j.
  - destruct j; simpl; [reflexivity|exact I].
  - induction j as [|j IHj]; [exact I|].
    rewrite !C_ref_interior.
    apply ext_add_eq.
    + rewrite Qabs_Qminus. reflexivity.
    + apply py_min3_swap; [apply IHi|apply IHj|apply IHi].
Qed.

Lemma py_max0_eq x y : x == y -> py_max0 x == py_max0 y.
Proof.
  intros H. unfold py_max0.
  destruct (Qlt_le_dec 0 x), (Qlt_le_dec 0 y); lra.
Qed.

(** X2: the distance and the score do not depend on the order of the
    two sequences. *)
Theorem dtw_symmetric (a b : list Q) :
  ext_eq (dtw_distance a b) (dtw_distance b a) /\
  dtw_score a b 180 == dtw_score b a 180.
Proof.
  pose proof (C_ref_symmetric a b (length a) (length b)) as Hsym.
  split; [rewrite !dtw_distance_C_ref; exact Hsym|].
  destruct (decide (a = [])) as [->|Ha]; [destruct b; reflexivity|].
  destruct (decide (b = [])) as [->|Hb]; [destruct a; reflexivity|].
  destruct (dtw_score_nonempty a b Ha Hb) as (d & Hd & _ & ->).
  destruct (dtw_score_nonempty b a Hb Ha) as (d' & Hd' & _ & ->).
  rewrite Hd, Hd' in Hsym. simpl in Hsym.
  apply py_max0_eq. rewrite (Nat.add_comm (length b) (length a)).
  rewrite Hsym. reflexivity.
Qed.

(** *** Sequences that are close sample by sample *)

Lemma py_min3_le_third x y r :
  ext_nonneg x -> ext_nonneg y ->
  exists q, py_min3 x y (Fin r) = Fin q /\ q <= r.
Proof.
  unfold py_min3. destruct x as [p|], y as [q|]; simpl; intros _ _;
    repeat (match goal with
            | |- context [Qlt_le_dec ?u ?v] => destruct (Qlt_le_dec u v)
            end; simpl);
    eexists; (split; [reflexivity|lra]).
Qed.

Lemma C_ref_diagonal_bound a b i :
  exists q, C_ref a b i i = Fin q /\ q <= diagonal_cost a b i.
Proof.
  induction i as [|i (q & Hq & Hle)].
  - exists 0. split; [reflexivity|simpl; lra].
  - rewrite C_ref_interior, Hq.
    destruct (py_min3_le_third (C_ref a b i (S i)) (C_ref a b (S i) i) q
                (C_ref_nonneg _ _ _ _) (C_ref_nonneg _ _ _ _)) as (q' & -> & Hq').
    eexists. split; [reflexivity|]. simpl. lra.
Qed.

Lemma diagonal_cost_close a b eps i :
  (forall k, (k < i)%nat -> Qabs (item a k - item b k) <= eps) ->
  diagonal_cost a b i <= inject_Z (Z.of_nat i) * eps.
Proof.
  induction i as [|i IH]; intros Hclose.
  - change (inject_Z (Z.of_nat 0)) with 0. simpl diagonal_cost. lra.
  - change (diagonal_cost a b (S i))
      with (diagonal_cost a b i + Qabs (item a i - item b i)).
    rewrite Nat2Z.inj_succ. unfold Z.succ.
    rewrite inject_Z_plus.
    assert (H1 : diagonal_cost a b i <= inject_Z (Z.of_nat i) * eps)
      by (apply IH; intros k Hk; apply Hclose; lia).
    assert (H2 : Qabs (item a i - item b i) <= eps) by (apply Hclose; lia).
    change (inject_Z 1) with 1.
    assert (Hr : (inject_Z (Z.of_nat i) + 1) * eps
                 == inject_Z (Z.of_nat i) * eps + eps) by ring.
    rewrite Hr. lra.
Qed.

Lemma Forall2_item (P : Q -> Q -> Prop) (a b : list Q) k :
  Forall2 P a b -> (k < length a)%nat -> P (item a k) (item b k).
Proof.
  intros HF Hk.
  destruct (lookup_lt_is_Some_2 a k Hk) as [x Hx].
  destruct (lookup_lt_is_Some_2 b k) as [y Hy];
    [rewrite <- (Forall2_length _ _ _ HF); exact Hk|].
  unfold item. rewrite Hx, Hy. simpl.
  exact (Forall2_lookup_lr _ _ _ _ _ _ HF Hx Hy).
Qed.

(** X3: two non-empty sequences of equal length whose samples differ by
    at most [eps] index by index score at least [100 - eps * 5/18]: the
    index-by-index pairing is one of the alignments. *)
Theorem dtw_score_close (a b : list Q) (eps : Q) :
  a <> [] ->
  Forall2 (fun x y => Qabs (x - y) <= eps) a b ->
  100 - eps * (5 # 18) <= dtw_score a b 180.
Proof.
  intros Ha HF.
  assert (Hlen : length a = length b) by (eapply Forall2_length; exact HF).
  assert (Hb : b <> []) by (destruct a, b; simpl in *; congruence).
  destruct (dtw_score_nonempty a b Ha Hb) as (d & Hd & Hnn & ->).
  destruct (C_ref_diagonal_bound a b (length a)) as (q & Hq & Hle).
  rewrite <- Hlen in Hd. rewrite Hd in Hq. injection Hq as <-.
  pose proof (diagonal_cost_close a b eps (length a)
                (fun k Hk => Forall2_item _ a b k HF Hk)) as Hdiag.
  rewrite <- Hlen.
  set (nq := inject_Z (Z.of_nat (length a))) in *.
  assert (HK : inject_Z (Z.of_nat (length a + length a)) == 2 * nq).
  { unfold nq. rewrite Nat2Z.inj_add, inject_Z_plus. ring. }
  assert (Hpos : 0 < nq) by (apply qlen_pos; exact Ha).
  assert (Hnorm : d / inject_Z (Z.of_nat (length a + length a)) <= eps * (1 # 2)).
  { apply Qle_shift_div_r; [rewrite HK; lra|]. rewrite HK.
    assert (Hr : eps * (1 # 2) * (2 * nq) == nq * eps) by ring.
    rewrite Hr. lra. }
  set (nd := d / _) in *.
  assert (Hx : 100 - eps * (5 # 18) <= 100 - nd / 180 * 100).
  { assert (Hr : nd / 180 * 100 == nd * (5 # 9)) by field. rewrite Hr. lra. }
  unfold py_max0. destruct (Qlt_le_dec 0 (100 - nd / 180 * 100)); lra.
Qed.

Lemma dtw_score_close_witness :
  100 - 2 * (5 # 18) <= dtw_score [10; 20; 30] [12; 19; 31] 180.
Proof.
  apply (dtw_score_close [10; 20; 30] [12; 19; 31] 2); [discriminate|].
  repeat constructor; vm_compute; discriminate.
Defined.

(** *** A sequence against itself at half speed *)

Lemma py_min3_zero_any x y z :
  ext_nonneg x -> ext_nonneg y -> ext_nonneg z ->
  ext_zero x \/ ext_zero y \/ ext_zero z -> ext_zero (py_min3 x y z).
Proof.
  unfold py_min3.
  destruct x as [p|], y as [q|], z as [r|]; simpl; intros Hx Hy Hz Hor;
    repeat (match goal with
            | |- context [Qlt_le_dec ?u ?v] => destruct (Qlt_le_dec u v)
            end; simpl);
    intuition lra.
Qed.

Lemma item_stutter_even a k : item (stutter a) (2 * k) = item a k.
Proof.
  revert k. induction a as [|x a IH]; intros k; [destruct k; reflexivity|].
  destruct k as [|k]; [reflexivity|].
  replace (2 * S k)%nat with (S (S (2 * k))) by lia. simpl stutter.
  unfold item in *. simpl. apply IH.
Qed.

Lemma item_stutter_odd a k : item (stutter a) (S (2 * k)) = item a k.
Proof.
  revert k. induction a as [|x a IH]; intros k; [reflexivity|].
  destruct k as [|k]; [reflexivity|].
  replace (S (2 * S k)) with (S (S (S (2 * k)))) by lia. simpl stutter.
  unfold item in *. simpl. apply IH.
Qed.

Lemma length_stutter a : length (stutter a) = (2 * length a)%nat.
Proof. induction a as [|x a IH]; simpl; [reflexivity|]. rewrite IH. lia. Qed.

Lemma ext_add_zero c e : c == 0 -> ext_zero e -> ext_zero (ext_add (Fin c) e).
Proof. destruct e; simpl; [lra|trivial]. Qed.

Lemma Qabs_self x : Qabs (x - x) == 0.
Proof.
  assert (H : 0 <= x - x) by lra. rewrite (Qabs_pos _ H). lra.
Qed.

Lemma C_ref_stutter a i :
  ext_zero (C_ref a (stutter a) i (2 * i)) /\
  ext_zero (C_ref a (stutter a) (S i) (S (2 * i))).
Proof.
  induction i as [|i [IH0 IH1]].
  - split; [reflexivity|]. rewrite C_ref_interior.
    apply ext_add_zero.
    + rewrite (item_stutter_even a 0). apply Qabs_self.
    + apply py_min3_zero_any; try apply C_ref_nonneg. right; right. reflexivity.
  - assert (H2 : ext_zero (C_ref a (stutter a) (S i) (2 * S i))).
    { replace (2 * S i)%nat with (S (S (2 * i))) by lia.
      rewrite C_ref_interior. apply ext_add_zero.
      - rewrite item_stutter_odd. apply Qabs_self.
      - apply py_min3_zero_any; try apply C_ref_nonneg. right; left. exact IH1. }
    split; [exact H2|].
    rewrite C_ref_interior. apply ext_add_zero.
    + rewrite item_stutter_even. apply Qabs_self.
    + apply py_min3_zero_any; try apply C_ref_nonneg. right; right. exact H2.
Qed.

(** X4: a non-empty sequence scores 100 against itself played at half
    speed (every sample twice); the distance is 0. *)
Theorem dtw_score_half_speed (a : list Q) :
  a <> [] ->
  ext_zero (dtw_distance a (stutter a)) /\ dtw_score a (stutter a) 180 == 100.
Proof.
  intros Ha.
  assert (Hs : stutter a <> []) by (destruct a; [congruence|discriminate]).
  pose proof (C_ref_stutter a (length a)) as [Hz _].
  rewrite <- length_stutter in Hz.
  split; [rewrite dtw_distance_C_ref; exact Hz|].
  destruct (dtw_score_nonempty a (stutter a) Ha Hs) as (d & Hd & _ & ->).
  rewrite Hd in Hz. simpl in Hz.
  assert (Hx : 100 - d / inject_Z (Z.of_nat (length a + length (stutter a))) / 180 * 100
               == 100).
  { rewrite Hz. unfold Qdiv. ring. }
  rewrite py_max0_pos; [exact Hx|]. rewrite Hx. lra.
Qed.

Lemma dtw_score_half_speed_witness :
  ext_zero (dtw_distance [10; 20; 30] [10; 10; 20; 20; 30; 30]) /\
  dtw_score [10; 20; 30] [10; 10; 20; 20; 30; 30] 180 == 100.
Proof.
  apply (dtw_score_half_speed [10; 20; 30]). discriminate.
Defined.

End DtwFurther.

(** ** Analyzer: construction *)

Section Construction.

Import Analyzer.

Lemma assoc_elem_of {A : Type} (k : string) (l : list (string * A)) v :
  assoc k l = Some v -> (k, v) ∈ l.
Proof.
  induction l as [|[k' v'] l IH]; simpl; [discriminate|].
  destruct (String.eqb_spec k k') as [->|Hne].
  - intros [= ->]. apply list_elem_of_here.
  - intros H. apply list_elem_of_further, IH, H.
Qed.

Lemma assoc_is_Some {A : Type} (k : string) (l : list (string * A)) :
  is_Some (assoc k l) <-> k ∈ l.*1.
Proof.
  induction l as [|[k' v'] l IH]; simpl.
  - split; [intros [? ?]; discriminate|intros H; apply elem_of_nil in H; contradiction].
  - rewrite elem_of_cons. destruct (String.eqb_spec k k') as [->|Hne].
    + split; [auto|intros _; eexists; reflexivity].
    + rewrite IH. simpl. tauto.
Qed.

Lemma tolerance_table_lookup (l : list (string * Q)) k t :
  tolerance_table l !! k = Some t -> (k, t) ∈ l.
Proof. apply elem_of_list_to_map_2. Qed.

Lemma tolerance_table_is_Some (l : list (string * Q)) k :
  is_Some (tolerance_table l !! k) <-> k ∈ l.*1.
Proof.
  unfold tolerance_table. rewrite <- elem_of_dom, dom_list_to_map_L.
  apply elem_of_list_to_set.
Qed.

Lemma pose_table_consistent :
  Forall (fun entry => config_consistent entry.2) POSE_ANGLE_DEFINITIONS.
Proof.
  unfold POSE_ANGLE_DEFINITIONS.
  repeat apply List.Forall_cons; try apply List.Forall_nil.
  all: split; [|split]; cbn [snd angles tolerances].
  all: try (apply (bool_decide_unpack _); vm_compute; reflexivity).
  all: try (intros k; rewrite tolerance_table_is_Some; reflexivity).
  all: intros k t Hk; apply tolerance_table_lookup in Hk;
    repeat (apply elem_of_cons in Hk as [[= _ ->]|Hk]; [reflexivity|]);
    apply elem_of_nil in Hk; contradiction.
Qed.

(** X5: the constructor accepts exactly the five pose names of the
    table and raises [ValueError] on any other; the analyzer it returns
    carries the given name and a configuration in which the tracked
    angles are distinct and are exactly the angles with a tolerance, and
    every tolerance is positive. *)
Theorem init_supported (name : string) :
  ((exists a, init name = Ok a) <-> name ∈ supported_poses) /\
  ((exists msg, init name = ValueError msg) <-> name ∉ supported_poses) /\
  (forall a, init name = Ok a ->
     pose_name a = name /\ config_consistent (angle_config a)).
Proof.
  assert (Hsome : is_Some (assoc name POSE_ANGLE_DEFINITIONS)
                  <-> name ∈ supported_poses) by apply assoc_is_Some.
  unfold init.
  destruct (assoc name POSE_ANGLE_DEFINITIONS) as [cfg|] eqn:Hcfg.
  - assert (Hin : name ∈ supported_poses) by (apply Hsome; eexists; reflexivity).
    split; [split; [intros _; exact Hin|intros _; eexists; reflexivity]|].
    split; [split; [intros [msg Hm]; discriminate|intros Hn; contradiction]|].
    intros a [= <-]. split; [reflexivity|]. simpl.
    apply assoc_elem_of in Hcfg.
    pose proof pose_table_consistent as Htab. rewrite Forall_forall in Htab.
    exact (Htab _ Hcfg).
  - assert (Hnot : name ∉ supported_poses).
    { intros Hin. apply Hsome in Hin. destruct Hin as [? ?]. discriminate. }
    split; [split; [intros [a Ha]; discriminate|intros Hin; contradiction]|].
    split; [split; [intros _; exact Hnot|intros _; eexists; reflexivity]|].
    intros a Ha. discriminate.
Qed.

End Construction.

Lemma init_supported_witness :
  exists a,
    Analyzer.init "warrior-2" = Analyzer.Ok a /\
    Analyzer.pose_name a = "warrior-2" /\
    config_consistent (Analyzer.angle_config a).
Proof.
  destruct (init_supported "warrior-2") as (_ & _ & H).
  exists warrior_2. split; [reflexivity|]. apply H. reflexivity.
Defined.

(** ** Analyzer: the records of the golden standard *)

Section GoldenRecords.

Import Analyzer.

Variable np_sqrt : Q -> Q.

Lemma elem_of_all_angle_names_acc (angle_data : list frame_angles) name :
  forall acc : gset string,
  name ∈ foldl (fun acc (f : frame_angles) => acc ∪ dom f) acc angle_data <->
  name ∈ acc \/ exists f, f ∈ angle_data /\ is_Some (f !! name).
Proof.
  induction angle_data as [|f0 fs IH]; intros acc; simpl.
  - split; [auto|]. intros [H|(f & Hf & _)]; [exact H|].
    apply elem_of_nil in Hf. contradiction.
  - rewrite IH, elem_of_union, elem_of_dom. split.
    + intros [[H|H]|(f & Hf & Hs)]; [auto| |].
      * right. exists f0. split; [apply list_elem_of_here|exact H].
      * right. exists f. split; [apply list_elem_of_further, Hf|exact Hs].
    + intros [H|(f & Hf & Hs)]; [auto|].
      apply elem_of_cons in Hf as [->|Hf]; [auto|].
      right. exists f. auto.
Qed.

Lemma elem_of_all_angle_names (angle_data : list frame_angles) name :
  name ∈ all_angle_names angle_data <->
  exists f, f ∈ angle_data /\ is_Some (f !! name).
Proof.
  unfold all_angle_names. rewrite elem_of_all_angle_names_acc.
  split; [intros [H|H]; [|exact H]|auto].
  apply elem_of_empty in H. contradiction.
Qed.

Lemma values_of_frames_with name (frames : list frame_angles) :
  length (values_of name frames) = length (frames_with name frames).
Proof.
  unfold values_of, frames_with, omap.
  induction frames as [|f fs IH]; [reflexivity|].
  rewrite filter_cons. simpl. destruct (f !! name) as [v|] eqn:Hv.
  - rewrite decide_True by (eexists; reflexivity). simpl. rewrite IH. reflexivity.
  - rewrite decide_False by (intros [? ?]; discriminate). exact IH.
Qed.

Lemma values_of_nonempty_iff name (frames : list frame_angles) :
  values_of name frames <> [] <->
  exists f, f ∈ frames /\ is_Some (f !! name).
Proof.
  unfold values_of, omap. induction frames as [|f fs IH]; simpl.
  - split; [congruence|]. intros (f & Hf & _). apply elem_of_nil in Hf. contradiction.
  - destruct (f !! name) as [v|] eqn:Hv.
    + split; [|discriminate]. intros _. exists f.
      split; [apply list_elem_of_here|rewrite Hv; eexists; reflexivity].
    + rewrite IH. split.
      * intros (f' & Hf' & Hs). exists f'. split; [apply list_elem_of_further, Hf'|exact Hs].
      * intros (f' & Hf' & Hs). apply elem_of_cons in Hf' as [->|Hf'].
        -- rewrite Hv in Hs. destruct Hs as [? ?]. discriminate.
        -- exists f'. auto.
Qed.

Lemma frames_with_all name (frames : list frame_angles) :
  length (frames_with name frames) = length frames <->
  Forall (fun f : frame_angles => is_Some (f !! name)) frames.
Proof.
  unfold frames_with. induction frames as [|f fs IH]; simpl.
  - split; [constructor|reflexivity].
  - rewrite filter_cons. rewrite Forall_cons.
    pose proof (length_filter (fun f : frame_angles => is_Some (f !! name)) fs) as Hle.
    destruct (decide (is_Some (f !! name))) as [Hs|Hn]; simpl.
    + rewrite <- IH. split; [intros [= H]; auto|intros [_ ->]; reflexivity].
    + split; [intros H; lia|intros [Hs _]; contradiction].
Qed.

Lemma angle_aggregates_lookup_full (angle_data : list frame_angles) name :
  foldl (aggregate_step np_sqrt angle_data) ∅
    (elements (all_angle_names angle_data)) !! name
  = stats_of np_sqrt angle_data name.
Proof.
  rewrite (foldl_pointwise _ _ (aggregate_step_insert_step np_sqrt angle_data)).
  rewrite foldl_insert_step_lookup, lookup_empty.
  destruct (decide (name ∈ elements (all_angle_names angle_data))) as [Hin|Hnot].
  - destruct (stats_of np_sqrt angle_data name); reflexivity.
  - unfold stats_of.
    destruct (values_of name angle_data) as [|v vs] eqn:Hv; [reflexivity|].
    exfalso. apply Hnot. apply elem_of_elements, elem_of_all_angle_names.
    apply values_of_nonempty_iff. rewrite Hv. discriminate.
Qed.

(** X6: [create_golden_standard] raises [ValueError] exactly on an empty
    sequence.  Otherwise the golden standard carries the pose name of the
    analyzer and the given source, and its statistics have a record for
    an angle exactly when some frame has that angle; the [count] of a
    record is the number of frames with the angle, at least 1, its
    [confidence] is positive, and it is 1 exactly when every frame has
    the angle. *)
Theorem create_golden_standard_records (self : analyzer)
    (angle_data : list frame_angles) (source : string)
    (md : option (gmap string string)) :
  ((exists msg, create_golden_standard np_sqrt self angle_data source md
                = ValueError msg) <-> angle_data = []) /\
  (forall g, create_golden_standard np_sqrt self angle_data source md = Ok g ->
     gs_pose_name g = pose_name self /\ video_source g = source /\
     exists stats, gs_angles g = Some stats /\
     forall name,
       (is_Some (stats !! name) <->
        exists f, f ∈ angle_data /\ is_Some (f !! name)) /\
       (forall s, stats !! name = Some s ->
          count s = length (frames_with name angle_data) /\
          (1 <= count s)%nat /\
          exists c, confidence s = Some c /\ 0 < c /\
            (c == 1 <->
             Forall (fun f : frame_angles => is_Some (f !! name)) angle_data))).
Proof.
  destruct (decide (angle_data = [])) as [->|Hne].
  - split; [split; [reflexivity|intros _; eexists; reflexivity]|].
    intros g Hg. discriminate.
  - rewrite create_golden_standard_nonempty by assumption.
    split; [split; [intros [msg Hm]; discriminate|intros H; contradiction]|].
    intros g [= <-]. cbn [gs_pose_name video_source gs_angles].
    split; [reflexivity|]. split; [reflexivity|].
    eexists. split; [reflexivity|]. intros name.
    rewrite angle_aggregates_lookup_full. unfold stats_of.
    pose proof (values_of_nonempty_iff name angle_data) as Hiff.
    pose proof (values_of_frames_with name angle_data) as Hlen.
    pose proof (values_of_length name angle_data) as Hle.
    destruct (values_of name angle_data) as [|v vs] eqn:Hv.
    + split; [|intros s Hs; discriminate].
      split; [intros [? ?]; discriminate|].
      intros H. apply Hiff in H. congruence.
    + split.
      { split; [intros _; apply Hiff; discriminate|intros _; eexists; reflexivity]. }
      intros s [= <-]. cbn [count confidence aggregate].
      split; [exact Hlen|]. split; [simpl; lia|].
      assert (Hn : 0 < inject_Z (Z.of_nat (length angle_data))).
      { replace 0 with (inject_Z 0) by reflexivity. rewrite <- Zlt_Qlt.
        simpl in Hle. lia. }
      assert (Hq : 0 < qlen (v :: vs)) by (apply qlen_pos; discriminate).
      eexists. split; [reflexivity|]. split.
      * apply Qlt_shift_div_l; [exact Hn|]. lra.
      * rewrite <- frames_with_all, <- Hlen. split.
        -- intros H1.
           assert (H2 : qlen (v :: vs) == inject_Z (Z.of_nat (length angle_data))).
           { assert (Hf : qlen (v :: vs)
                          == qlen (v :: vs) / inject_Z (Z.of_nat (length angle_data))
                             * inject_Z (Z.of_nat (length angle_data)))
               by (field; lra).
             rewrite Hf, H1. ring. }
           unfold qlen in H2. apply -> inject_Z_injective in H2. lia.
        -- intros H1. unfold qlen. rewrite H1. apply Qmult_inv_r. lra.
Qed.

End GoldenRecords.

Lemma create_golden_standard_records_witness :
  exists g stats s c,
    Analyzer.create_golden_standard sqrt_floor downward_dog
      [knee_frame 20; ∅; knee_frame 40] "golden.mp4" None = Analyzer.Ok g /\
    Analyzer.gs_angles g = Some stats /\
    stats !! "left_knee" = Some s /\
    Analyzer.count s
      = length (frames_with "left_knee" [knee_frame 20; ∅; knee_frame 40]) /\
    Analyzer.confidence s = Some c /\ 0 < c.
Proof.
  destruct (create_golden_standard_records sqrt_floor downward_dog
              [knee_frame 20; ∅; knee_frame 40] "golden.mp4" None) as [_ H].
  pose proof (create_golden_standard_nonempty sqrt_floor downward_dog
                [knee_frame 20; ∅; knee_frame 40] "golden.mp4" None
                ltac:(discriminate)) as Hg.
  destruct (H _ Hg) as (_ & _ & stats & Hst & Hall).
  destruct (Hall "left_knee") as [Hdom Hrec].
  assert (Hs : is_Some (stats !! "left_knee")).
  { apply Hdom. exists (knee_frame 20). split; [apply list_elem_of_here|].
    eexists. reflexivity. }
  destruct Hs as [s Hs].
  destruct (Hrec s Hs) as (Hc & _ & c & Hconf & Hpos & _).
  eexists. exists stats, s, c. repeat split; eassumption.
Defined.

(** ** Analyzer: errors and entries of [evaluate_angles] *)

(** X7: [evaluate_angles] raises [ValueError] exactly when the test
    sequence is empty or the golden standard has no [angles]; a result
    records the number of test frames, and it has an entry only for an
    angle that has statistics in the golden standard and a value in some
    test frame. *)
Theorem evaluate_angles_errors fastdtw self test_angles golden :
  ((exists msg, Analyzer.evaluate_angles fastdtw self test_angles golden
                = Analyzer.ValueError msg)
   <-> test_angles = [] \/ Analyzer.gs_angles golden = None) /\
  (forall r, Analyzer.evaluate_angles fastdtw self test_angles golden = Analyzer.Ok r ->
     Analyzer.ev_total_frames r = length test_angles /\
     forall name, is_Some (Analyzer.angle_evaluations r !! name) ->
       exists stats s, Analyzer.gs_angles golden = Some stats /\
         stats !! name = Some s /\
         Analyzer.values_of name test_angles <> []).
Proof.
  destruct (decide (test_angles = [])) as [->|Ht].
  { split; [split; [auto|intros _; eexists; reflexivity]|]. intros r Hr. discriminate. }
  destruct (Analyzer.gs_angles golden) as [stats|] eqn:Hg.
  - rewrite (evaluate_angles_result fastdtw self test_angles golden stats Ht Hg).
    split.
    { split; [intros [msg Hm]; discriminate|intros [H|H]; [contradiction|discriminate]]. }
    intros r [= <-]. cbn [Analyzer.ev_total_frames Analyzer.angle_evaluations].
    split; [reflexivity|]. intros name Hsome.
    apply (evaluate_angles_entries_dom fastdtw self test_angles golden stats) in Hsome.
    apply list_elem_of_fmap in Hsome as ([k s] & -> & Hin).
    apply elem_of_included in Hin as [Hin Hv].
    apply elem_of_map_to_list in Hin.
    exists stats, s. auto.
  - assert (He : Analyzer.evaluate_angles fastdtw self test_angles golden
                 = Analyzer.ValueError "Invalid golden standard: missing 'angles' key").
    { unfold Analyzer.evaluate_angles. rewrite Hg.
      destruct test_angles; [congruence|reflexivity]. }
    rewrite He. split; [split; [auto|intros _; eexists; reflexivity]|].
    intros r Hr. discriminate.
Qed.

Lemma evaluate_angles_errors_witness :
  (exists msg, Analyzer.evaluate_angles Analyzer.exact_dtw downward_dog []
                 golden_60_120 = Analyzer.ValueError msg) /\
  exists r, Analyzer.evaluate_angles Analyzer.exact_dtw downward_dog hold_90
              golden_60_120 = Analyzer.Ok r /\
            Analyzer.ev_total_frames r = length hold_90.
Proof.
  destruct (evaluate_angles_errors Analyzer.exact_dtw downward_dog [] golden_60_120)
    as [[_ H1] _].
  destruct (evaluate_angles_errors Analyzer.exact_dtw downward_dog hold_90
              golden_60_120) as [_ H2].
  split; [apply H1; left; reflexivity|].
  pose proof (evaluate_angles_result Analyzer.exact_dtw downward_dog hold_90
                golden_60_120 _ hold_90_nonempty eq_refl) as Hr.
  eexists. split; [exact Hr|]. exact (proj1 (H2 _ Hr)).
Defined.

(** ** Analyzer: the status in terms of the deviation *)

Section StatusBands.

Import Analyzer.

Lemma Qdiv_le_iff a b c : 0 < b -> (a / b <= c <-> a <= c * b).
Proof.
  intros Hb. split.
  - intros H. assert (Ha : a == a / b * b) by (field; lra).
    rewrite Ha. apply Qmult_le_compat_r; lra.
  - intros H. apply Qle_shift_div_r; assumption.
Qed.

Lemma Qdiv_ge_iff a b c : 0 < b -> (c <= a / b <-> c * b <= a).
Proof.
  intros Hb. split.
  - intros H. assert (Ha : a == a / b * b) by (field; lra).
    rewrite Ha. apply Qmult_le_compat_r; lra.
  - intros H. apply Qle_shift_div_l; assumption.
Qed.

(** From a bound on the ratio [r = a / t] to the bound on [a], or back. *)
Ltac ratio_bound r a t c L :=
  first
    [ assert (r <= c) by lra; assert (a <= c * t) by (apply L; assumption)
    | assert (a <= c * t) by lra; assert (r <= c) by (apply L; assumption)
    | idtac ].

(** The static score against the thresholds 85, 70 and 50. *)
Lemma static_score_bands a t :
  0 < t -> 0 <= a ->
  (85 <= static_score a t <-> 2 * a <= t) /\
  (70 <= static_score a t <-> a <= t) /\
  (50 <= static_score a t <-> 7 * a <= 9 * t).
Proof.
  intros Ht Ha.
  pose proof (Qdiv_le_iff a t (1 # 2) Ht) as L12.
  pose proof (Qdiv_le_iff a t 1 Ht) as L1.
  pose proof (Qdiv_le_iff a t (9 # 7) Ht) as L97.
  assert (Hr : (a - t) / t == a / t - 1) by (field; lra).
  destruct (Qlt_le_dec t a) as [Hout|Hin].
  - rewrite static_score_outside by assumption.
    set (r := a / t) in *. set (x := (a - t) / t) in *.
    unfold py_max0.
    destruct (Qlt_le_dec 0 (70 - x * 70)) as [Hpos|Hneg];
      repeat split; intros H;
      ratio_bound r a t (1 # 2) L12; ratio_bound r a t 1 L1;
      ratio_bound r a t (9 # 7) L97; lra.
  - rewrite static_score_inside by assumption.
    set (r := a / t) in *.
    repeat split; intros H;
      ratio_bound r a t (1 # 2) L12; ratio_bound r a t 1 L1;
      ratio_bound r a t (9 # 7) L97; lra.
Qed.

Variable fastdtw : list Q -> list Q -> option Q.
Variable self : analyzer.
Variable test_angles : list frame_angles.
Variable golden : golden_standard.
Variable stats : gmap string angle_stats.

Hypothesis test_nonempty : test_angles <> [].
Hypothesis golden_has_angles : gs_angles golden = Some stats.

(** X8: for an included angle with a positive tolerance [tol] and
    absolute deviation [a] of the test mean from the golden mean: the
    status is EXCELLENT when [a <= tol/2], EXCELLENT or GOOD when
    [a <= tol], never EXCELLENT when [a > tol], and POOR when
    [a >= 2 tol]. *)
Theorem evaluate_angles_status_bands name s :
  stats !! name = Some s -> values_of name test_angles <> [] ->
  0 < default 15 (tolerances (angle_config self) !! name) ->
  exists r e,
    evaluate_angles fastdtw self test_angles golden = Ok r /\
    angle_evaluations r !! name = Some e /\
    tolerance e = default 15 (tolerances (angle_config self) !! name) /\
    deviation e = np_mean (values_of name test_angles) - mean s /\
    let a := Qabs (deviation e) in
    let tol := tolerance e in
    (2 * a <= tol -> status e = EXCELLENT) /\
    (a <= tol -> status e = EXCELLENT \/ status e = GOOD) /\
    (tol < a -> status e <> EXCELLENT) /\
    (2 * tol <= a -> status e = POOR).
Proof.
  intros Hs Hv Htol.
  destruct (evaluate_angles_entry fastdtw self test_angles golden stats
              test_nonempty golden_has_angles name s Hs Hv) as (r & Hr & He).
  eexists. eexists. split; [exact Hr|]. split; [exact He|].
  cbn [tolerance deviation status evaluate_one]. cbv zeta.
  split; [reflexivity|]. split; [reflexivity|].
  set (tol := default 15 (tolerances (angle_config self) !! name)) in *.
  set (a := Qabs (np_mean (values_of name test_angles) - mean s)).
  assert (Ha : 0 <= a) by apply Qabs_nonneg.
  destruct (static_score_bands a tol Htol Ha) as (H85 & H70 & H50).
  destruct (status_of_thresholds (static_score a tol)) as (HE & HG & HN & HP).
  set (sc := static_score a tol) in *.
  split; [|split; [|split]].
  - intros H. apply HE, H85, H.
  - intros H. apply H70 in H.
    destruct (Qlt_le_dec sc 85) as [Hlt|Hge].
    + right. apply HG. split; assumption.
    + left. apply HE. exact Hge.
  - intros H Hexc. apply HE in Hexc.
    assert (H70' : 70 <= sc) by lra. apply H70 in H70'. lra.
  - intros H. apply HP. apply Qnot_le_lt. intros Hc. apply H50 in Hc. lra.
Qed.

End StatusBands.

Lemma evaluate_angles_status_bands_witness :
  exists r e,
    Analyzer.evaluate_angles Analyzer.exact_dtw downward_dog knee_95 golden_90
      = Analyzer.Ok r /\
    Analyzer.angle_evaluations r !! "left_knee" = Some e /\
    Analyzer.status e = Analyzer.EXCELLENT.
Proof.
  destruct (evaluate_angles_status_bands Analyzer.exact_dtw downward_dog knee_95
              golden_90 {[ "left_knee" := knee_stats 90 ]}
              knee_95_nonempty eq_refl "left_knee" (knee_stats 90)
              eq_refl knee_95_values eq_refl)
    as (r & e & Hr & He & Htol & Hdev & Hexc & _).
  exists r, e. split; [exact Hr|]. split; [exact He|].
  apply Hexc. rewrite Htol, Hdev. vm_compute. discriminate.
Defined.

(** ** Analyzer: every score lies between 0 and 100 *)

Section ScoreRanges.

Import Analyzer.

Lemma static_score_range a t :
  0 < t -> 0 <= a -> 0 <= static_score a t <= 100.
Proof.
  intros Ht Ha. destruct (Qlt_le_dec t a) as [Hout|Hin].
  - rewrite static_score_outside by assumption.
    split; [apply py_max0_nonneg|]. apply py_max0_le; [lra|].
    assert (H : 0 <= (a - t) / t) by (apply Qdiv_nonneg; lra).
    set (x := (a - t) / t) in *. lra.
  - rewrite static_score_inside by assumption.
    assert (H0 : 0 <= a / t) by (apply Qdiv_nonneg; lra).
    assert (H1 : a / t <= 1) by (apply Qle_shift_div_r; lra).
    set (r := a / t) in *. lra.
Qed.

(** X9: with a positive tolerance the static score lies in [[0, 100]] and
    never increases when the absolute deviation grows. *)
Theorem static_score_antitone a a' t :
  0 < t -> 0 <= a -> a <= a' ->
  0 <= static_score a' t /\ static_score a' t <= static_score a t /\
  static_score a t <= 100.
Proof.
  intros Ht Ha Haa'.
  destruct (static_score_range a t Ht Ha) as [Hlo Hhi].
  destruct (static_score_range a' t Ht ltac:(lra)) as [Hlo' Hhi'].
  split; [exact Hlo'|]. split; [|exact Hhi].
  assert (Hd : a / t <= a' / t).
  { apply Qle_shift_div_r; [exact Ht|].
    assert (Hf : a' / t * t == a') by (field; lra). rewrite Hf. exact Haa'. }
  assert (Hx : (a - t) / t == a / t - 1) by (field; lra).
  assert (Hx' : (a' - t) / t == a' / t - 1) by (field; lra).
  assert (H1 : 1 <= a / t <-> t <= a).
  { rewrite Qdiv_ge_iff by exact Ht. split; intros; lra. }
  assert (H1' : a' / t <= 1 <-> a' <= t).
  { rewrite Qdiv_le_iff by exact Ht. split; intros; lra. }
  destruct (Qlt_le_dec t a') as [Hout'|Hin'].
  - rewrite (static_score_outside a' t) by assumption.
    destruct (Qlt_le_dec t a) as [Hout|Hin].
    + rewrite (static_score_outside a t) by assumption.
      set (x := (a - t) / t) in *. set (x' := (a' - t) / t) in *.
      unfold py_max0.
      destruct (Qlt_le_dec 0 (70 - x' * 70)), (Qlt_le_dec 0 (70 - x * 70)); lra.
    + rewrite (static_score_inside a t) by assumption.
      assert (Hr1 : a / t <= 1) by (apply Qle_shift_div_r; lra).
      assert (Hr2 : 1 <= a' / t) by (apply Qle_shift_div_l; lra).
      set (x' := (a' - t) / t) in *.
      unfold py_max0. destruct (Qlt_le_dec 0 (70 - x' * 70)); lra.
  - rewrite (static_score_inside a' t), (static_score_inside a t) by lra. lra.
Qed.

Lemma static_score_antitone_witness :
  0 <= Analyzer.static_score 12 10 /\
  Analyzer.static_score 12 10 <= Analyzer.static_score 5 10 /\
  Analyzer.static_score 5 10 <= 100.
Proof.
  apply (static_score_antitone 5 12 10); vm_compute; discriminate || reflexivity.
Defined.

End ScoreRanges.

Section OverallRange.

Import Analyzer.

Variable fastdtw : list Q -> list Q -> option Q.
Variable self : analyzer.
Variable test_angles : list frame_angles.
Variable golden : golden_standard.
Variable stats : gmap string angle_stats.

Hypothesis test_nonempty : test_angles <> [].
Hypothesis golden_has_angles : gs_angles golden = Some stats.
Hypothesis tolerances_positive :
  forall k t, tolerances (angle_config self) !! k = Some t -> 0 < t.
Hypothesis distances_nonneg : forall x y d, fastdtw x y = Some d -> 0 <= d.
Hypothesis confidences_nonneg :
  forall k s c, stats !! k = Some s -> confidence s = Some c -> 0 <= c.

Lemma fastdtw_score_range x y v :
  x <> [] -> fastdtw_score fastdtw x y = Some v -> 0 <= v <= 100.
Proof.
  intros Hx. unfold fastdtw_score.
  destruct (fastdtw x y) as [d|] eqn:Hd; [|discriminate].
  intros [= <-]. split; [apply py_max0_nonneg|]. apply py_max0_le; [lra|].
  assert (H0 : 0 <= d) by (eapply distances_nonneg; exact Hd).
  assert (Havg : 0 < inject_Z (Z.of_nat (length x + length y)) / 2).
  { apply Qlt_shift_div_l; [lra|]. rewrite Qmult_0_l.
    apply (path_length_pos x y Hx). }
  assert (H1 : 0 <= d / (inject_Z (Z.of_nat (length x + length y)) / 2))
    by (apply Qdiv_nonneg; assumption).
  assert (H30 : 0 < 30) by lra.
  pose proof (Qdiv_nonneg _ _ H1 H30) as H2.
  set (r := _ / 30) in *. lra.
Qed.

Lemma golden_dtw_scores_range name v :
  golden_dtw_scores fastdtw self test_angles golden !! name = Some v ->
  0 <= v <= 100.
Proof.
  unfold golden_dtw_scores.
  destruct (angle_sequences golden) as [[|f fs]|];
    try (rewrite lookup_empty; discriminate).
  rewrite evaluate_with_dtw_lookup by (assumption || discriminate).
  destruct (decide (name ∈ angles (angle_config self))); [|discriminate].
  unfold live_dtw_of.
  destruct (Nat.ltb_spec (length (values_of name test_angles)) 3) as [|Hlen];
    [discriminate|].
  destruct (_ <? 3)%nat; [discriminate|]. simpl.
  apply fastdtw_score_range.
  destruct (values_of name test_angles); [simpl in Hlen; lia|discriminate].
Qed.

Lemma entry_of_range (item : string * angle_stats) :
  let e := entry_of self test_angles
             (golden_dtw_scores fastdtw self test_angles golden) item in
  0 <= mean_based_score e <= 100 /\
  (forall d, dtw_score e = Some d -> 0 <= d <= 100) /\
  0 <= combined_score e <= 100.
Proof.
  cbv zeta. unfold entry_of.
  cbn [mean_based_score dtw_score combined_score evaluate_one].
  set (tol := default 15 (tolerances (angle_config self) !! item.1)).
  assert (Htol : 0 < tol).
  { unfold tol. destruct (tolerances (angle_config self) !! item.1) eqn:Ht; simpl.
    - eapply tolerances_positive. exact Ht.
    - lra. }
  pose proof (static_score_range
                (Qabs (np_mean (values_of item.1 test_angles) - mean item.2))
                tol Htol (Qabs_nonneg _)) as Hsc.
  set (sc := static_score _ tol) in *.
  split; [exact Hsc|].
  destruct (golden_dtw_scores fastdtw self test_angles golden !! item.1)
    as [d|] eqn:Hd.
  - pose proof (golden_dtw_scores_range _ _ Hd) as Hdr.
    split; [intros d' [= <-]; exact Hdr|]. lra.
  - split; [intros d' Hd'; discriminate|exact Hsc].
Qed.

Lemma weighted_sum_bounds {A : Type} (c w : A -> Q) (l : list A) :
  Forall (fun x => 0 <= c x <= 100 /\ 0 <= w x) l ->
  0 <= np_sum (map w l) /\
  0 <= np_sum (map (fun x => c x * w x) l) <= 100 * np_sum (map w l).
Proof.
  induction 1 as [|x l [[Hc0 Hc1] Hw] _ (IH0 & IH1 & IH2)]; simpl.
  - lra.
  - assert (H0 : 0 <= c x * w x) by (apply Qmult_le_0_compat; assumption).
    assert (H1 : c x * w x <= 100 * w x) by (apply Qmult_le_compat_r; assumption).
    lra.
Qed.

(** X10: when every configured tolerance is positive, the external
    routine returns no negative distance and no confidence of the golden
    standard is negative, the overall score is not negative and, for
    every entry, the static score, the DTW score and the combined score
    lie in [[0, 100]].  (The overall score is a quotient of two sums and
    can exceed 100 by a rounding.) *)
Theorem evaluate_angles_scores_in_range :
  exists r,
    evaluate_angles fastdtw self test_angles golden = Ok r /\
    0 <= overall_score r /\
    forall name e, angle_evaluations r !! name = Some e ->
      0 <= mean_based_score e <= 100 /\
      (forall d, dtw_score e = Some d -> 0 <= d <= 100) /\
      0 <= combined_score e <= 100.
Proof.
  eexists. split; [apply (evaluate_angles_result _ _ _ _ _ test_nonempty golden_has_angles)|].
  cbn [overall_score angle_evaluations].
  set (dtw := golden_dtw_scores fastdtw self test_angles golden).
  set (st0 := {| st_evaluations := ∅; total_score := 0; total_weight := 0 |}).
  set (final := foldl (direct_step self test_angles dtw) st0 (map_to_list stats)).
  destruct (direct_loop_totals self test_angles dtw (map_to_list stats) st0)
    as [Hts Htw].
  fold final in Hts, Htw. cbn [total_score total_weight st0] in Hts, Htw.
  set (incl := included test_angles (map_to_list stats)) in *.
  assert (Hall : Forall (fun it =>
                   0 <= combined_score (entry_of self test_angles dtw it) <= 100 /\
                   0 <= weight_of it.2) incl).
  { apply Forall_forall. intros [k s] Hin.
    split; [apply (entry_of_range (k, s))|].
    apply elem_of_included in Hin as [Hin _]. apply elem_of_map_to_list in Hin.
    unfold weight_of. simpl. destruct (confidence s) as [c|] eqn:Hc; simpl.
    - eapply confidences_nonneg; eassumption.
    - lra. }
  destruct (weighted_sum_bounds _ _ _ Hall) as (Hw0 & Hs0 & Hs1).
  split.
  - destruct (Qlt_le_dec 0 (total_weight final)) as [Hpos|Hle]; [|lra].
    apply Qdiv_nonneg; [rewrite Hts; lra|exact Hpos].
  - intros name e He.
    assert (Hdom : name ∈ incl.*1).
    { apply (evaluate_angles_entries_dom fastdtw self test_angles golden stats).
      fold dtw. fold st0. fold final. rewrite He. eexists. reflexivity. }
    apply list_elem_of_fmap in Hdom as ([k s] & -> & Hin).
    unfold final in He.
    rewrite (direct_loop_entries self test_angles dtw _ (k, s)) in He;
      [|apply NoDup_fst_map_to_list|exact Hin].
    injection He as <-. apply (entry_of_range (k, s)).
Qed.

End OverallRange.

Lemma exact_dtw_nonneg x y d : Analyzer.exact_dtw x y = Some d -> 0 <= d.
Proof.
  unfold Analyzer.exact_dtw. rewrite dtw_distance_C_ref.
  pose proof (C_ref_nonneg x y (length x) (length y)) as H.
  destruct (DtwSimple.C_ref x y (length x) (length y)); [|discriminate].
  intros [= <-]. exact H.
Qed.

Lemma init_tolerances_positive name a :
  Analyzer.init name = Analyzer.Ok a ->
  forall k t,
    Analyzer.tolerances (Analyzer.angle_config a) !! k = Some t -> 0 < t.
Proof.
  intros Ha. unfold Analyzer.init in Ha.
  destruct (Analyzer.assoc name Analyzer.POSE_ANGLE_DEFINITIONS)
    as [cfg|] eqn:Hcfg; [|discriminate].
  injection Ha as <-. apply assoc_elem_of in Hcfg.
  pose proof pose_table_consistent as Htab. rewrite Forall_forall in Htab.
  destruct (Htab _ Hcfg) as (_ & _ & Hpos). exact Hpos.
Qed.

Lemma knee_stats_confidence mu k s c :
  ({[ "left_knee" := knee_stats mu ]} : gmap string Analyzer.angle_stats) !! k = Some s ->
  Analyzer.confidence s = Some c -> 0 <= c.
Proof.
  intros Hs Hc. apply lookup_singleton_Some in Hs as [_ <-].
  injection Hc as <-. lra.
Qed.

Lemma evaluate_angles_scores_in_range_witness :
  exists r,
    Analyzer.evaluate_angles Analyzer.exact_dtw downward_dog hold_90 golden_60_120
      = Analyzer.Ok r /\
    0 <= Analyzer.overall_score r /\
    forall name e, Analyzer.angle_evaluations r !! name = Some e ->
      0 <= Analyzer.mean_based_score e <= 100 /\
      (forall d, Analyzer.dtw_score e = Some d -> 0 <= d <= 100) /\
      0 <= Analyzer.combined_score e <= 100.
Proof.
  exact (evaluate_angles_scores_in_range Analyzer.exact_dtw downward_dog hold_90
           golden_60_120 {[ "left_knee" := knee_stats 90 ]}
           hold_90_nonempty eq_refl
           (init_tolerances_positive "downward-dog" downward_dog eq_refl)
           exact_dtw_nonneg (knee_stats_confidence 90)).
Defined.

(** ** Analyzer: when an entry has a DTW score *)

(** X11: the entry of an included angle has a DTW score exactly when the
    golden standard has a non-empty [angle_sequences], the pose tracks
    the angle, the angle has at least three values on both sides, and
    the external routine returns a distance for the two value
    sequences. *)
Theorem evaluate_angles_dtw_score_present
    fastdtw self test_angles golden stats name s :
  test_angles <> [] -> Analyzer.gs_angles golden = Some stats ->
  stats !! name = Some s -> Analyzer.values_of name test_angles <> [] ->
  exists r e,
    Analyzer.evaluate_angles fastdtw self test_angles golden = Analyzer.Ok r /\
    Analyzer.angle_evaluations r !! name = Some e /\
    (is_Some (Analyzer.dtw_score e) <->
     exists f fs,
       Analyzer.angle_sequences golden = Some (f :: fs) /\
       name ∈ Analyzer.angles (Analyzer.angle_config self) /\
       (3 <= length (Analyzer.values_of name test_angles))%nat /\
       (3 <= length (Analyzer.values_of name (f :: fs)))%nat /\
       is_Some (fastdtw (Analyzer.values_of name test_angles)
                  (Analyzer.values_of name (f :: fs)))).
Proof.
  intros Ht Hg Hs Hv.
  destruct (evaluate_angles_entry fastdtw self test_angles golden stats Ht Hg
              name s Hs Hv) as (r & Hr & He).
  eexists. eexists. split; [exact Hr|]. split; [exact He|].
  cbn [Analyzer.dtw_score Analyzer.evaluate_one].
  unfold Analyzer.golden_dtw_scores.
  destruct (Analyzer.angle_sequences golden) as [[|f fs]|] eqn:Hseq.
  - rewrite lookup_empty. split; [intros [? ?]; discriminate|].
    intros (f & fs & Hc & _). discriminate.
  - rewrite evaluate_with_dtw_lookup by (assumption || discriminate).
    unfold live_dtw_of, Analyzer.fastdtw_score.
    destruct (decide (name ∈ Analyzer.angles (Analyzer.angle_config self)))
      as [Hin|Hnot].
    + destruct (Nat.ltb_spec (length (Analyzer.values_of name test_angles)) 3)
        as [H1|H1];
      destruct (Nat.ltb_spec (length (Analyzer.values_of name (f :: fs))) 3)
        as [H2|H2]; cbn [orb].
      1-3: split; [intros [? ?]; discriminate|];
        intros (f' & fs' & [= <- <-] & _ & H1' & H2' & _); lia.
      destruct (fastdtw _ _) as [d|] eqn:Hd.
      * split; [|intros _; eexists; reflexivity].
        intros _. exists f, fs. rewrite Hd.
        repeat split; try assumption. eexists. reflexivity.
      * split; [intros [? ?]; discriminate|].
        intros (f' & fs' & [= <- <-] & _ & _ & _ & Hsome).
        rewrite Hd in Hsome. destruct Hsome as [? ?]. discriminate.
    + split; [intros [? ?]; discriminate|].
      intros (f' & fs' & _ & Hin & _). contradiction.
  - rewrite lookup_empty. split; [intros [? ?]; discriminate|].
    intros (f & fs & Hc & _). discriminate.
Qed.

Lemma evaluate_angles_dtw_score_present_witness :
  exists r e,
    Analyzer.evaluate_angles Analyzer.exact_dtw downward_dog hold_90 golden_60_120
      = Analyzer.Ok r /\
    Analyzer.angle_evaluations r !! "left_knee" = Some e /\
    is_Some (Analyzer.dtw_score e).
Proof.
  destruct (evaluate_angles_dtw_score_present Analyzer.exact_dtw downward_dog
              hold_90 golden_60_120 {[ "left_knee" := knee_stats 90 ]}
              "left_knee" (knee_stats 90)
              hold_90_nonempty eq_refl eq_refl hold_90_values)
    as (r & e & Hr & He & Hiff).
  exists r, e. split; [exact Hr|]. split; [exact He|].
  apply Hiff. eexists. eexists. split; [reflexivity|].
  split; [vm_compute; repeat constructor|].
  split; [vm_compute; lia|]. split; [vm_compute; lia|].
  vm_compute. eexists. reflexivity.
Defined.

(** ** Analyzer: a sequence against its own golden standard *)

Lemma weighted_sum_const {A : Type} (c w : A -> Q) (l : list A) :
  Forall (fun x => c x == 100) l ->
  Analyzer.np_sum (map (fun x => c x * w x) l) == 100 * Analyzer.np_sum (map w l).
Proof.
  induction 1 as [|x l Hx _ IH]; simpl; [ring|]. rewrite IH, Hx. ring.
Qed.

Lemma weight_sum_pos {A : Type} (w : A -> Q) (l : list A) :
  l <> [] -> Forall (fun x => 0 < w x) l -> 0 < Analyzer.np_sum (map w l).
Proof.
  intros Hne HF. destruct HF as [|x l Hx HF]; [congruence|]. simpl.
  assert (H0 : 0 <= Analyzer.np_sum (map w l)).
  { clear Hne Hx. induction HF as [|y l Hy _ IH]; simpl; lra. }
  lra.
Qed.

Lemma golden_dtw_scores_self fastdtw self (data : list Analyzer.frame_angles)
    golden name d :
  (forall x dist, fastdtw x x = Some dist -> dist == 0) ->
  Analyzer.angle_sequences golden = Some data ->
  Analyzer.golden_dtw_scores fastdtw self data golden !! name = Some d ->
  d == 100.
Proof.
  intros Hzero Hseq. unfold Analyzer.golden_dtw_scores. rewrite Hseq.
  destruct data as [|f fs] eqn:Hdata; [rewrite lookup_empty; discriminate|].
  rewrite <- Hdata.
  rewrite evaluate_with_dtw_lookup by (rewrite Hdata; discriminate).
  destruct (decide (name ∈ Analyzer.angles (Analyzer.angle_config self)));
    [|discriminate].
  unfold live_dtw_of. destruct (_ || _)%bool; [discriminate|].
  unfold Analyzer.fastdtw_score.
  destruct (fastdtw _ _) as [dist|] eqn:Hd; [|discriminate].
  apply Hzero in Hd. intros [= <-].
  set (avg := inject_Z _ / 2).
  assert (Hx : 100 - dist / avg / 30 * 100 == 100).
  { rewrite Hd. unfold Qdiv. ring. }
  rewrite py_max0_pos; [exact Hx|]. rewrite Hx. lra.
Qed.

Lemma static_score_no_deviation a t : 0 < t -> a == 0 -> Analyzer.static_score a t == 100.
Proof.
  intros Ht Ha. rewrite static_score_inside by lra.
  rewrite Ha. unfold Qdiv. ring.
Qed.

Lemma status_of_100 sc : sc == 100 -> Analyzer.status_of sc = Analyzer.EXCELLENT.
Proof. intros H. apply status_of_thresholds. lra. Qed.

(** X12: a non-empty sequence of frames whose angle values are numbers,
    evaluated against the golden standard that was built from it by an
    analyzer with positive tolerances: every angle that occurs in a frame
    has an entry with static score 100 and status EXCELLENT, and its
    combined score is 100 as well if the external routine gives distance
    0 to a sequence against itself. *)
Theorem evaluate_against_own_golden_standard
    np_sqrt fastdtw self (angle_data : list Analyzer.frame_angles) source md :
  angle_data <> [] ->
  (forall k t,
     Analyzer.tolerances (Analyzer.angle_config self) !! k = Some t -> 0 < t) ->
  exists g r,
    Analyzer.create_golden_standard np_sqrt self angle_data source md
      = Analyzer.Ok g /\
    Analyzer.evaluate_angles fastdtw self angle_data g = Analyzer.Ok r /\
    forall name f, f ∈ angle_data -> is_Some (f !! name) ->
      exists e, Analyzer.angle_evaluations r !! name = Some e /\
        Analyzer.mean_based_score e == 100 /\
        Analyzer.status e = Analyzer.EXCELLENT /\
        ((forall x dist, fastdtw x x = Some dist -> dist == 0) ->
         Analyzer.combined_score e == 100).
Proof.
  intros Hne Htol.
  rewrite create_golden_standard_nonempty by assumption.
  set (stats := foldl (Analyzer.aggregate_step np_sqrt angle_data) ∅
                  (elements (Analyzer.all_angle_names angle_data))).
  set (g := {| Analyzer.gs_pose_name := Analyzer.pose_name self;
               Analyzer.video_source := source;
               Analyzer.total_frames := length angle_data;
               Analyzer.gs_angles := Some stats;
               Analyzer.angle_sequences := Some angle_data;
               Analyzer.metadata := default ∅ md |}).
  assert (Hstats : forall name,
            stats !! name = stats_of np_sqrt angle_data name)
    by (intros name; apply angle_aggregates_lookup_full).
  set (dtw := Analyzer.golden_dtw_scores fastdtw self angle_data g).
  assert (Hentry : forall k s, stats !! k = Some s ->
            Analyzer.values_of k angle_data <> [] /\
            Analyzer.mean_based_score (entry_of self angle_data dtw (k, s)) == 100 /\
            0 < weight_of s).
  { intros k s Hs. rewrite Hstats in Hs. unfold stats_of in Hs.
    destruct (Analyzer.values_of k angle_data) as [|v vs] eqn:Hv; [discriminate|].
    injection Hs as <-. split; [discriminate|]. split.
    - unfold entry_of.
      cbn [Analyzer.mean_based_score Analyzer.evaluate_one fst snd
           Analyzer.mean Analyzer.aggregate].
      rewrite Hv. apply static_score_no_deviation; [|apply Qabs_self].
      destruct (Analyzer.tolerances (Analyzer.angle_config self) !! k) eqn:Ht;
        simpl; [eapply Htol; exact Ht|lra].
    - unfold weight_of. cbn [Analyzer.confidence Analyzer.aggregate default].
      apply Qlt_shift_div_l.
      + replace 0 with (inject_Z 0) by reflexivity. rewrite <- Zlt_Qlt.
        destruct angle_data; [congruence|simpl; lia].
      + rewrite Qmult_0_l. apply qlen_pos. discriminate. }
  exists g. eexists.
  split; [reflexivity|].
  split; [apply (evaluate_angles_result fastdtw self angle_data g stats Hne eq_refl)|].
  cbn [Analyzer.angle_evaluations Analyzer.overall_score]. fold dtw.
  set (st0 := {| Analyzer.st_evaluations := ∅; Analyzer.total_score := 0;
                 Analyzer.total_weight := 0 |}).
  set (final := foldl (direct_step self angle_data dtw) st0 (map_to_list stats)).
  assert (Hincl : forall k s, stats !! k = Some s ->
            (k, s) ∈ included angle_data (map_to_list stats)).
  { intros k s Hs. apply elem_of_included. split.
    - apply elem_of_map_to_list. exact Hs.
    - apply (Hentry k s Hs). }
  intros name f Hf Hsome.
  assert (Hv : Analyzer.values_of name angle_data <> [])
    by (apply values_of_nonempty_iff; exists f; auto).
  assert (Hs : exists s, stats !! name = Some s).
  { rewrite Hstats. unfold stats_of.
    destruct (Analyzer.values_of name angle_data); [congruence|].
    eexists. reflexivity. }
  destruct Hs as [s Hs].
  exists (entry_of self angle_data dtw (name, s)). split.
  { apply (direct_loop_entries self angle_data dtw (map_to_list stats) (name, s));
      [apply NoDup_fst_map_to_list|apply Hincl; exact Hs]. }
  destruct (Hentry name s Hs) as (_ & H100 & _).
  split; [exact H100|]. split; [apply status_of_100; exact H100|].
  intros Hzero. unfold entry_of in *.
  cbn [Analyzer.combined_score Analyzer.mean_based_score Analyzer.evaluate_one]
    in *.
  destruct (dtw !! (name, s).1) as [d|] eqn:Hd; [|exact H100].
  apply (golden_dtw_scores_self fastdtw self angle_data g _ d Hzero eq_refl)
    in Hd.
  rewrite H100, Hd. reflexivity.
Qed.

Lemma exact_dtw_self x dist : Analyzer.exact_dtw x x = Some dist -> dist == 0.
Proof.
  unfold Analyzer.exact_dtw. rewrite dtw_distance_C_ref.
  pose proof (C_ref_diagonal x (length x)) as H.
  destruct (DtwSimple.C_ref x x (length x) (length x)); [|discriminate].
  intros [= <-]. exact H.
Qed.

Lemma evaluate_against_own_golden_standard_witness :
  exists g r e,
    Analyzer.create_golden_standard sqrt_floor downward_dog
      [knee_frame 20; ∅; knee_frame 40] "golden.mp4" None = Analyzer.Ok g /\
    Analyzer.evaluate_angles Analyzer.exact_dtw downward_dog
      [knee_frame 20; ∅; knee_frame 40] g = Analyzer.Ok r /\
    Analyzer.angle_evaluations r !! "left_knee" = Some e /\
    Analyzer.mean_based_score e == 100 /\
    Analyzer.status e = Analyzer.EXCELLENT /\
    Analyzer.combined_score e == 100.
Proof.
  destruct (evaluate_against_own_golden_standard sqrt_floor Analyzer.exact_dtw
              downward_dog [knee_frame 20; ∅; knee_frame 40] "golden.mp4" None)
    as (g & r & Hg & Hr & Hentries).
  - discriminate.
  - exact (init_tolerances_positive "downward-dog" downward_dog eq_refl).
  - destruct (Hentries "left_knee" (knee_frame 20))
      as (e & He & H100 & Hst & Hc).
    + apply list_elem_of_here.
    + eexists. reflexivity.
    + exists g, r, e. split; [exact Hg|]. split; [exact Hr|].
      split; [exact He|]. split; [exact H100|]. split; [exact Hst|].
      apply Hc. exact exact_dtw_self.
Defined.


(** ** Feedback *)

Section FeedbackLoop.

Import Feedback.

Variable format_float : string -> Q -> string.

Lemma table_templates_format :
  Forall (fun entry : string * template =>
            forall v,
              (exists m, py_format format_float (positive entry.2)
                           [("deviation", v)] = Done m) /\
              (exists m, py_format format_float (negative entry.2)
                           [("deviation", v)] = Done m))
    FEEDBACK_TEMPLATES.
Proof.
  unfold FEEDBACK_TEMPLATES.
  repeat apply List.Forall_cons; try apply List.Forall_nil.
  all: intros v; split; eexists; vm_compute; reflexivity.
Qed.

Lemma default_template_format v :
  py_format format_float (positive default_template) [("deviation", v)]
    = KeyError "angle" /\
  py_format format_float (negative default_template) [("deviation", v)]
    = KeyError "angle".
Proof. split; reflexivity. Qed.

Lemma message_of_template name e :
  is_Some (Analyzer.assoc name FEEDBACK_TEMPLATES) ->
  exists m, message_of format_float name e = Done m.
Proof.
  intros [t Ht]. unfold message_of, template_of. rewrite Ht. simpl.
  apply assoc_elem_of in Ht.
  pose proof table_templates_format as Htab. rewrite Forall_forall in Htab.
  destruct (Htab _ Ht (Qabs (Analyzer.deviation e))) as [Hp Hn].
  destruct (needs_work e); assumption.
Qed.

Lemma message_of_no_template name e :
  Analyzer.assoc name FEEDBACK_TEMPLATES = None ->
  message_of format_float name e = KeyError "angle".
Proof.
  intros Ht. unfold message_of, template_of. rewrite Ht. simpl.
  destruct (needs_work e); apply default_template_format.
Qed.

(** The loop body in terms of the message. *)
Lemma feedback_step_Done st name e :
  feedback_step format_float (Done st) (name, e) =
  match message_of format_float name e with
  | Done msg =>
      Done {| detailed_feedback :=
                <[name := {| evaluation := e; feedback := msg |}]>
                  (detailed_feedback st);
              recs :=
                if needs_work e then
                  if bool_decide (recommendation (template_of name) ∈ recs st)
                  then recs st
                  else recs st ++ [recommendation (template_of name)]
                else recs st |}
  | KeyError key => KeyError key
  | FormatError msg => FormatError msg
  | Unsupported => Unsupported
  end.
Proof.
  unfold feedback_step, message_of, needs_work, template_of.
  destruct (Analyzer.status e);
    destruct (py_format _ _ _); reflexivity.
Qed.

Lemma feedback_loop_KeyError key items :
  foldl (feedback_step format_float) (KeyError key) items = KeyError key.
Proof. induction items as [|x items IH]; [reflexivity|exact IH]. Qed.

Lemma feedback_loop_fails items : forall st name e,
  (name, e) ∈ items ->
  Analyzer.assoc name FEEDBACK_TEMPLATES = None ->
  Forall (fun item : string * Analyzer.angle_evaluation =>
            is_Some (Analyzer.assoc item.1 FEEDBACK_TEMPLATES) \/
            Analyzer.assoc item.1 FEEDBACK_TEMPLATES = None) items ->
  foldl (feedback_step format_float) (Done st) items = KeyError "angle".
Proof.
  induction items as [|[k e0] items IH]; intros st name e Hin Hnone _.
  - apply elem_of_nil in Hin. contradiction.
  - cbn [foldl]. rewrite feedback_step_Done.
    destruct (Analyzer.assoc k FEEDBACK_TEMPLATES) as [t|] eqn:Hk.
    + destruct (message_of_template k e0) as [m Hm]; [rewrite Hk; eexists; reflexivity|].
      rewrite Hm. apply elem_of_cons in Hin as [[= -> ->]|Hin]; [congruence|].
      eapply IH; [exact Hin|exact Hnone|].
      apply Forall_forall. intros item _.
      destruct (Analyzer.assoc item.1 FEEDBACK_TEMPLATES); [left; eexists; reflexivity|right; reflexivity].
    + rewrite (message_of_no_template k e0 Hk). apply feedback_loop_KeyError.
Qed.

(** What the loop has built when every angle has a template. *)
Lemma feedback_loop_succeeds items : forall st,
  NoDup items.*1 ->
  Forall (fun item : string * Analyzer.angle_evaluation =>
            is_Some (Analyzer.assoc item.1 FEEDBACK_TEMPLATES)) items ->
  exists st',
    foldl (feedback_step format_float) (Done st) items = Done st' /\
    (forall name, name ∉ items.*1 ->
       detailed_feedback st' !! name = detailed_feedback st !! name) /\
    (forall name e, (name, e) ∈ items ->
       exists msg, message_of format_float name e = Done msg /\
         detailed_feedback st' !! name
           = Some {| evaluation := e; feedback := msg |}) /\
    (NoDup (recs st) -> NoDup (recs st')) /\
    (forall rec, rec ∈ recs st' <->
       rec ∈ recs st \/
       exists name e, (name, e) ∈ items /\ needs_work e = true /\
         recommendation (template_of name) = rec).
Proof.
  induction items as [|[k e0] items IH]; intros st Hnd Hall.
  - exists st. split; [reflexivity|]. split; [reflexivity|].
    split; [intros name e H; apply elem_of_nil in H; contradiction|].
    split; [auto|]. intros rec. split; [auto|].
    intros [H|(name & e & H & _)]; [exact H|apply elem_of_nil in H; contradiction].
  - rewrite fmap_cons in Hnd. apply NoDup_cons in Hnd as [Hk Hnd].
    apply Forall_cons in Hall as [Hhas Hall].
    destruct (message_of_template k e0 Hhas) as [m Hm].
    cbn [foldl]. rewrite feedback_step_Done, Hm.
    match goal with |- context [foldl _ (Done ?s) items] => set (st1 := s) end.
    destruct (IH st1 Hnd Hall) as (st' & Hrun & Hother & Hentry & Hnodup & Hrecs).
    exists st'. split; [exact Hrun|].
    assert (Hrecs1 : forall rec, rec ∈ recs st1 <->
              rec ∈ recs st \/
              (needs_work e0 = true /\ recommendation (template_of k) = rec)).
    { intros rec. unfold st1. cbn [recs].
      destruct (needs_work e0); [|split; [auto|intros [H|[H _]]; [exact H|discriminate]]].
      destruct (bool_decide_reflect (recommendation (template_of k) ∈ recs st))
        as [Hin|Hnotin].
      - split; [auto|]. intros [H|[_ <-]]; assumption.
      - rewrite elem_of_app, list_elem_of_singleton.
        split; intros [H|H]; auto. destruct H as [_ H]. auto. }
    split; [|split; [|split]].
    + intros name Hnot. rewrite fmap_cons in Hnot.
      apply not_elem_of_cons in Hnot as [Hne Hnot].
      rewrite (Hother name Hnot). unfold st1. cbn [detailed_feedback].
      apply lookup_insert_ne. simpl in Hne. congruence.
    + intros name e Hin. apply elem_of_cons in Hin as [[= -> ->]|Hin].
      * exists m. split; [exact Hm|]. rewrite (Hother k Hk).
        unfold st1. cbn [detailed_feedback]. apply lookup_insert_eq.
      * apply Hentry. exact Hin.
    + intros Hst. apply Hnodup. unfold st1. cbn [recs].
      destruct (needs_work e0); [|exact Hst].
      destruct (bool_decide_reflect (recommendation (template_of k) ∈ recs st))
        as [Hin|Hnotin]; [exact Hst|].
      apply NoDup_app. split; [exact Hst|]. split.
      * intros x Hx Hx'. apply list_elem_of_singleton in Hx'. congruence.
      * apply NoDup_singleton.
    + intros rec. rewrite Hrecs, Hrecs1. split.
      * intros [[H|[Hw Hr]]|(name & e & Hin & Hw & Hr)]; [auto| |].
        -- right. exists k, e0. split; [apply list_elem_of_here|auto].
        -- right. exists name, e. split; [apply list_elem_of_further, Hin|auto].
      * intros [H|(name & e & Hin & Hw & Hr)]; [auto|].
        apply elem_of_cons in Hin as [[= -> ->]|Hin]; [auto|].
        right. exists name, e. auto.
Qed.

End FeedbackLoop.

Section FeedbackResult.

Import Feedback.

Variable format_float : string -> Q -> string.
Variable self : Analyzer.analyzer.
Variable ev : Analyzer.evaluation.
Variable source : string.
Variable pass_threshold : Q.

Local Abbreviation items := (map_to_list (Analyzer.angle_evaluations ev)).
Local Abbreviation run :=
  (generate_feedback format_float self ev source pass_threshold).

Lemma items_templates_dec :
  sumbool
    (Forall (fun item : string * Analyzer.angle_evaluation =>
               has_template item.1) items)
    (exists name e, (name, e) ∈ items /\
       Analyzer.assoc name FEEDBACK_TEMPLATES = None).
Proof.
  induction items as [|[k e] l IH].
  - left. apply List.Forall_nil.
  - destruct (Analyzer.assoc k FEEDBACK_TEMPLATES) as [t|] eqn:Hk.
    + destruct IH as [Hall|Hex].
      * left. apply List.Forall_cons; [|exact Hall].
        unfold has_template. cbn [fst]. rewrite Hk. eexists. reflexivity.
      * right. destruct Hex as (name & e' & Hin & Hnone).
        exists name, e'. split; [apply list_elem_of_further, Hin|exact Hnone].
    + right. exists k, e. split; [apply list_elem_of_here|exact Hk].
Qed.

Lemma templates_or_not (l : list (string * Analyzer.angle_evaluation)) :
  Forall (fun item : string * Analyzer.angle_evaluation =>
            is_Some (Analyzer.assoc item.1 FEEDBACK_TEMPLATES) \/
            Analyzer.assoc item.1 FEEDBACK_TEMPLATES = None) l.
Proof.
  apply Forall_forall. intros item _.
  destruct (Analyzer.assoc item.1 FEEDBACK_TEMPLATES);
    [left; eexists; reflexivity|right; reflexivity].
Qed.

Lemma generate_feedback_fails name e :
  Analyzer.angle_evaluations ev !! name = Some e ->
  Analyzer.assoc name FEEDBACK_TEMPLATES = None ->
  run = KeyError "angle".
Proof.
  intros He Hnone. unfold generate_feedback.
  rewrite (feedback_loop_fails format_float items _ name e);
    [reflexivity|apply elem_of_map_to_list, He|exact Hnone|apply templates_or_not].
Qed.

(** The result in terms of the state the loop ends in. *)
Lemma generate_feedback_inv res :
  run = Done res ->
  exists st,
    res = {| pose_name := Analyzer.pose_name self;
             video_source := source;
             overall_score := Analyzer.overall_score ev;
             grade := grade_of (Analyzer.overall_score ev);
             pass_fail :=
               if Qle_bool pass_threshold (Analyzer.overall_score ev)
               then PASS else FAIL;
             total_frames := Analyzer.ev_total_frames ev;
             angle_evaluations := detailed_feedback st;
             summary_feedback :=
               summary_of (Analyzer.pose_name self) (Analyzer.overall_score ev);
             recommendations :=
               if Qle_bool pass_threshold (Analyzer.overall_score ev)
               then recs st else recs st ++ general_recommendations |} /\
    (forall name, Analyzer.angle_evaluations ev !! name = None ->
       detailed_feedback st !! name = None) /\
    (forall name e, Analyzer.angle_evaluations ev !! name = Some e ->
       has_template name /\
       exists msg, message_of format_float name e = Done msg /\
         detailed_feedback st !! name
           = Some {| evaluation := e; feedback := msg |}) /\
    NoDup (recs st) /\
    (forall rec, rec ∈ recs st <->
       exists name e, Analyzer.angle_evaluations ev !! name = Some e /\
         needs_work e = true /\ recommendation (template_of name) = rec).
Proof.
  intros Hrun.
  destruct items_templates_dec as [Hall|(name & e & Hin & Hnone)].
  - destruct (feedback_loop_succeeds format_float items
                {| detailed_feedback := ∅; recs := [] |}
                (NoDup_fst_map_to_list _) Hall)
      as (st & Hloop & Hother & Hentry & Hnodup & Hrecs).
    unfold generate_feedback in Hrun. rewrite Hloop in Hrun.
    injection Hrun as <-. exists st. split; [reflexivity|].
    split; [|split; [|split]].
    + intros name Hnone. rewrite Hother; [apply lookup_empty|].
      intros Hin. apply list_elem_of_fmap in Hin as ([k e] & -> & Hin).
      apply elem_of_map_to_list in Hin. simpl in Hnone. congruence.
    + intros name e He. apply elem_of_map_to_list in He. split.
      * rewrite Forall_forall in Hall. exact (Hall _ He).
      * apply Hentry, He.
    + apply Hnodup. apply NoDup_nil_2.
    + intros rec. rewrite Hrecs. cbn [recs]. split.
      * intros [H|(name & e & Hin & Hw)]; [apply elem_of_nil in H; contradiction|].
        exists name, e. split; [apply elem_of_map_to_list, Hin|exact Hw].
      * intros (name & e & He & Hw). right. exists name, e.
        split; [apply elem_of_map_to_list, He|exact Hw].
  - apply elem_of_map_to_list in Hin.
    rewrite (generate_feedback_fails name e Hin Hnone) in Hrun. discriminate.
Qed.

Lemma generate_feedback_succeeds :
  (forall name, is_Some (Analyzer.angle_evaluations ev !! name) ->
                has_template name) ->
  exists res,
    run = Done res /\
    forall name,
      is_Some (angle_evaluations res !! name) <->
      is_Some (Analyzer.angle_evaluations ev !! name).
Proof.
  intros Hevery.
  destruct items_templates_dec as [Hall|(name & e & Hin & Hnone)].
  - destruct (feedback_loop_succeeds format_float items
                {| detailed_feedback := ∅; recs := [] |}
                (NoDup_fst_map_to_list _) Hall)
      as (st & Hloop & Hother & Hentry & _).
    unfold generate_feedback. rewrite Hloop. eexists. split; [reflexivity|].
    cbn [angle_evaluations]. intros name.
    destruct (Analyzer.angle_evaluations ev !! name) as [e|] eqn:He.
    + apply elem_of_map_to_list in He.
      destruct (Hentry name e He) as (msg & _ & ->).
      split; intros _; eexists; reflexivity.
    + rewrite Hother; [cbn [detailed_feedback]; rewrite lookup_empty; split; intros [? ?]; discriminate|].
      intros Hin. apply list_elem_of_fmap in Hin as ([k e] & -> & Hin).
      apply elem_of_map_to_list in Hin. simpl in He. congruence.
  - apply elem_of_map_to_list in Hin.
    assert (Hsome : has_template name) by (apply Hevery; eexists; exact Hin).
    unfold has_template in Hsome. rewrite Hnone in Hsome.
    destruct Hsome as [? ?]. discriminate.
Qed.

(** X13: feedback is produced exactly when every evaluated angle has an
    entry in [FEEDBACK_TEMPLATES]; as soon as one evaluated angle has
    none, the fallback template is used, its placeholder [angle] is not
    among the keywords given to [format], and the call raises
    [KeyError('angle')], whatever the formatter does with numbers. *)
Theorem generate_feedback_outcome :
  ((exists res, run = Done res) <->
   forall name, is_Some (Analyzer.angle_evaluations ev !! name) ->
                has_template name) /\
  (run = KeyError "angle" <->
   exists name, is_Some (Analyzer.angle_evaluations ev !! name) /\
                ~ has_template name).
Proof.
  destruct items_templates_dec as [Hall|(name & e & Hin & Hnone)].
  - destruct (feedback_loop_succeeds format_float items
                {| detailed_feedback := ∅; recs := [] |}
                (NoDup_fst_map_to_list _) Hall) as (st & Hloop & _).
    assert (Hevery : forall name,
              is_Some (Analyzer.angle_evaluations ev !! name) ->
              has_template name).
    { intros name [e He]. apply elem_of_map_to_list in He.
      rewrite Forall_forall in Hall. exact (Hall _ He). }
    unfold generate_feedback. rewrite Hloop. split.
    + split; [intros _; exact Hevery|intros _; eexists; reflexivity].
    + split; [discriminate|].
      intros (name & Hsome & Hnot). destruct Hnot. apply Hevery, Hsome.
  - apply elem_of_map_to_list in Hin.
    assert (Hnot : ~ has_template name).
    { unfold has_template. rewrite Hnone. intros [? ?]. discriminate. }
    rewrite (generate_feedback_fails name e Hin Hnone). split.
    + split; [intros [res Hres]; discriminate|].
      intros Hevery. destruct Hnot. apply Hevery. eexists. exact Hin.
    + split; [|reflexivity]. intros _. exists name.
      split; [eexists; exact Hin|exact Hnot].
Qed.

(** X14: a result of [generate_feedback] carries the pose name of the
    analyzer, the given video source, and the overall score and frame
    count of the evaluation; its [angle_evaluations] has exactly the
    angles of the evaluation, and each entry keeps the evaluation entry
    unchanged and adds the formatted text of the positive template when
    the status is EXCELLENT or GOOD and of the negative template
    otherwise, formatted with the absolute deviation. *)
Theorem generate_feedback_entries res :
  run = Done res ->
  pose_name res = Analyzer.pose_name self /\
  video_source res = source /\
  overall_score res = Analyzer.overall_score ev /\
  total_frames res = Analyzer.ev_total_frames ev /\
  forall name,
    match Analyzer.angle_evaluations ev !! name with
    | Some e =>
        exists msg,
          angle_evaluations res !! name
            = Some {| evaluation := e; feedback := msg |} /\
          py_format format_float
            (match Analyzer.status e with
             | Analyzer.EXCELLENT | Analyzer.GOOD =>
                 positive (template_of name)
             | _ => negative (template_of name)
             end)
            [("deviation", Qabs (Analyzer.deviation e))] = Done msg
    | None => angle_evaluations res !! name = None
    end.
Proof.
  intros Hrun.
  destruct (generate_feedback_inv res Hrun)
    as (st & -> & Hnone & Hsome & _).
  cbn [pose_name video_source overall_score total_frames angle_evaluations].
  repeat split. intros name.
  destruct (Analyzer.angle_evaluations ev !! name) as [e|] eqn:He.
  - destruct (Hsome name e He) as (_ & msg & Hmsg & Hentry).
    exists msg. split; [exact Hentry|].
    unfold message_of, needs_work in Hmsg.
    destruct (Analyzer.status e); exact Hmsg.
  - apply Hnone, He.
Qed.

Lemma template_recommendation_not_general name :
  recommendation (template_of name) ∉ general_recommendations.
Proof.
  unfold template_of.
  destruct (Analyzer.assoc name FEEDBACK_TEMPLATES) as [t|] eqn:Ht.
  - apply assoc_elem_of in Ht. simpl.
    assert (Htab : Forall (fun entry : string * template =>
                             recommendation entry.2 ∉ general_recommendations)
                     FEEDBACK_TEMPLATES).
    { unfold FEEDBACK_TEMPLATES, general_recommendations.
      repeat apply List.Forall_cons; try apply List.Forall_nil.
      all: cbn [snd recommendation]; intros H.
      all: repeat (apply elem_of_cons in H as [H|H]; [discriminate|]).
      all: apply elem_of_nil in H; contradiction. }
    rewrite Forall_forall in Htab. exact (Htab _ Ht).
  - simpl. unfold general_recommendations. intros H.
    repeat (apply elem_of_cons in H as [H|H]; [discriminate|]).
    apply elem_of_nil in H. contradiction.
Qed.

Lemma general_recommendations_NoDup : NoDup general_recommendations.
Proof.
  unfold general_recommendations.
  apply NoDup_cons. split.
  - intros H. apply list_elem_of_singleton in H. discriminate.
  - apply NoDup_singleton.
Qed.

(** X15: the recommendations of a result never repeat a text.  A text
    is recommended exactly when it is the recommendation of the template
    of an evaluated angle whose status is NEEDS_IMPROVEMENT or POOR, or
    the overall score is below the pass threshold and the text is one of
    the two general recommendations. *)
Theorem generate_feedback_recommendations res :
  run = Done res ->
  NoDup (recommendations res) /\
  forall rec,
    rec ∈ recommendations res <->
    (exists name e,
       Analyzer.angle_evaluations ev !! name = Some e /\
       (Analyzer.status e = Analyzer.NEEDS_IMPROVEMENT \/
        Analyzer.status e = Analyzer.POOR) /\
       recommendation (template_of name) = rec) \/
    (Analyzer.overall_score ev < pass_threshold /\
     rec ∈ general_recommendations).
Proof.
  intros Hrun.
  destruct (generate_feedback_inv res Hrun)
    as (st & -> & _ & _ & Hnodup & Hrecs).
  cbn [recommendations].
  assert (Hwork : forall e : Analyzer.angle_evaluation,
            needs_work e = true <->
            Analyzer.status e = Analyzer.NEEDS_IMPROVEMENT \/
            Analyzer.status e = Analyzer.POOR).
  { intros e. unfold needs_work. destruct (Analyzer.status e);
      split; intros H; try discriminate; try reflexivity; auto;
      destruct H; discriminate. }
  assert (Hrecs' : forall rec, rec ∈ recs st <->
            exists name e,
              Analyzer.angle_evaluations ev !! name = Some e /\
              (Analyzer.status e = Analyzer.NEEDS_IMPROVEMENT \/
               Analyzer.status e = Analyzer.POOR) /\
              recommendation (template_of name) = rec).
  { intros rec. rewrite Hrecs. split; intros (name & e & He & Hw & Hr);
      exists name, e; (split; [exact He|]); (split; [|exact Hr]);
      apply Hwork; exact Hw. }
  destruct (Qle_bool pass_threshold (Analyzer.overall_score ev)) eqn:Hpass.
  - apply Qle_bool_iff in Hpass. split; [exact Hnodup|].
    intros rec. rewrite Hrecs'. split; [auto|].
    intros [H|[Hlt _]]; [exact H|]. exfalso. lra.
  - assert (Hlt : Analyzer.overall_score ev < pass_threshold).
    { apply Qnot_le_lt. intros Hle. apply Qle_bool_iff in Hle. congruence. }
    split.
    + apply NoDup_app. split; [exact Hnodup|].
      split; [|exact general_recommendations_NoDup].
      intros rec Hin Hgen. apply Hrecs in Hin as (name & e & _ & _ & <-).
      exact (template_recommendation_not_general name Hgen).
    + intros rec. rewrite elem_of_app, Hrecs'. split.
      * intros [H|H]; [left; exact H|right; split; [exact Hlt|exact H]].
      * intros [H|[_ H]]; [left; exact H|right; exact H].
Qed.

(** X16: the verdict follows the threshold, and at the default
    threshold of 70 a result passes exactly when its grade is A, B or C;
    the grade is A from 90, B from 80, C from 70, D from 60 and F
    below. *)
Theorem generate_feedback_grade res :
  run = Done res ->
  (pass_fail res = PASS <-> pass_threshold <= Analyzer.overall_score ev) /\
  (grade res = A <-> 90 <= Analyzer.overall_score ev) /\
  (grade res = B <->
     80 <= Analyzer.overall_score ev /\ Analyzer.overall_score ev < 90) /\
  (grade res = C <->
     70 <= Analyzer.overall_score ev /\ Analyzer.overall_score ev < 80) /\
  (grade res = D <->
     60 <= Analyzer.overall_score ev /\ Analyzer.overall_score ev < 70) /\
  (grade res = F <-> Analyzer.overall_score ev < 60) /\
  (pass_threshold == default_pass_threshold ->
   (pass_fail res = PASS <-> grade res = A \/ grade res = B \/ grade res = C)).
Proof.
  intros Hrun.
  destruct (generate_feedback_inv res Hrun) as (st & -> & _).
  cbn [pass_fail grade]. unfold grade_of, default_pass_threshold.
  set (s := Analyzer.overall_score ev).
  assert (Hb : forall c, (Qle_bool c s = true /\ c <= s) \/
                         (Qle_bool c s = false /\ s < c)).
  { intros c. destruct (Qle_bool c s) eqn:H.
    - left. split; [reflexivity|]. apply Qle_bool_iff, H.
    - right. split; [reflexivity|]. apply Qnot_le_lt. intros Hle.
      apply Qle_bool_iff in Hle. congruence. }
  destruct (Hb pass_threshold) as [[Et Ht]|[Et Ht]];
  destruct (Hb 90) as [[E90 H90]|[E90 H90]];
  destruct (Hb 80) as [[E80 H80]|[E80 H80]];
  destruct (Hb 70) as [[E70 H70]|[E70 H70]];
  destruct (Hb 60) as [[E60 H60]|[E60 H60]].
  all: rewrite Et, E90, ?E80, ?E70, ?E60; clear Hb Et E90 E80 E70 E60.
  all: repeat split; try discriminate; try reflexivity; try lra; auto.
  all: try (intros; exfalso; lra).
  all: try (intros [? ?]; exfalso; lra).
  all: try (intros Heq; try (intros _); try (left; reflexivity);
            try (right; left; reflexivity); try (right; right; reflexivity);
            exfalso; lra).
  all: try (intros Heq [H|[H|H]]; discriminate).
  all: intros [H'|[H'|H']]; discriminate.
Qed.

End FeedbackResult.

Lemma generate_feedback_outcome_witness :
  Feedback.generate_feedback marking_format downward_dog neck_evaluation
    "test.mp4" 70 = Feedback.KeyError "angle".
Proof.
  apply (proj2 (generate_feedback_outcome marking_format downward_dog
                  neck_evaluation "test.mp4" 70)).
  exists "neck". split.
  - eexists. apply lookup_insert_eq.
  - intros [t Ht]. discriminate.
Defined.

Lemma generate_feedback_entries_witness :
  exists res,
    Feedback.generate_feedback marking_format downward_dog knees_evaluation
      "test.mp4" 70 = Feedback.Done res /\
    Feedback.pose_name res = "downward-dog" /\
    Feedback.angle_evaluations res !! "left_knee" =
      Some {| Feedback.evaluation := knee_entry 12 Analyzer.NEEDS_IMPROVEMENT;
              Feedback.feedback :=
                "Your left knee angle is off by <.1f>¬∞. Ensure proper knee alignment to avoid injury." |} /\
    Feedback.angle_evaluations res !! "neck" = None.
Proof.
  destruct (Feedback.generate_feedback marking_format downward_dog
              knees_evaluation "test.mp4" 70) as [res|k|m|] eqn:Hrun;
    [|vm_compute in Hrun; discriminate ..].
  exists res. split; [reflexivity|].
  destruct (generate_feedback_entries _ _ _ _ _ res Hrun)
    as (Hpose & _ & _ & _ & Hentries).
  split; [exact Hpose|]. split.
  - pose proof (Hentries "left_knee") as H.
    change (Analyzer.angle_evaluations knees_evaluation !! "left_knee")
      with (Some (knee_entry 12 Analyzer.NEEDS_IMPROVEMENT)) in H.
    destruct H as (msg & -> & Hmsg).
    vm_compute in Hmsg. injection Hmsg as <-. reflexivity.
  - exact (Hentries "neck").
Defined.

Lemma generate_feedback_recommendations_witness :
  exists res,
    Feedback.generate_feedback marking_format downward_dog knees_evaluation
      "test.mp4" 70 = Feedback.Done res /\
    NoDup (Feedback.recommendations res) /\
    "Keep your knee aligned over your ankle and avoid hyperextension."
      ∈ Feedback.recommendations res /\
    "Watch tutorial videos to understand proper form and alignment."
      ∈ Feedback.recommendations res.
Proof.
  destruct (Feedback.generate_feedback marking_format downward_dog
              knees_evaluation "test.mp4" 70) as [res|k|m|] eqn:Hrun;
    [|vm_compute in Hrun; discriminate ..].
  exists res. split; [reflexivity|].
  destruct (generate_feedback_recommendations _ _ _ _ _ res Hrun)
    as (Hnodup & Hrecs).
  split; [exact Hnodup|]. split.
  - apply Hrecs. left.
    exists "left_knee", (knee_entry 12 Analyzer.NEEDS_IMPROVEMENT).
    split; [apply lookup_insert_eq|]. split; [left; reflexivity|reflexivity].
  - apply Hrecs. right. split; [reflexivity|].
    apply list_elem_of_further, list_elem_of_here.
Defined.

Lemma generate_feedback_grade_witness :
  exists res,
    Feedback.generate_feedback marking_format downward_dog knees_evaluation
      "test.mp4" 70 = Feedback.Done res /\
    Feedback.grade res = Feedback.D /\ Feedback.pass_fail res <> Feedback.PASS.
Proof.
  destruct (Feedback.generate_feedback marking_format downward_dog
              knees_evaluation "test.mp4" 70) as [res|k|m|] eqn:Hrun;
    [|vm_compute in Hrun; discriminate ..].
  exists res. split; [reflexivity|].
  destruct (generate_feedback_grade _ _ _ _ _ res Hrun)
    as (_ & _ & _ & _ & HD & _ & Hpass).
  split.
  - apply HD. split; [discriminate|reflexivity].
  - intros HP. apply Hpass in HP; [|reflexivity].
    assert (HDg : Feedback.grade res = Feedback.D)
      by (apply HD; split; [discriminate|reflexivity]).
    rewrite HDg in HP. destruct HP as [H|[H|H]]; discriminate.
Defined.

(** ** From the evaluation to the feedback *)

Lemma tracked_angles_have_templates :
  Forall (fun entry : string * Analyzer.pose_config =>
            Forall has_template (Analyzer.angles entry.2))
    Analyzer.POSE_ANGLE_DEFINITIONS.
Proof.
  unfold Analyzer.POSE_ANGLE_DEFINITIONS.
  repeat first [apply List.Forall_nil | apply List.Forall_cons].
  all: eexists; reflexivity.
Qed.

(** X17: for an analyzer of a supported pose and a golden standard whose
    angles are all tracked by the pose, a non-empty test always goes
    through: the evaluation returns, the feedback for it is produced
    without a [KeyError], and the feedback has an entry exactly for the
    angles of the golden standard that occur in at least one test
    frame. *)
Theorem evaluate_then_feedback
    format_float fastdtw name self test_angles golden stats source threshold :
  Analyzer.init name = Analyzer.Ok self ->
  test_angles <> [] ->
  Analyzer.gs_angles golden = Some stats ->
  (forall k, is_Some (stats !! k) ->
             k ∈ Analyzer.angles (Analyzer.angle_config self)) ->
  exists r res,
    Analyzer.evaluate_angles fastdtw self test_angles golden = Analyzer.Ok r /\
    Feedback.generate_feedback format_float self r source threshold
      = Feedback.Done res /\
    forall k,
      is_Some (Feedback.angle_evaluations res !! k) <->
      is_Some (stats !! k) /\ Analyzer.values_of k test_angles <> [].
Proof.
  intros Hinit Ht Hg Htracked.
  pose proof (evaluate_angles_result fastdtw self test_angles golden stats Ht Hg)
    as Hr.
  match type of Hr with _ = Analyzer.Ok ?x => set (r := x) in * end.
  assert (Hdom : forall k,
            is_Some (Analyzer.angle_evaluations r !! k) <->
            is_Some (stats !! k) /\ Analyzer.values_of k test_angles <> []).
  { intros k. unfold r. cbn [Analyzer.angle_evaluations].
    rewrite evaluate_angles_entries_dom, list_elem_of_fmap. split.
    - intros ([k' s] & -> & Hin). apply elem_of_included in Hin as [Hin Hv].
      apply elem_of_map_to_list in Hin. split; [eexists; exact Hin|exact Hv].
    - intros [[s Hs] Hv]. exists (k, s). split; [reflexivity|].
      apply elem_of_included. split; [apply elem_of_map_to_list, Hs|exact Hv]. }
  assert (Htemplates : forall k, is_Some (Analyzer.angle_evaluations r !! k) ->
                                 has_template k).
  { intros k Hk. apply Hdom in Hk as [Hk _]. apply Htracked in Hk.
    unfold Analyzer.init in Hinit.
    destruct (Analyzer.assoc name Analyzer.POSE_ANGLE_DEFINITIONS)
      as [cfg|] eqn:Hcfg; [|discriminate].
    injection Hinit as <-. cbn [Analyzer.angle_config] in Hk.
    apply assoc_elem_of in Hcfg.
    pose proof tracked_angles_have_templates as Htab.
    rewrite Forall_forall in Htab. specialize (Htab _ Hcfg).
    rewrite Forall_forall in Htab. exact (Htab _ Hk). }
  destruct (generate_feedback_succeeds format_float self r source threshold
              Htemplates) as (res & Hres & Hkeys).
  exists r, res. split; [exact Hr|]. split; [exact Hres|].
  intros k. rewrite Hkeys. apply Hdom.
Qed.

Lemma evaluate_then_feedback_witness :
  exists r res,
    Analyzer.evaluate_angles Analyzer.exact_dtw downward_dog hold_90
      golden_60_120 = Analyzer.Ok r /\
    Feedback.generate_feedback marking_format downward_dog r "test.mp4" 70
      = Feedback.Done res /\
    is_Some (Feedback.angle_evaluations res !! "left_knee").
Proof.
  destruct (evaluate_then_feedback marking_format Analyzer.exact_dtw
              "downward-dog" downward_dog hold_90 golden_60_120
              {[ "left_knee" := knee_stats 90 ]} "test.mp4" 70)
    as (r & res & Hr & Hres & Hkeys).
  - reflexivity.
  - discriminate.
  - reflexivity.
  - intros k [s Hs]. apply lookup_singleton_Some in Hs as [<- _].
    vm_compute. repeat constructor.
  - exists r, res. split; [exact Hr|]. split; [exact Hres|].
    apply Hkeys. split; [eexists; apply lookup_singleton_eq|discriminate].
Defined.

(** ** Angle calculator *)

Section AngleCalculatorProofs.

Import AngleCalculator.

Local Open Scope float_scope.

(** Comparison of floats in the other direction. *)
Lemma SFcompare_swap (a b : spec_float) :
  SFcompare b a = option_map CompOpp (SFcompare a b).
Proof.
  destruct a as [s1|s1| |s1 m1 e1], b as [s2|s2| |s2 m2 e2]; simpl;
    try reflexivity; try (destruct s1; reflexivity);
    try (destruct s2; reflexivity); try (destruct s1, s2; reflexivity).
  destruct s1, s2; simpl; try reflexivity.
  all: rewrite (Z.compare_antisym e1 e2); destruct (e1 ?= e2)%Z; simpl;
    try reflexivity.
  all: pose proof (Pos.compare_cont_antisym m1 m2 Eq) as H; simpl in H.
  all: fold (Pos.compare_cont Eq m1 m2); fold (Pos.compare_cont Eq m2 m1).
  all: rewrite <- H; destruct (Pos.compare_cont Eq m1 m2); reflexivity.
Qed.

(** Two numbers that are not NaN are ordered one way or the other. *)
Lemma not_ltb_leb (a b : float) :
  PrimFloat.is_nan a = false -> PrimFloat.is_nan b = false ->
  (a <? b) = false -> (b <=? a) = true.
Proof.
  unfold PrimFloat.is_nan.
  rewrite !FloatAxioms.eqb_spec, FloatAxioms.ltb_spec, FloatAxioms.leb_spec.
  unfold SFeqb, SFltb, SFleb. rewrite (SFcompare_swap (Prim2SF a) (Prim2SF b)).
  intros Ha Hb.
  destruct (SFcompare (Prim2SF a) (Prim2SF b)) as [[| |]|] eqn:Hc; simpl;
    try reflexivity; try discriminate.
  intros _. exfalso.
  destruct (Prim2SF a) as [s1|s1| |s1 m1 e1], (Prim2SF b) as [s2|s2| |s2 m2 e2];
    simpl in *; discriminate.
Qed.

(** A NaN is the one number that differs from itself. *)
Lemma is_nan_Prim2SF (c : float) :
  PrimFloat.is_nan c = true -> Prim2SF c = S754_nan.
Proof.
  unfold PrimFloat.is_nan. rewrite FloatAxioms.eqb_spec. unfold SFeqb.
  destruct (Prim2SF c) as [s|s| |s m e]; simpl; try discriminate;
    try reflexivity.
  - destruct s; discriminate.
  - fold (Pos.compare_cont Eq m m).
    rewrite Z.compare_refl, Pos.compare_cont_refl. destruct s; discriminate.
Qed.

Lemma Prim2SF_is_nan (c : float) :
  Prim2SF c = S754_nan -> PrimFloat.is_nan c = true.
Proof.
  intros H. unfold PrimFloat.is_nan. rewrite FloatAxioms.eqb_spec, H.
  reflexivity.
Qed.

(** A NaN is below nothing and nothing is below it. *)
Lemma ltb_nan_l (c d : float) : PrimFloat.is_nan c = true -> (c <? d) = false.
Proof.
  intros H. rewrite FloatAxioms.ltb_spec, (is_nan_Prim2SF c H). reflexivity.
Qed.

Lemma ltb_nan_r (d c : float) : PrimFloat.is_nan c = true -> (d <? c) = false.
Proof.
  intros H. rewrite FloatAxioms.ltb_spec, (is_nan_Prim2SF c H).
  unfold SFltb. destruct (Prim2SF d); reflexivity.
Qed.

Variable acos : float -> float.

(** After [np.clip] the arc cosine never raises. *)
Lemma math_acos_np_clip c : is_Some (math_acos acos (np_clip c)).
Proof.
  unfold np_clip.
  destruct (c <? -1) eqn:H1; [eexists; reflexivity|].
  destruct (1 <? c) eqn:H2; [eexists; reflexivity|].
  unfold math_acos. destruct (PrimFloat.is_nan c) eqn:Hn; [eexists; reflexivity|].
  rewrite (not_ltb_leb c (-1) Hn eq_refl H1).
  rewrite (not_ltb_leb 1 c eq_refl Hn H2).
  eexists; reflexivity.
Qed.

Lemma calculate_angle_is_Some p1 p2 p3 :
  is_Some (_calculate_angle acos p1 p2 p3).
Proof.
  unfold _calculate_angle. cbv zeta.
  match goal with |- context [math_acos acos (np_clip ?c)] =>
    destruct (math_acos_np_clip c) as [a ->] end.
  eexists. reflexivity.
Qed.

(** X18: [_calculate_angle] returns a number on every input: the cosine
    is clipped to [[-1, 1]] or is NaN, and [math.acos] accepts both, so
    the [except] branch that returns [None] is never taken.  A NaN
    cosine gives a NaN angle. *)
Theorem calculate_angle_never_none p1 p2 p3 :
  exists angle,
    _calculate_angle acos p1 p2 p3 = Some angle /\
    (PrimFloat.is_nan
       (np_dot {| x := x p1 - x p2; y := y p1 - y p2; z := z p1 - z p2 |}
               {| x := x p3 - x p2; y := y p3 - y p2; z := z p3 - z p2 |}
        / (np_linalg_norm
             {| x := x p1 - x p2; y := y p1 - y p2; z := z p1 - z p2 |}
           * np_linalg_norm
               {| x := x p3 - x p2; y := y p3 - y p2; z := z p3 - z p2 |}))
       = true ->
     PrimFloat.is_nan angle = true).
Proof.
  destruct (calculate_angle_is_Some p1 p2 p3) as [angle Hangle].
  exists angle. split; [exact Hangle|].
  intros Hnan. unfold _calculate_angle in Hangle. cbv zeta in Hangle.
  match type of Hnan with PrimFloat.is_nan ?c = true => set (cos := c) in * end.
  assert (Hclip : np_clip cos = cos).
  { unfold np_clip.
    rewrite (ltb_nan_l cos (-1) Hnan), (ltb_nan_r 1 cos Hnan). reflexivity. }
  rewrite Hclip in Hangle. unfold math_acos in Hangle. rewrite Hnan in Hangle.
  injection Hangle as <-. unfold math_degrees.
  apply Prim2SF_is_nan. rewrite FloatAxioms.mul_spec.
  rewrite (is_nan_Prim2SF cos Hnan). reflexivity.
Qed.

Variable tracked : list string.
Variable threshold : float.
Variable landmarks : landmarks_t.

Lemma check_landmarks_visible_spec names :
  _check_landmarks_visible threshold landmarks names = true <->
  Forall (visible threshold landmarks) names.
Proof.
  induction names as [|n names IH]; simpl.
  - split; [intros _; apply List.Forall_nil|reflexivity].
  - rewrite Forall_cons, <- IH. unfold visible.
    destruct (landmarks !! n) as [l|].
    + destruct (visibility l <? threshold) eqn:Hv.
      * split; [discriminate|]. intros [(l' & [= <-] & H) _]. congruence.
      * split; [intros H; split; [exists l; auto|exact H]|intros [_ H]; exact H].
    + split; [discriminate|]. intros [(l' & H & _) _]. discriminate.
Qed.

Lemma joint_block_lookup name a b c angles k :
  joint_block acos tracked threshold landmarks name a b c angles !! k =
  if (String.eqb k name && bool_decide (name ∈ tracked)
      && _check_landmarks_visible threshold landmarks [a; b; c])%bool
  then _calculate_angle acos (at_key landmarks a) (at_key landmarks b)
         (at_key landmarks c)
  else angles !! k.
Proof.
  unfold joint_block.
  destruct (bool_decide (name ∈ tracked));
    [|rewrite andb_false_r; reflexivity].
  destruct (_check_landmarks_visible threshold landmarks [a; b; c]);
    [|rewrite andb_false_r; reflexivity].
  destruct (calculate_angle_is_Some (at_key landmarks a) (at_key landmarks b)
              (at_key landmarks c)) as [v ->].
  destruct (String.eqb_spec k name) as [->|Hne]; cbn [andb].
  - apply lookup_insert_eq.
  - apply lookup_insert_ne. congruence.
Qed.

Lemma spine_block_lookup angles k :
  spine_block acos tracked threshold landmarks angles !! k =
  if (String.eqb k "spine_alignment"
      && bool_decide ("spine_alignment" ∈ tracked)
      && _check_landmarks_visible threshold landmarks spine_landmarks)%bool
  then _calculate_angle acos
         (midpoint (at_key landmarks "left_hip") (at_key landmarks "right_hip"))
         (midpoint (at_key landmarks "left_shoulder")
            (at_key landmarks "right_shoulder"))
         (at_key landmarks "nose")
  else angles !! k.
Proof.
  unfold spine_block. fold spine_landmarks.
  destruct (bool_decide ("spine_alignment" ∈ tracked));
    [|rewrite andb_false_r; reflexivity].
  destruct (_check_landmarks_visible threshold landmarks spine_landmarks);
    [|rewrite andb_false_r; reflexivity].
  cbv zeta.
  match goal with |- context [_calculate_angle acos ?p ?q ?r] =>
    destruct (calculate_angle_is_Some p q r) as [v ->] end.
  destruct (String.eqb_spec k "spine_alignment") as [->|Hne]; cbn [andb].
  - apply lookup_insert_eq.
  - apply lookup_insert_ne. congruence.
Qed.

Lemma angle_of_unknown k :
  k ∉ ["left_shoulder"; "right_shoulder"; "left_hip"; "right_hip"; "left_knee";
       "right_knee"; "left_elbow"; "right_elbow"; "spine_alignment"] ->
  angle_of acos threshold landmarks k = None /\ landmarks_of k = None.
Proof.
  intros Hk. unfold angle_of, landmarks_of. cbv zeta.
  repeat (apply not_elem_of_cons in Hk as [?%String.eqb_neq Hk]).
  unfold joint_landmarks. simpl Analyzer.assoc.
  repeat match goal with H : String.eqb _ _ = false |- _ => rewrite H; clear H end.
  split; reflexivity.
Qed.

(** The nine blocks of [calculate_angles] do not interfere: each entry
    is the angle computed on its own, when the angle is tracked. *)
Lemma calculate_angles_lookup k :
  calculate_angles acos tracked threshold landmarks !! k =
  if bool_decide (k ∈ tracked) then angle_of acos threshold landmarks k
  else None.
Proof.
  unfold calculate_angles. cbv zeta.
  rewrite spine_block_lookup. do 8 rewrite joint_block_lookup.
  rewrite lookup_empty.
  destruct (decide (k ∈ ["left_shoulder"; "right_shoulder"; "left_hip";
                         "right_hip"; "left_knee"; "right_knee"; "left_elbow";
                         "right_elbow"; "spine_alignment"])) as [Hin|Hout].
  - repeat (apply elem_of_cons in Hin as [->|Hin]);
      [..|apply elem_of_nil in Hin; contradiction].
    all: cbv [angle_of landmarks_of String.eqb Ascii.eqb Bool.eqb andb
              Analyzer.assoc joint_landmarks].
    all: match goal with |- context [bool_decide ?P] =>
           destruct (bool_decide P) end; try reflexivity.
    all: match goal with |- context [_check_landmarks_visible ?t ?l ?n] =>
           destruct (_check_landmarks_visible t l n) end; reflexivity.
  - rewrite (proj1 (angle_of_unknown k Hout)).
    repeat (apply not_elem_of_cons in Hout as [?%String.eqb_neq Hout]).
    repeat match goal with
    | H : String.eqb _ _ = false |- _ => rewrite H; clear H
    end.
    cbn [andb]. destruct (bool_decide (k ∈ tracked)); reflexivity.
Qed.

Lemma angle_of_is_Some k :
  is_Some (angle_of acos threshold landmarks k) <->
  exists needed,
    landmarks_of k = Some needed /\
    Forall (visible threshold landmarks) needed.
Proof.
  unfold angle_of, landmarks_of. cbv zeta.
  assert (Hcase : forall needed (r : option float),
            is_Some r ->
            (is_Some (if _check_landmarks_visible threshold landmarks needed
                      then r else None) <->
             exists needed',
               Some needed = Some needed' /\
               Forall (visible threshold landmarks) needed')).
  { intros needed r Hr.
    destruct (_check_landmarks_visible threshold landmarks needed) eqn:Hc.
    - split; [|intros _; exact Hr]. intros _. exists needed.
      split; [reflexivity|apply check_landmarks_visible_spec, Hc].
    - split; [intros [? ?]; discriminate|].
      intros (n' & [= <-] & H). apply check_landmarks_visible_spec in H.
      congruence. }
  destruct (String.eqb k "spine_alignment").
  - apply Hcase, calculate_angle_is_Some.
  - destruct (Analyzer.assoc k joint_landmarks) as [[[a b] c]|].
    + apply Hcase, calculate_angle_is_Some.
    + split; [intros [? ?]; discriminate|intros (n' & H & _); discriminate].
Qed.

(** X19: [calculate_angles] reports an angle exactly when the pose
    tracks it, it is one of the nine angles the method knows, and each
    landmark the angle needs was detected with a visibility that is not
    below the threshold; angles whose landmarks are occluded are left
    out without affecting the others. *)
Theorem calculate_angles_keys k :
  is_Some (calculate_angles acos tracked threshold landmarks !! k) <->
  k ∈ tracked /\
  exists needed,
    landmarks_of k = Some needed /\
    Forall (visible threshold landmarks) needed.
Proof.
  rewrite calculate_angles_lookup, <- angle_of_is_Some.
  destruct (bool_decide_reflect (k ∈ tracked)) as [Hin|Hout].
  - tauto.
  - split; [intros [? ?]; discriminate|tauto].
Qed.

(** X20: the entry of a tracked joint angle whose three landmarks are
    visible is the angle at the middle landmark between the directions
    to the other two, whatever the other landmarks and angles are. *)
Theorem calculate_angles_joint name a b c la lb lc :
  (name, (a, b, c)) ∈ joint_landmarks ->
  name ∈ tracked ->
  landmarks !! a = Some la -> landmarks !! b = Some lb ->
  landmarks !! c = Some lc ->
  (visibility la <? threshold) = false ->
  (visibility lb <? threshold) = false ->
  (visibility lc <? threshold) = false ->
  calculate_angles acos tracked threshold landmarks !! name =
  _calculate_angle acos (pos la) (pos lb) (pos lc).
Proof.
  intros Htab Hin Ha Hb Hc Hva Hvb Hvc.
  rewrite calculate_angles_lookup.
  rewrite (bool_decide_eq_true_2 _ Hin).
  assert (Hvis : _check_landmarks_visible threshold landmarks [a; b; c] = true).
  { simpl. rewrite Ha, Hva, Hb, Hvb, Hc, Hvc. reflexivity. }
  assert (Hpts : at_key landmarks a = pos la /\ at_key landmarks b = pos lb /\
                 at_key landmarks c = pos lc).
  { unfold at_key. rewrite Ha, Hb, Hc. auto. }
  destruct Hpts as (Hpa & Hpb & Hpc).
  unfold joint_landmarks in Htab.
  repeat (apply elem_of_cons in Htab as [[= -> -> -> ->]|Htab]);
    [..|apply elem_of_nil in Htab; contradiction].
  all: cbv [angle_of landmarks_of String.eqb Ascii.eqb Bool.eqb
            Analyzer.assoc joint_landmarks].
  all: rewrite Hvis, Hpa, Hpb, Hpc; reflexivity.
Qed.

(** X21: the shoulder angles are computed from the same three landmarks
    as the elbow angles, with the elbow as vertex: when a pose tracks
    both, the entries [left_shoulder] and [left_elbow] are both absent
    or both present with the same value, and likewise on the right. *)
Theorem calculate_angles_shoulder_is_elbow :
  ("left_shoulder" ∈ tracked -> "left_elbow" ∈ tracked ->
   calculate_angles acos tracked threshold landmarks !! "left_shoulder" =
   calculate_angles acos tracked threshold landmarks !! "left_elbow") /\
  ("right_shoulder" ∈ tracked -> "right_elbow" ∈ tracked ->
   calculate_angles acos tracked threshold landmarks !! "right_shoulder" =
   calculate_angles acos tracked threshold landmarks !! "right_elbow").
Proof.
  split; intros Hs He; rewrite !calculate_angles_lookup;
    rewrite (bool_decide_eq_true_2 _ Hs), (bool_decide_eq_true_2 _ He);
    reflexivity.
Qed.

End AngleCalculatorProofs.

Lemma calculate_angles_joint_witness :
  AngleCalculator.calculate_angles (fun c => c)
    (Analyzer.angles (Analyzer.angle_config warrior_2))
    AngleCalculator.default_visibility_threshold bent_arm_frame !! "left_elbow"
  = AngleCalculator._calculate_angle (fun c => c)
      (AngleCalculator.pos (AngleCalculator.lm 0.5 0.25 0))
      (AngleCalculator.pos (AngleCalculator.lm 0.5 0.5 0))
      (AngleCalculator.pos (AngleCalculator.lm 0.75 0.5 0)).
Proof.
  apply (calculate_angles_joint (fun c => c)
           (Analyzer.angles (Analyzer.angle_config warrior_2))
           AngleCalculator.default_visibility_threshold bent_arm_frame
           "left_elbow" "left_shoulder" "left_elbow" "left_wrist").
  - unfold joint_landmarks. repeat constructor.
  - vm_compute. repeat constructor.
  - reflexivity.
  - reflexivity.
  - reflexivity.
  - reflexivity.
  - reflexivity.
  - reflexivity.
Defined.

Lemma calculate_angles_shoulder_is_elbow_witness :
  AngleCalculator.calculate_angles (fun c => c)
    (Analyzer.angles (Analyzer.angle_config warrior_2))
    AngleCalculator.default_visibility_threshold bent_arm_frame
    !! "left_shoulder"
  = AngleCalculator.calculate_angles (fun c => c)
      (Analyzer.angles (Analyzer.angle_config warrior_2))
      AngleCalculator.default_visibility_threshold bent_arm_frame
      !! "left_elbow".
Proof.
  apply (proj1 (calculate_angles_shoulder_is_elbow (fun c => c)
                  (Analyzer.angles (Analyzer.angle_config warrior_2))
                  AngleCalculator.default_visibility_threshold bent_arm_frame)).
  - vm_compute. repeat constructor.
  - vm_compute. repeat constructor.
Defined.

(** * The binary64 reading *)

(** ** The loops of [evaluate_angles] *)

Section Binary64Loops.

Import Binary64.

Variable self : Analyzer.analyzer.
Variable test_angles : list frame_angles.
Variable dtw_scores : gmap string float.



Variable means : gmap string float.



End Binary64Loops.

(** ** C6 on binary64 numbers *)




(** ** C8 on binary64 numbers *)

(** C8, as stated, fails on binary64 numbers: for three frames with the
    knee at 0.1 the sum is 0.30000000000000004 and the mean
    0.10000000000000002, above the maximum 0.1. *)
Lemma golden_standard_mean_above_max :
  exists g stats s,
    Binary64.create_golden_standard downward_dog still_frames "golden.mp4" None
      = Analyzer.Ok g /\
    Binary64.gs_angles g = Some stats /\
    stats !! "left_knee" = Some s /\
    Binary64.min s = one_tenth /\ Binary64.max s = one_tenth /\
    (Binary64.max s <? Binary64.mean s)%float = true /\
    (Binary64.mean s <=? Binary64.max s)%float = false.
Proof.
  eexists. eexists. eexists. split; [vm_compute; reflexivity|].
  split; [reflexivity|]. split; [vm_compute; reflexivity|].
  repeat split; vm_compute; reflexivity.
Qed.
